(** * Crime-data dashboard: the aggregation layer of [utils/data.py] and the
    context summary of [utils/chatbot.py]

    The Python code works on pandas tables.  A table is embedded as a list of
    column labels and a list of rows; the pandas operations the code calls
    ([rename], [dropna], [groupby(...).sum()], [sort_values], [pct_change],
    [head], ...) are embedded as list functions that follow the documented
    behaviour of pandas, and the functions of the repository are written on
    top of them, statement by statement.

    The [st.cache_data] decorator of the aggregations memoizes the calls and
    is outside the embedding: the functions are the decorated bodies.

    Conventions of the embedding:
    - a cell is an integer, a string or the missing marker (NaN / None);
      counts and years of the data set are integers, and sums of cells are
      exact (the int64 range is never approached by incident counts);
    - column labels of a table are distinct, as [read_csv] produces them; the
      one place where the code itself may create equal labels (renaming) is
      treated explicitly;
    - a string met where pandas needs a number is reported as [TypeError];
    - float64 columns exist only in derived tables; their arithmetic is an
      interface [FloatArith] with two instances, IEEE binary64 on the
      primitive floats, which is the arithmetic of the code, and exact
      extended rationals, which give the real value of the same formulas. *)

From Stdlib Require Import ZArith QArith Qround List String Ascii Bool Lia.
From Stdlib Require Import Permutation Sorted Floats.
Import ListNotations.

Local Open Scope string_scope.
Local Open Scope list_scope.
Local Open Scope Z_scope.

(** ** Python values and exceptions *)

Inductive exn : Type :=
| KeyError (label : string)
| TypeError
| ValueError.

Inductive result (A : Type) : Type :=
| Ok (a : A)
| Raise (e : exn).

Arguments Ok {A} a.
Arguments Raise {A} e.

Definition rbind {A B : Type} (m : result A) (k : A -> result B) : result B :=
  match m with
  | Ok a => k a
  | Raise e => Raise e
  end.

Definition is_ok {A : Type} (m : result A) : bool :=
  match m with Ok _ => true | Raise _ => false end.

Declare Scope result_scope.
Delimit Scope result_scope with result.
Notation "x <- m ;; k" := (rbind m (fun x => k))
  (at level 61, m at next level, right associativity) : result_scope.

(** ** The string methods the code uses *)

Module PyStr.

Definition is_ascii_digit (c : ascii) : bool :=
  let n := nat_of_ascii c in (48 <=? n)%nat && (n <=? 57)%nat.

Fixpoint all_digits (s : string) : bool :=
  match s with
  | EmptyString => true
  | String c s' => is_ascii_digit c && all_digits s'
  end.

(** [str.isdigit]: a non-empty string of digits (ASCII labels). *)
Definition isdigit (s : string) : bool :=
  match s with
  | EmptyString => false
  | _ => all_digits s
  end.

Definition lower_ascii (c : ascii) : ascii :=
  let n := nat_of_ascii c in
  if (65 <=? n)%nat && (n <=? 90)%nat then ascii_of_nat (n + 32) else c.

(** [str.lower] on the ASCII letters. *)
Fixpoint lower (s : string) : string :=
  match s with
  | EmptyString => EmptyString
  | String c s' => String (lower_ascii c) (lower s')
  end.

(** [sub in s]. *)
Fixpoint contains (sub s : string) : bool :=
  prefix sub s ||
  match s with
  | EmptyString => false
  | String _ s' => contains sub s'
  end.

(** [sep.join(parts)]. *)
Definition join (sep : string) (parts : list string) : string :=
  String.concat sep parts.

Definition digit_char (d : Z) : ascii := ascii_of_nat (48 + Z.to_nat d).

Fixpoint digits_fuel (fuel : nat) (n : Z) (acc : string) : string :=
  match fuel with
  | O => acc
  | S fuel' =>
      let acc' := String (digit_char (n mod 10)) acc in
      if n / 10 =? 0 then acc' else digits_fuel fuel' (n / 10) acc'
  end.

(** Decimal digits of a non-negative integer. *)
Definition digits (n : Z) : string :=
  digits_fuel (S (Z.to_nat (Z.log2 n))) n EmptyString.

(** [str(n)], which is also [format(n, ".0f")] for an integer below 2^53. *)
Definition of_int (z : Z) : string :=
  if z <? 0 then String "-" (digits (- z)) else digits z.

Fixpoint group3 (rev_digits : list ascii) : list ascii :=
  match rev_digits with
  | a :: b :: c :: ((_ :: _) as rest) => a :: b :: c :: ","%char :: group3 rest
  | l => l
  end.

(** [format(n, ",.0f")]: digits in groups of three. *)
Definition of_int_grouped (z : Z) : string :=
  let body (n : Z) :=
    string_of_list_ascii (rev (group3 (rev (list_ascii_of_string (digits n))))) in
  if z <? 0 then String "-" (body (- z)) else body z.

End PyStr.

(** ** Tables *)

Inductive cell : Type :=
| CInt (z : Z)
| CStr (s : string)
| CNA.

Definition cell_eq_dec (a b : cell) : {a = b} + {a <> b}.
Proof. decide equality; [apply Z.eq_dec | apply string_dec]. Defined.

Definition isna (c : cell) : bool :=
  match c with CNA => true | _ => false end.

Definition is_str (c : cell) : bool :=
  match c with CStr _ => true | _ => false end.

(** Order of group keys: integers by value, strings by code point. *)
Definition cell_leb (a b : cell) : bool :=
  match a, b with
  | CInt x, CInt y => x <=? y
  | CStr s, CStr t => String.leb s t
  | CInt _, CStr _ => true
  | CStr _, CInt _ => false
  | _, CNA => true
  | CNA, _ => false
  end.

Definition row : Type := list cell.

Record DataFrame : Type := mkDF {
  columns : list string;
  rows : list row
}.

Definition in_columns (c : string) (df : DataFrame) : bool :=
  existsb (String.eqb c) (columns df).

Fixpoint index_of (c : string) (cols : list string) : option nat :=
  match cols with
  | [] => None
  | c' :: rest =>
      if String.eqb c c' then Some O
      else option_map S (index_of c rest)
  end.

Definition cell_at (i : nat) (r : row) : cell := nth i r CNA.

(** [df[c]]: the column as a list of cells, [KeyError] when absent. *)
Definition series (c : string) (df : DataFrame) : result (list cell) :=
  match index_of c (columns df) with
  | Some i => Ok (map (cell_at i) (rows df))
  | None => Raise (KeyError c)
  end.

(** Every row has one cell per column. *)
Definition well_formed (df : DataFrame) : bool :=
  forallb (fun r => Nat.eqb (List.length r) (List.length (columns df))) (rows df).

(** [df[c] = vals] for a label [c] that is not yet a column: the column is
    appended on the right. *)
Definition assign_new (c : string) (vals : list cell) (df : DataFrame) : DataFrame :=
  mkDF (columns df ++ [c])
       (map (fun rv => fst rv ++ [snd rv]) (combine (rows df) vals)).

(** [df.copy()]: a new table object with the same content. *)
Definition copy (df : DataFrame) : DataFrame := df.

(** [df[mask]] for the mask computed row by row. *)
Definition select (keep : row -> bool) (df : DataFrame) : DataFrame :=
  mkDF (columns df) (filter keep (rows df)).

(** [df[df[c] == v]]. *)
Definition filter_eq (c : string) (test : cell -> bool) (df : DataFrame)
  : result DataFrame :=
  match index_of c (columns df) with
  | Some i => Ok (select (fun r => test (cell_at i r)) df)
  | None => Raise (KeyError c)
  end.

Definition eq_str (s : string) (c : cell) : bool :=
  match c with CStr t => String.eqb t s | _ => false end.

Definition eq_int (z : Z) (c : cell) : bool :=
  match c with CInt y => y =? z | _ => false end.

(** Truth value of an optional argument: [None], [0] and the empty string are
    false. *)
Definition truthy_str (o : option string) : bool :=
  match o with
  | Some EmptyString => false
  | Some _ => true
  | None => false
  end.

Definition truthy_int (o : option Z) : bool :=
  match o with
  | Some z => negb (z =? 0)
  | None => false
  end.

(** ** float64 arithmetic *)

(** What the code needs of float64: conversion from an integer, [-], [*], [/],
    rounding to the nearest integer (ties to even) and NaN. *)
Class FloatArith (F : Type) : Type := {
  float_of_int : Z -> F;
  fsub : F -> F -> F;
  fmul : F -> F -> F;
  fdiv : F -> F -> F;
  frint : F -> F;
  fnan : F
}.

(** [numpy.round(x, 2)]: [rint(x * 100) / 100]. *)
Definition fround2 {F : Type} `{FloatArith F} (x : F) : F :=
  fdiv (frint (fmul x (float_of_int 100))) (float_of_int 100).

(** *** Exact instance: rationals extended with the infinities and NaN.

    Finite results carry the exact rational (no rounding of the mantissa), in
    reduced form; infinities and NaN arise as IEEE 754 prescribes.  A zero
    divisor is always the conversion of the integer 0, hence positive zero.
    This instance gives the value of a formula in the real numbers; it is
    not the arithmetic of the code, whose float64 rounds each operation (the
    percentage of 93 in 160 is 58.12 here and 58.13 in binary64). *)
Inductive xfloat : Type :=
| XNum (q : Q)
| XInf (negative : bool)
| XNaN.

Module Exact.

Definition is_zero (q : Q) : bool := (Qnum q =? 0)%Z.
Definition is_neg (q : Q) : bool := (Qnum q <? 0)%Z.

Definition of_int (z : Z) : xfloat := XNum (inject_Z z).

Definition sub (a b : xfloat) : xfloat :=
  match a, b with
  | XNaN, _ | _, XNaN => XNaN
  | XInf s, XInf t => if Bool.eqb s t then XNaN else XInf s
  | XInf s, XNum _ => XInf s
  | XNum _, XInf t => XInf (negb t)
  | XNum x, XNum y => XNum (Qred (x - y))
  end.

Definition mul (a b : xfloat) : xfloat :=
  match a, b with
  | XNaN, _ | _, XNaN => XNaN
  | XInf s, XInf t => XInf (xorb s t)
  | XInf s, XNum y => if is_zero y then XNaN else XInf (xorb s (is_neg y))
  | XNum x, XInf t => if is_zero x then XNaN else XInf (xorb (is_neg x) t)
  | XNum x, XNum y => XNum (Qred (x * y))
  end.

Definition div (a b : xfloat) : xfloat :=
  match a, b with
  | XNaN, _ | _, XNaN => XNaN
  | XInf _, XInf _ => XNaN
  | XInf s, XNum y => XInf (xorb s (is_neg y))
  | XNum _, XInf _ => XNum 0
  | XNum x, XNum y =>
      if is_zero y then (if is_zero x then XNaN else XInf (is_neg x))
      else XNum (Qred (x / y))
  end.

(** Nearest integer, ties to the even one. *)
Definition round_half_even (q : Q) : Z :=
  let f := Qfloor q in
  match Qcompare (q - inject_Z f) (1 # 2) with
  | Lt => f
  | Gt => f + 1
  | Eq => if Z.even f then f else f + 1
  end.

Definition rint (a : xfloat) : xfloat :=
  match a with
  | XNum q => XNum (inject_Z (round_half_even q))
  | other => other
  end.

End Exact.

#[export] Instance exact_arith : FloatArith xfloat := {
  float_of_int := Exact.of_int;
  fsub := Exact.sub;
  fmul := Exact.mul;
  fdiv := Exact.div;
  frint := Exact.rint;
  fnan := XNaN
}.

(** *** IEEE 754 binary64, on the primitive floats. *)
Module Binary64.

(** Conversion of an integer, rounded to nearest even. *)
Definition of_int (z : Z) : float :=
  SF2Prim (binary_normalize prec emax z 0 false).

Definition two52 : float := of_int (2 ^ 52).

(** [rint]: below 2^52 in magnitude, adding and removing 2^52 rounds to the
    nearest integer, ties to even; from 2^52 on every float is an integer. *)
Definition rint (x : float) : float :=
  if PrimFloat.ltb (PrimFloat.abs x) two52 then
    if PrimFloat.ltb x PrimFloat.zero
    then PrimFloat.opp (PrimFloat.sub (PrimFloat.add (PrimFloat.opp x) two52) two52)
    else PrimFloat.sub (PrimFloat.add x two52) two52
  else x.

End Binary64.

#[export] Instance binary64_arith : FloatArith float := {
  float_of_int := Binary64.of_int;
  fsub := PrimFloat.sub;
  fmul := PrimFloat.mul;
  fdiv := PrimFloat.div;
  frint := Binary64.rint;
  fnan := PrimFloat.nan
}.

(** ** The pandas operations of the aggregations *)

Section Sorting.

Context {A : Type}.
Variable le : A -> A -> bool.

Fixpoint insert_sorted (x : A) (l : list A) : list A :=
  match l with
  | [] => [x]
  | y :: l' => if le x y then x :: l else y :: insert_sorted x l'
  end.

(** Stable insertion sort: an element stays ahead of the later elements it
    ties with. *)
Definition isort (l : list A) : list A := fold_right insert_sorted [] l.

End Sorting.

(** [sort_values(key, ascending=False)] on an integer column; ties keep their
    order. *)
Definition sort_desc {A : Type} (key : A -> Z) (l : list A) : list A :=
  isort (fun a b => key b <=? key a) l.

Section GroupBy.

Context {K V : Type}.
Variable K_eq_dec : forall a b : K, {a = b} + {a <> b}.
Variable K_leb : K -> K -> bool.
Variable add : V -> V -> V.
Variable zero : V.

Definition same_key (k : K) (kv : K * V) : bool :=
  if K_eq_dec (fst kv) k then true else false.

(** The distinct keys, in ascending order ([sort=True]). *)
Definition group_keys (kvs : list (K * V)) : list K :=
  isort K_leb (nodup K_eq_dec (map fst kvs)).

(** The aggregate of the rows of one group. *)
Definition group_total (kvs : list (K * V)) (k : K) : V :=
  fold_right add zero (map snd (filter (same_key k) kvs)).

(** [groupby(keys).agg(...)] followed by [reset_index()]; the caller has
    removed the rows with a missing key, which [groupby] leaves out
    ([dropna=True]). *)
Definition groupby_agg (kvs : list (K * V)) : list (K * V) :=
  map (fun k => (k, group_total kvs k)) (group_keys kvs).

End GroupBy.

Definition key2 : Type := cell * cell.

Definition key2_eq_dec (a b : key2) : {a = b} + {a <> b}.
Proof. decide equality; apply cell_eq_dec. Defined.

Definition key2_leb (a b : key2) : bool :=
  if cell_eq_dec (fst a) (fst b) then cell_leb (snd a) (snd b)
  else cell_leb (fst a) (fst b).

(** A cell read as a number to be summed: a missing value is skipped. *)
Definition summand (c : cell) : result Z :=
  match c with
  | CInt z => Ok z
  | CNA => Ok 0
  | CStr _ => Raise TypeError
  end.

Fixpoint summands (cs : list cell) : result (list Z) :=
  match cs with
  | [] => Ok []
  | c :: cs' =>
      (z <- summand c ;; zs <- summands cs' ;; Ok (z :: zs))%result
  end.

Definition zsum (l : list Z) : Z := fold_right Z.add 0 l.

(** [Series.pct_change()] of an integer column: NaN first, then
    [cur / prev - 1]. *)
Definition pct_change {F : Type} `{FloatArith F} (l : list Z) : list F :=
  match l with
  | [] => []
  | _ :: rest =>
      fnan :: map (fun pc => fsub (fdiv (float_of_int (snd pc)) (float_of_int (fst pc)))
                                  (float_of_int 1))
                  (combine l rest)
  end.

(** [head(n)]: the first [n] rows, or all but the last [-n] for a negative
    [n]. *)
Definition head {A : Type} (n : Z) (l : list A) : list A :=
  if 0 <=? n then firstn (Z.to_nat n) l
  else firstn (List.length l - Z.to_nat (- n)) l.

Fixpoint map_result {A B : Type} (f : A -> result B) (l : list A) : result (list B) :=
  match l with
  | [] => Ok []
  | a :: l' => (b <- f a ;; bs <- map_result f l' ;; Ok (b :: bs))%result
  end.

(** The position of a label, [KeyError] when it is not a column. *)
Definition position (c : string) (df : DataFrame) : result nat :=
  match index_of c (columns df) with
  | Some i => Ok i
  | None => Raise (KeyError c)
  end.

(** [df[cols].sum(axis=1)]. *)
Definition sum_axis1 (cols : list string) (df : DataFrame) : result (list Z) :=
  (idx <- map_result (fun c => position c df) cols ;;
   map_result (fun r => zs <- summands (map (fun i => cell_at i r) idx) ;; Ok (zsum zs))
              (rows df))%result.

(** [df.rename(columns=mapping)]. *)
Fixpoint lookup (k : string) (mapping : list (string * string)) : option string :=
  match mapping with
  | [] => None
  | (k', v) :: rest => if String.eqb k k' then Some v else lookup k rest
  end.

Definition rename_label (mapping : list (string * string)) (c : string) : string :=
  match lookup c mapping with
  | Some v => v
  | None => c
  end.

Definition rename_columns (mapping : list (string * string)) (df : DataFrame)
  : DataFrame :=
  mkDF (map (rename_label mapping) (columns df)) (rows df).

Fixpoint update_at (i : nat) (f : cell -> cell) (r : row) : row :=
  match r, i with
  | [], _ => []
  | c :: r', O => f c :: r'
  | c :: r', S i' => c :: update_at i' f r'
  end.

(** The positions of the columns that carry one of the labels. *)
Fixpoint positions_from (start : nat) (labels cols : list string) : list nat :=
  match cols with
  | [] => []
  | c :: cols' =>
      if existsb (String.eqb c) labels
      then start :: positions_from (S start) labels cols'
      else positions_from (S start) labels cols'
  end.

(** [df.dropna(subset=labels)]: a row stays when none of these cells is
    missing. *)
Definition dropna (labels : list string) (df : DataFrame) : DataFrame :=
  select (fun r => forallb (fun j => negb (isna (cell_at j r)))
                           (positions_from 0 labels (columns df)))
         df.

(** ** utils/data.py *)

Module DataLoader.

Definition column_mapping : list (string * string) :=
  [ ("Code département", "code_dept");
    ("Département", "departement");
    ("Code service", "code_service");
    ("Service", "service");
    ("Unité de compte", "unite");
    ("Classe", "classe");
    ("classe", "classe");
    ("Index", "index");
    ("Millésime", "annee");
    ("annee", "annee") ].

Section Clean.

(** The numeral a string holds, as [pd.to_numeric] reads it; [None] when
    it holds none. *)
Variable parse_number : string -> option Z.

(** [pd.to_numeric(..., errors='coerce')] on one cell. *)
Definition to_numeric (c : cell) : cell :=
  match c with
  | CStr s =>
      match parse_number s with
      | Some z => CInt z
      | None => CNA
      end
  | other => other
  end.

(** [df['annee'] = pd.to_numeric(df['annee'], errors='coerce')]: with two
    columns of that label [df['annee']] is a table and [to_numeric]
    refuses it. *)
Definition annee_to_numeric (df : DataFrame) : result DataFrame :=
  if (1 <? count_occ string_dec (columns df) "annee")%nat then Raise TypeError
  else
    match index_of "annee" (columns df) with
    | Some i => Ok (mkDF (columns df) (map (update_at i to_numeric) (rows df)))
    | None => Raise (KeyError "annee")
    end.

(** [_clean_crime_data(df)]. *)
Definition _clean_crime_data (df : DataFrame) : result DataFrame :=
  let df :=
    rename_columns
      (filter (fun kv => in_columns (fst kv) df) column_mapping) df in
  (df <- (if in_columns "annee" df then annee_to_numeric df else Ok df) ;;
   let critical_cols :=
     filter (fun col => in_columns col df) ["code_dept"; "annee"; "classe"] in
   let df :=
     match critical_cols with
     | [] => df
     | _ => dropna critical_cols df
     end in
   Ok df)%result.

End Clean.

(** [[col for col in df.columns if col.isdigit() or 'mois' in col.lower()]]. *)
Definition month_cols (df : DataFrame) : list string :=
  filter (fun col => PyStr.isdigit col || PyStr.contains "mois" (PyStr.lower col))
         (columns df).

(** The count-column resolution that opens each of the four aggregations:
<<
    if 'faits' not in df.columns:
        month_cols = [...]
        if month_cols: df['faits'] = df[month_cols].sum(axis=1)
        else:          df['faits'] = 1
>>
    The result is the table object after the block; when the row-wise sum
    raises, nothing has been assigned. *)
Definition ensure_faits (df : DataFrame) : result DataFrame :=
  if negb (in_columns "faits" df) then
    match month_cols df with
    | [] => Ok (assign_new "faits" (repeat (CInt 1) (List.length (rows df))) df)
    | cols =>
        (sums <- sum_axis1 cols df ;;
         Ok (assign_new "faits" (map CInt sums) df))%result
    end
  else Ok df.

Record dept_stat : Type := mkDeptStat {
  ds_code_dept : cell;
  ds_departement : cell;
  ds_total_faits : Z;
  ds_nb_enregistrements : Z
}.

Definition add2 (a b : Z * Z) : Z * Z := (fst a + fst b, snd a + snd b).

(** The statements after the resolution block of [get_department_stats]:
    [groupby(['code_dept', 'departement']).agg({'faits': 'sum', 'annee':
    'count'})], the renaming of the columns and the descending sort. *)
Definition department_groupby (df : DataFrame) : result (list dept_stat) :=
  (code_dept <- series "code_dept" df ;;
   departement <- series "departement" df ;;
   faits <- series "faits" df ;;
   annee <- series "annee" df ;;
   faits <- summands faits ;;
   let counts := map (fun c => if isna c then 0 else 1) annee in
   let stats :=
     groupby_agg key2_eq_dec key2_leb add2 (0, 0)
       (filter (fun kv => negb (isna (fst (fst kv))) && negb (isna (snd (fst kv))))
               (combine (combine code_dept departement) (combine faits counts))) in
   Ok (sort_desc ds_total_faits
         (map (fun kv => mkDeptStat (fst (fst kv)) (snd (fst kv))
                                    (fst (snd kv)) (snd (snd kv)))
              stats)))%result.

(** [get_department_stats(df)].  The block assigns to the argument itself:
    the first component is the caller's table after the call. *)
Definition get_department_stats (df : DataFrame)
  : DataFrame * result (list dept_stat) :=
  match ensure_faits df with
  | Raise e => (df, Raise e)
  | Ok df' => (df', department_groupby df')
  end.

Record evolution_row (F : Type) : Type := mkEvolution {
  ev_annee : cell;
  ev_total_faits : Z;
  ev_evolution_pct : F
}.
Arguments mkEvolution {F}.
Arguments ev_annee {F}.
Arguments ev_total_faits {F}.
Arguments ev_evolution_pct {F}.

(** [df.groupby(c)['faits'].sum().reset_index()]. *)
Definition groupby_sum (c : string) (df : DataFrame) : result (list (cell * Z)) :=
  (keys <- series c df ;;
   faits <- series "faits" df ;;
   faits <- summands faits ;;
   Ok (groupby_agg cell_eq_dec cell_leb Z.add 0
         (filter (fun kv => negb (isna (fst kv))) (combine keys faits))))%result.

(** The statements after the resolution block of [get_temporal_evolution]. *)
Definition evolution_of {F : Type} `{FloatArith F} (df : DataFrame)
  : result (list (evolution_row F)) :=
  (evolution <- groupby_sum "annee" df ;;
   let pct := map (fun p => fmul p (float_of_int 100))
                  (pct_change (map snd evolution)) in
   Ok (map (fun kp => mkEvolution (fst (fst kp)) (snd (fst kp)) (snd kp))
           (combine evolution pct)))%result.

(** [get_temporal_evolution(df, dept_code)].  With a department code the
    name [df] is rebound to the filtered table, a new object, and the block
    assigns to that one; without, it assigns to the argument. *)
Definition get_temporal_evolution {F : Type} `{FloatArith F}
    (df : DataFrame) (dept_code : option string)
  : DataFrame * result (list (evolution_row F)) :=
  if truthy_str dept_code then
    (df,
     (selected <- filter_eq "code_dept" (eq_str (match dept_code with
                                                 | Some s => s
                                                 | None => ""
                                                 end)) df ;;
      selected' <- ensure_faits selected ;;
      evolution_of selected')%result)
  else
    match ensure_faits df with
    | Raise e => (df, Raise e)
    | Ok df' => (df', evolution_of df')
    end.

Record distribution_row (F : Type) : Type := mkDistribution {
  di_type_crime : cell;
  di_total : Z;
  di_pourcentage : F
}.
Arguments mkDistribution {F}.
Arguments di_type_crime {F}.
Arguments di_total {F}.
Arguments di_pourcentage {F}.

(** [if dept_code: filtered_df = filtered_df[filtered_df['code_dept'] ==
    dept_code]] and its twin on the year. *)
Definition filter_dept (dept_code : option string) (df : DataFrame)
  : result DataFrame :=
  if truthy_str dept_code then
    filter_eq "code_dept" (eq_str (match dept_code with
                                   | Some s => s
                                   | None => ""
                                   end)) df
  else Ok df.

Definition filter_year (year : option Z) (df : DataFrame) : result DataFrame :=
  if truthy_int year then
    filter_eq "annee" (eq_int (match year with Some y => y | None => 0 end)) df
  else Ok df.

(** The statements of [get_crime_types_distribution] after the filters and
    the resolution block. *)
Definition distribution_of {F : Type} `{FloatArith F} (df : DataFrame)
  : result (list (distribution_row F)) :=
  (groups <- groupby_sum "classe" df ;;
   let distribution := sort_desc snd groups in
   let whole := zsum (map snd distribution) in
   Ok (map (fun kv =>
              mkDistribution (fst kv) (snd kv)
                (fround2 (fmul (fdiv (float_of_int (snd kv)) (float_of_int whole))
                               (float_of_int 100))))
           distribution))%result.

(** [get_crime_types_distribution(df, dept_code, year)]: everything happens
    on [df.copy()]. *)
Definition get_crime_types_distribution {F : Type} `{FloatArith F}
    (df : DataFrame) (dept_code : option string) (year : option Z)
  : DataFrame * result (list (distribution_row F)) :=
  let filtered_df := copy df in
  (df,
   (filtered_df <- filter_dept dept_code filtered_df ;;
    filtered_df <- filter_year year filtered_df ;;
    filtered_df <- ensure_faits filtered_df ;;
    distribution_of filtered_df)%result).

Record top_row : Type := mkTop {
  top_code_dept : cell;
  top_departement : cell;
  top_total_faits : Z
}.

(** [df.groupby(['code_dept', 'departement'])['faits'].sum().reset_index()]. *)
Definition groupby2_sum (df : DataFrame) : result (list top_row) :=
  (code_dept <- series "code_dept" df ;;
   departement <- series "departement" df ;;
   faits <- series "faits" df ;;
   faits <- summands faits ;;
   Ok (map (fun kv => mkTop (fst (fst kv)) (snd (fst kv)) (snd kv))
           (groupby_agg key2_eq_dec key2_leb Z.add 0
              (filter (fun kv => negb (isna (fst (fst kv))) && negb (isna (snd (fst kv))))
                      (combine (combine code_dept departement) faits)))))%result.

(** [get_top_departments(df, n, year)], on [df.copy()]. *)
Definition get_top_departments (df : DataFrame) (n : Z) (year : option Z)
  : DataFrame * result (list top_row) :=
  let filtered_df := copy df in
  (df,
   (filtered_df <- filter_year year filtered_df ;;
    filtered_df <- ensure_faits filtered_df ;;
    top <- groupby2_sum filtered_df ;;
    Ok (head n (sort_desc top_total_faits top)))%result).

End DataLoader.

(** A number returned by [calculate_crime_rate]: the literal [0] or a float. *)
Inductive pynum (F : Type) : Type :=
| PyInt (z : Z)
| PyFloat (x : F).
Arguments PyInt {F} z.
Arguments PyFloat {F} x.

(** [calculate_crime_rate(total_crimes, population)]. *)
Definition calculate_crime_rate {F : Type} `{FloatArith F}
    (total_crimes population : Z) : pynum F :=
  if population =? 0 then PyInt 0
  else PyFloat (fmul (fdiv (float_of_int total_crimes) (float_of_int population))
                     (float_of_int 1000)).

(** ** utils/chatbot.py *)

(** [Series.unique()]: the distinct values, NaN counted once (their order,
    which the code does not use, is not that of pandas). *)
Definition unique (cs : list cell) : list cell := nodup cell_eq_dec cs.

(** [Series.nunique()]: the number of distinct values that are not missing. *)
Definition nunique (cs : list cell) : Z :=
  Z.of_nat (List.length (unique (filter (fun c => negb (isna c)) cs))).

(** [array.min()] / [array.max()] of a numpy array: an empty array has no
    extremum ([ValueError]), NaN wins over numbers, strings compare only with
    strings. *)
Definition pick (want_max : bool) (a b : cell) : result cell :=
  match a, b with
  | CNA, (CInt _ | CNA) | CInt _, CNA => Ok CNA
  | CInt x, CInt y => Ok (CInt (if want_max then Z.max x y else Z.min x y))
  | CStr s, CStr t =>
      Ok (CStr (if Bool.eqb want_max (String.leb s t) then t else s))
  | _, _ => Raise TypeError
  end.

Fixpoint extremum_from (want_max : bool) (acc : cell) (cs : list cell) : result cell :=
  match cs with
  | [] => Ok acc
  | c :: cs' => (acc' <- pick want_max acc c ;; extremum_from want_max acc' cs')%result
  end.

Definition extremum (want_max : bool) (cs : list cell) : result cell :=
  match cs with
  | [] => Raise ValueError
  | c :: cs' => extremum_from want_max c cs'
  end.

(** [format(x, ".0f")] and [format(x, ",.0f")]: a string has no such format.
    A missing cell is read here as the float NaN, which formats as [nan]; the
    cells do not tell [None] from NaN, and [None] has no such format either
    ([TypeError]), so what is stated of a summary that formats a year is
    stated for year columns without missing cell. *)
Definition format_f0 (grouped : bool) (x : cell) : result string :=
  match x with
  | CInt z => Ok (if grouped then PyStr.of_int_grouped z else PyStr.of_int z)
  | CNA => Ok "nan"
  | CStr _ => Raise ValueError
  end.

(** [get_data_summary(df)]. *)
Definition get_data_summary (df : DataFrame) : result string :=
  (let summary := [] in
   summary <-
     (if in_columns "annee" df then
        annee <- series "annee" df ;;
        let years := unique annee in
        lo <- extremum false years ;;
        lo <- format_f0 false lo ;;
        hi <- extremum true years ;;
        hi <- format_f0 false hi ;;
        Ok (summary ++ [String.append "Période: " (String.append lo (String.append " - " hi))])
      else Ok summary) ;;
   summary <-
     (if in_columns "code_dept" df then
        code_dept <- series "code_dept" df ;;
        let n_depts := nunique code_dept in
        Ok (summary ++ [String.append "Départements: " (PyStr.of_int n_depts)])
      else Ok summary) ;;
   summary <-
     (if in_columns "faits" df then
        faits <- series "faits" df ;;
        values <- summands faits ;;
        let total := zsum values in
        Ok (summary ++ [String.append "Total des faits: " (PyStr.of_int_grouped total)])
      else if existsb PyStr.isdigit (columns df) then
        let month_cols := filter PyStr.isdigit (columns df) in
        by_column <- map_result (fun c => cs <- series c df ;;
                                          values <- summands cs ;;
                                          Ok (zsum values)) month_cols ;;
        let total := zsum by_column in
        Ok (summary ++ [String.append "Total des faits: " (PyStr.of_int_grouped total)])
      else Ok summary) ;;
   summary <-
     (if in_columns "classe" df then
        classe <- series "classe" df ;;
        let n_types := nunique classe in
        Ok (summary ++ [String.append "Types de crimes: " (PyStr.of_int n_types)])
      else Ok summary) ;;
   Ok (PyStr.join " | " summary))%result.

(** ** Notions used in the statements *)

(** The column [c] exists and holds no string. *)
Definition numeric_column (c : string) (df : DataFrame) : bool :=
  match series c df with
  | Ok cs => forallb (fun x => negb (is_str x)) cs
  | Raise _ => false
  end.

(** The cells the count is read from are numbers or missing: the column
    [faits], or else the period columns it is summed from. *)
Definition numeric_counts (df : DataFrame) : bool :=
  if in_columns "faits" df then numeric_column "faits" df
  else forallb (fun c => numeric_column c df) (DataLoader.month_cols df).

(** The sum of the counts of the rows whose key is [k]. *)
Definition total_where {K : Type} (K_eq_dec : forall a b : K, {a = b} + {a <> b})
    (keys : list K) (counts : list Z) (k : K) : Z :=
  zsum (map snd (filter (fun kc => if K_eq_dec (fst kc) k then true else false)
                        (combine keys counts))).

(** [out] lists each key of [keys] that passes [present] once, with the sum
    of the counts of its rows. *)
Definition grouped_totals {K : Type} (K_eq_dec : forall a b : K, {a = b} + {a <> b})
    (present : K -> bool) (keys : list K) (counts : list Z) (out : list (K * Z))
  : Prop :=
  NoDup (map fst out) /\
  (forall k, In k (map fst out) <-> In k keys /\ present k = true) /\
  (forall k t, In (k, t) out -> t = total_where K_eq_dec keys counts k).

Definition key2_present (k : key2) : bool :=
  negb (isna (fst k)) && negb (isna (snd k)).

Definition cell_present (c : cell) : bool := negb (isna c).

(** The percentage written beside the total of a year, from the total of the
    year before: [pct_change() * 100]. *)
Definition pct_of {F : Type} `{FloatArith F} (prev cur : Z) : F :=
  fmul (fsub (fdiv (float_of_int cur) (float_of_int prev)) (float_of_int 1))
       (float_of_int 100).

Definition evolution_row_of {F : Type} (kp : cell * Z * F) : DataLoader.evolution_row F :=
  DataLoader.mkEvolution (fst (fst kp)) (snd (fst kp)) (snd kp).

(** The rows that [evolution_of] writes for the years after one whose total
    is [prev]. *)
Definition following_rows {F : Type} `{FloatArith F} (prev : Z) (rest : list (cell * Z))
  : list (DataLoader.evolution_row F) :=
  map evolution_row_of
      (combine rest
         (map (fun p => fmul p (float_of_int 100))
            (map (fun pc => fsub (fdiv (float_of_int (snd pc)) (float_of_int (fst pc)))
                                 (float_of_int 1))
               (combine (prev :: map snd rest) (map snd rest))))).

(** A table in canonical form for the normalizer: no source alias among the
    labels, at most one year column, whose cells are numbers, and no row with
    a missing critical field. *)
Definition canonical (df : DataFrame) : bool :=
  forallb (fun c => String.eqb (rename_label DataLoader.column_mapping c) c) (columns df)
  && (count_occ string_dec (columns df) "annee" <=? 1)%nat
  && match index_of "annee" (columns df) with
     | Some i => forallb (fun r => negb (is_str (cell_at i r))) (rows df)
     | None => true
     end
  && forallb (fun r => forallb (fun j => negb (isna (cell_at j r)))
                               (positions_from 0 ["code_dept"; "annee"; "classe"]
                                               (columns df)))
             (rows df).

(** ** Tables of the scenarios *)

Module Scenario.

Definition schema : list string :=
  ["code_dept"; "departement"; "annee"; "classe"; "faits"].

(** Scenario 1 of the specification. *)
Definition paris : DataFrame :=
  mkDF schema
    [ [CStr "75"; CStr "Paris"; CInt 2020; CStr "Vols"; CInt 100];
      [CStr "75"; CStr "Paris"; CInt 2021; CStr "Vols"; CInt 150] ].

(** Scenario 2: the total of the first year is zero. *)
Definition zero_prior : DataFrame :=
  mkDF schema
    [ [CStr "13"; CStr "X"; CInt 2020; CStr "A"; CInt 0];
      [CStr "13"; CStr "X"; CInt 2021; CStr "A"; CInt 50] ].

(** Scenario 3. *)
Definition two_classes : DataFrame :=
  mkDF schema
    [ [CStr "75"; CStr "Paris"; CInt 2020; CStr "A"; CInt 30];
      [CStr "75"; CStr "Paris"; CInt 2020; CStr "B"; CInt 70] ].

(** Three territories. *)
Definition three_territories : DataFrame :=
  mkDF schema
    [ [CStr "75"; CStr "Paris"; CInt 2020; CStr "A"; CInt 30];
      [CStr "13"; CStr "Bouches-du-Rhone"; CInt 2020; CStr "A"; CInt 70];
      [CStr "69"; CStr "Rhone"; CInt 2020; CStr "B"; CInt 50];
      [CStr "75"; CStr "Paris"; CInt 2021; CStr "B"; CInt 25] ].

(** A canonical table that has no count column yet. *)
Definition no_count : DataFrame :=
  mkDF ["code_dept"; "departement"; "annee"; "classe"]
    [ [CStr "75"; CStr "Paris"; CInt 2020; CStr "Vols"];
      [CStr "13"; CStr "X"; CInt 2021; CStr "Vols"] ].

(** Monthly counts instead of a count column. *)
Definition monthly : DataFrame :=
  mkDF ["code_dept"; "departement"; "annee"; "classe"; "01"; "02"]
    [ [CStr "75"; CStr "Paris"; CInt 2020; CStr "Vols"; CInt 3; CInt 4] ].

(** No territory name and no year. *)
Definition no_name : DataFrame :=
  mkDF ["code_dept"; "classe"; "faits"]
    [ [CStr "75"; CStr "Vols"; CInt 3] ].

(** No year. *)
Definition no_year : DataFrame :=
  mkDF ["code_dept"; "departement"; "classe"; "faits"]
    [ [CStr "75"; CStr "Paris"; CStr "Vols"; CInt 3] ].

(** A row whose territory name is missing. *)
Definition missing_name : DataFrame :=
  mkDF schema
    [ [CStr "75"; CNA; CInt 2020; CStr "Vols"; CInt 5] ].


(** The year column is there, the rows are not. *)
Definition empty_with_year : DataFrame := mkDF schema [].

(** A raw table with the labels of the source. *)
Definition raw : DataFrame :=
  mkDF ["Code département"; "Département"; "Millésime"; "Classe"]
    [ [CStr "75"; CStr "Paris"; CStr "2020"; CStr "Vols"];
      [CNA; CStr "X"; CStr "2021"; CStr "Vols"];
      [CStr "13"; CStr "Y"; CStr "n.d."; CStr "Vols"] ].

(** A reader of unsigned decimal numerals. *)
Fixpoint digits_value (acc : Z) (s : string) : Z :=
  match s with
  | EmptyString => acc
  | String c s' => digits_value (10 * acc + (Z.of_nat (nat_of_ascii c) - 48)) s'
  end.

Definition parse_decimal (s : string) : option Z :=
  if PyStr.isdigit s then Some (digits_value 0 s) else None.

End Scenario.


(** ** Text literals *)

Definition nl : string := String (ascii_of_nat 10) EmptyString.

(** A literal that spans several lines of the source, line by line. *)
Definition text (lines : list string) : string := String.concat nl lines.

(** ** utils/chatbot.py, the class [CrimeAnalysisBot]

    The completion service, the environment and the flag [LITELLM_AVAILABLE]
    are outside the program and are arguments of the embedding; the messages
    of [st.error] are display only and are left out. *)

Module CrimeAnalysisBot.

(** [{"role": ..., "content": ...}]. *)
Definition message : Type := (string * string)%type.

Record bot : Type := mkBot {
  default_model : string;
  fallback_model : string;
  conversation_history : list message
}.

(** [os.getenv(name, default)]. *)
Definition getenv (environ : string -> option string) (name default : string) : string :=
  match environ name with
  | Some value => value
  | None => default
  end.

(** [CrimeAnalysisBot(default_model, fallback_model)]. *)
Definition __init__ (environ : string -> option string)
    (default_model fallback_model : string) : bot :=
  mkBot (getenv environ "DEFAULT_MODEL" default_model)
        (getenv environ "FALLBACK_MODEL" fallback_model)
        [].

(** [key and key != placeholder]. *)
Definition usable_key (key : option string) (placeholder : string) : bool :=
  match key with
  | Some k => negb (String.eqb k "") && negb (String.eqb k placeholder)
  | None => false
  end.

(** [get_available_models()]. *)
Definition get_available_models (environ : string -> option string) (self : bot)
  : list string :=
  let models := [] in
  let openai_key := environ "OPENAI_API_KEY" in
  let models :=
    if usable_key openai_key "your_api_key_here"
    then models ++ ["gpt-5-nano"; "gpt-4o"; "gpt-4-turbo"; "gpt-3.5-turbo"]
    else models in
  let anthropic_key := environ "ANTHROPIC_API_KEY" in
  let models :=
    if usable_key anthropic_key "your_anthropic_key_here"
    then models ++ ["claude-3-opus-20240229"; "claude-3-sonnet-20240229";
                    "claude-3-haiku-20240307"]
    else models in
  match models with
  | [] => [default_model self]
  | _ => models
  end.

Definition responses : list (string * string) :=
  [ ("tendance", "Les données montrent des variations selon les périodes et les territoires. Pour une analyse détaillée, consultez les graphiques ci-dessus.");
    ("comparaison", "La comparaison entre départements révèle des disparités importantes liées à la densité de population et aux contextes locaux.");
    ("augmentation", "Plusieurs facteurs peuvent expliquer les variations: démographie, politiques de sécurité, contexte socio-économique.");
    ("diminution", "Une baisse peut résulter d'actions préventives, de changements démographiques ou de modifications dans les méthodes d'enregistrement.") ].

Definition no_keyword_response : string :=
  "Je peux vous aider à analyser les données de criminalité. Posez-moi des questions sur les tendances, les comparaisons entre départements, ou les types de crimes.".

(** [for key, response in responses.items(): if key in prompt_lower: return
    response]. *)
Fixpoint first_response (prompt_lower : string) (table : list (string * string))
  : option string :=
  match table with
  | [] => None
  | (key, response) :: rest =>
      if PyStr.contains key prompt_lower then Some response
      else first_response prompt_lower rest
  end.

(** [_generate_fallback_response(prompt)].  The keys are ASCII words and
    [str.lower] gives an ASCII letter for two letters outside ASCII only: the
    Kelvin sign gives [k], which no key has, and the dotted capital I gives
    [i] followed by a combining dot, which could only match the last letter of
    a key, and no key ends with [i].  So the ASCII lowering of the encoded
    prompt finds a key exactly where [str.lower] does. *)
Definition _generate_fallback_response (prompt : string) : string :=
  let prompt_lower := PyStr.lower prompt in
  match first_response prompt_lower responses with
  | Some response => response
  | None => no_keyword_response
  end.

Definition system_prompt : string :=
  text ["Tu es un assistant expert en analyse de données de criminalité en France.";
          "        Tu aides les utilisateurs à comprendre les statistiques, identifier les tendances et ";
          "        tirer des conclusions pertinentes. Réponds de manière concise et factuelle."].

Definition context_header : string :=
  text ["";
          "";
          "Contexte des données:";
          ""].

(** [value or default] for an optional string. *)
Definition or_else (value : option string) (default : string) : string :=
  match value with
  | Some (String _ _ as s) => s
  | _ => default
  end.

Section Completion.

Variable LITELLM_AVAILABLE : bool.

(** [completion(model=..., messages=..., temperature=0.7, max_tokens=500)
    .choices[0].message.content], or the exception it raises. *)
Variable completion : string -> list message -> result string.

(** [generate_response(prompt, model, context)]: the new state of the bot and
    the answer.  [fuel] is the number of nested calls that the recursion limit
    of the interpreter still allows: with none left the call itself fails
    with [RecursionError] ([None]).  The retry with the fallback model stands
    in [try: ... except: return self._generate_fallback_response(prompt)]: a
    retry that fails so is answered without language model. *)
Fixpoint generate_response (fuel : nat) (self : bot) (prompt : string)
    (model context : option string) {struct fuel} : option (bot * string) :=
  match fuel with
  | O => None
  | S fuel' =>
      if negb LITELLM_AVAILABLE then Some (self, _generate_fallback_response prompt)
      else
        let model_to_use := or_else model (default_model self) in
        let system_message :=
          if truthy_str context
          then String.append system_prompt
                 (String.append context_header (or_else context ""))
          else system_prompt in
        let messages := [("system", system_message); ("user", prompt)] in
        match completion model_to_use messages with
        | Ok answer =>
            Some (mkBot (default_model self) (fallback_model self)
                        (conversation_history self
                         ++ [("user", prompt)] ++ [("assistant", answer)]),
                  answer)
        | Raise _ =>
            if negb (String.eqb model_to_use (fallback_model self))
            then
              match generate_response fuel' self prompt
                      (Some (fallback_model self)) context with
              | Some answered => Some answered
              | None => Some (self, _generate_fallback_response prompt)
              end
            else Some (self, _generate_fallback_response prompt)
        end
  end.

(** [answer_question(question, data_context, model)]. *)
Definition answer_question (fuel : nat) (self : bot) (question data_context : string)
    (model : option string) : option (bot * string) :=
  generate_response fuel self question model (Some data_context).

(** [clear_history()]. *)
Definition clear_history (self : bot) : bot :=
  mkBot (default_model self) (fallback_model self) [].

Section Trends.

Context {F : Type} `{FloatArith F}.

(** [format(x, ".1f")]. *)
Variable format_1f : F -> string.

(** [analyze_trends(df, department)]. *)
Definition analyze_trends (fuel : nat) (self : bot) (df : DataFrame)
    (department : option string) : result (option (bot * string)) :=
  (filtered <-
     (if truthy_str department then
        df_filtered <- filter_eq "code_dept" (eq_str (or_else department "")) df ;;
        Ok (df_filtered,
            String.append "Données pour le département " (or_else department ""))
      else Ok (df, "Données nationales")) ;;
   let df_filtered := fst filtered in
   let context := snd filtered in
   context <-
     (if in_columns "annee" df_filtered && in_columns "faits" df_filtered then
        evolution <- DataLoader.groupby_sum "annee" df_filtered ;;
        if (1 <? List.length evolution)%nat then
          let first := hd 0 (map snd evolution) in
          let final := last (map snd evolution) 0 in
          let variation :=
            fmul (fdiv (float_of_int (final - first)) (float_of_int first))
                 (float_of_int 100) in
          Ok (String.append context
                (String.append nl
                   (String.append "Évolution totale: "
                      (String.append (format_1f variation) "%"))))
        else Ok context
      else Ok context) ;;
   let prompt :=
     String.append
       (text ["Analyse les tendances de criminalité basées sur ces informations:";
          "        "])
       (String.append context
          (text ["";
          "        ";
          "        Fournis une analyse concise en 3-4 phrases couvrant:";
          "        1. La tendance générale (hausse/baisse)";
          "        2. Les points notables";
          "        3. Une conclusion ou recommandation"])) in
   Ok (generate_response fuel self prompt None (Some context)))%result.

End Trends.

End Completion.

End CrimeAnalysisBot.

(** ** utils/data.py, the data source *)

(** [load_population_data()]. *)
Definition load_population_data : list (string * Z) :=
  [ ("75", 2165000); ("13", 2040000); ("69", 1850000); ("59", 2608000);
    ("92", 1609000); ("93", 1623000); ("94", 1395000); ("91", 1296000);
    ("78", 1431000); ("31", 1380000); ("06", 1083000); ("44", 1429000);
    ("33", 1623000); ("67", 1142000); ("62", 1471000); ("76", 1254000);
    ("77", 1421000); ("95", 1241000); ("35", 1079000); ("34", 1175000) ].

(** [d.get(k)] for a dict written as the list of its items. *)
Fixpoint dict_get {V : Type} (k : string) (d : list (string * V)) : option V :=
  match d with
  | [] => None
  | (k', v) :: rest => if String.eqb k k' then Some v else dict_get k rest
  end.

Module DataSource.

Definition departements : list (string * string) :=
  [ ("75", "Paris"); ("13", "Bouches-du-Rhône"); ("69", "Rhône");
    ("59", "Nord"); ("92", "Hauts-de-Seine"); ("93", "Seine-Saint-Denis");
    ("94", "Val-de-Marne"); ("91", "Essonne"); ("78", "Yvelines") ].

Definition classes : list string :=
  [ "Vols sans violence contre des personnes";
    "Coups et blessures volontaires";
    "Cambriolages";
    "Destructions et dégradations";
    "Vols de véhicules" ].

(** [range(2019, 2024)]. *)
Definition annees : list Z := [2019; 2020; 2021; 2022; 2023].

Section Demo.

(** The successive values of [np.random.randint(100, 5000)], by rank of the
    draw. *)
Variable randint : nat -> Z.

(** [_create_demo_data()]: one row per year, department and class, in the
    order of the three loops. *)
Definition _create_demo_data : DataFrame :=
  let data :=
    flat_map (fun annee =>
      flat_map (fun dept =>
        map (fun classe => (annee, dept, classe)) classes)
        departements)
      annees in
  mkDF ["code_dept"; "departement"; "annee"; "classe"; "faits"]
       (map (fun '(draw, (annee, (code_dept, dept_name), classe)) =>
               let faits := randint draw in
               [CStr code_dept; CStr dept_name; CInt annee; CStr classe; CInt faits])
            (combine (seq 0 (List.length data)) data)).

(** The number the strings of the year column hold, for [pd.to_numeric]. *)
Variable parse_number : string -> option Z.

(** [load_crime_data(sample_size)].  What the file system and the network
    give is an argument: [cache] is the outcome of reading the cache file when
    there is one, [download] the outcome of the download and of writing the
    cache ([nrows=sample_size] is applied by these reads). *)
Definition load_crime_data (cache : option (result DataFrame))
    (download : result DataFrame) : result DataFrame :=
  (df <- match cache with
         | Some read => read
         | None =>
             match download with
             | Ok df => Ok df
             | Raise _ => Ok _create_demo_data
             end
         end ;;
   DataLoader._clean_crime_data parse_number df)%result.

End Demo.

End DataSource.

(** ** app.py, the rate shown on the map

    The statements of the third tab that add the columns [population] and
    [taux] to the department statistics. *)

Module App.

(** [dept_stats['code_dept'].map(population)]: a code that is no key of the
    table gives a missing value. *)
Definition population_of (code : cell) : option Z :=
  match code with
  | CStr s => dict_get s load_population_data
  | _ => None
  end.

(** [calculate_crime_rate(row['total_faits'], row['population']) if
    pd.notna(row['population']) else 0]. *)
Definition taux {F : Type} `{FloatArith F} (stat : DataLoader.dept_stat) : pynum F :=
  match population_of (DataLoader.ds_code_dept stat) with
  | Some population => calculate_crime_rate (DataLoader.ds_total_faits stat) population
  | None => PyInt 0
  end.

End App.

(** ** More notions used in the statements *)

(** A history made of questions, each followed by its answer. *)
Fixpoint question_answer_pairs (history : list CrimeAnalysisBot.message) : bool :=
  match history with
  | [] => true
  | (role1, _) :: rest =>
      match rest with
      | [] => false
      | (role2, _) :: rest' =>
          String.eqb role1 "user" && String.eqb role2 "assistant"
          && question_answer_pairs rest'
      end
  end.

(** The messages that [generate_response] sends: the system message, with the
    data context when there is one, and the prompt. *)
Definition request (prompt : string) (context : option string)
  : list CrimeAnalysisBot.message :=
  [ ("system",
     if truthy_str context
     then String.append CrimeAnalysisBot.system_prompt
            (String.append CrimeAnalysisBot.context_header
               (CrimeAnalysisBot.or_else context ""))
     else CrimeAnalysisBot.system_prompt);
    ("user", prompt) ].

(** What a call of [generate_response] may leave behind: the models of the
    bot as they were, and either the history as it was with the answer
    without language model, or the history extended by the question and the
    answer that a completion gave, for the requested model or for the
    fallback model. *)
Definition response_outcome (available : bool)
    (completion : string -> list CrimeAnalysisBot.message -> result string)
    (self : CrimeAnalysisBot.bot) (prompt : string) (model context : option string)
    (self' : CrimeAnalysisBot.bot) (answer : string) : Prop :=
  CrimeAnalysisBot.default_model self' = CrimeAnalysisBot.default_model self
  /\ CrimeAnalysisBot.fallback_model self' = CrimeAnalysisBot.fallback_model self
  /\ ((CrimeAnalysisBot.conversation_history self'
       = CrimeAnalysisBot.conversation_history self
       /\ answer = CrimeAnalysisBot._generate_fallback_response prompt)
      \/ (available = true
          /\ CrimeAnalysisBot.conversation_history self'
             = CrimeAnalysisBot.conversation_history self
               ++ [("user", prompt); ("assistant", answer)]
          /\ exists m,
               completion m (request prompt context) = Ok answer
               /\ (m = CrimeAnalysisBot.or_else model (CrimeAnalysisBot.default_model self)
                   \/ m = CrimeAnalysisBot.or_else
                            (Some (CrimeAnalysisBot.fallback_model self))
                            (CrimeAnalysisBot.default_model self)))).

(** One of the two aggregates of a group of [agg({'faits': 'sum', 'annee':
    'count'})], with the key of the group. *)
Definition part (proj : Z * Z -> Z) (kv : key2 * (Z * Z)) : key2 * Z :=
  (fst kv, proj (snd kv)).

(** What a cell of the year column adds to [count]: a missing value is not
    counted. *)
Definition year_recorded (c : cell) : Z := if isna c then 0 else 1.

(** The row of the ranking that a row of the statistics gives. *)
Definition top_of_stat (s : DataLoader.dept_stat) : DataLoader.top_row :=
  DataLoader.mkTop (DataLoader.ds_code_dept s) (DataLoader.ds_departement s)
                   (DataLoader.ds_total_faits s).


(** Two years present in the year column, the second being the next one
    after the first in the order of the groups: no year of the column lies
    between them. *)
Definition consecutive_years (years : list cell) (y0 y1 : cell) : Prop :=
  In y0 years /\ In y1 years
  /\ cell_present y0 = true /\ cell_present y1 = true
  /\ y0 <> y1 /\ cell_leb y0 y1 = true
  /\ forall y, In y years -> cell_leb y0 y = true -> cell_leb y y1 = true ->
                y = y0 \/ y = y1.

(** The column [c] exists and holds integers only: no string and no missing
    value. *)
Definition is_int (c : cell) : bool :=
  match c with CInt _ => true | _ => false end.

Definition integer_column (c : string) (df : DataFrame) : bool :=
  match series c df with
  | Ok cs => forallb is_int cs
  | Raise _ => false
  end.

(** ** More tables for the examples *)

Module Example.

(** Two rows of one department; the year of the first is missing. *)
Definition unrecorded_year : DataFrame :=
  mkDF Scenario.schema
    [ [CStr "75"; CStr "Paris"; CNA; CStr "Vols"; CInt 5];
      [CStr "75"; CStr "Paris"; CInt 2020; CStr "Vols"; CInt 3] ].



End Example.
(** * Properties *)

(** ** Checks of the helpers *)

Example of_int_grouped_ex : PyStr.of_int_grouped 1234567 = "1,234,567".
Proof. reflexivity. Qed.

Example of_int_ex : PyStr.of_int (-2020) = "-2020".
Proof. reflexivity. Qed.

Example contains_ex : PyStr.contains "mois" (PyStr.lower "Mois_01") = true.
Proof. reflexivity. Qed.

Example rint_tie_even : Exact.rint (XNum (5 # 2)) = XNum 2.
Proof. reflexivity. Qed.

Example rint_binary64_tie_even :
  Binary64.rint (PrimFloat.div (Binary64.of_int 7) (Binary64.of_int 2))
  = Binary64.of_int 4.
Proof. vm_compute. reflexivity. Qed.

Example fround2_binary64 :
  fround2 (PrimFloat.div (Binary64.of_int 200) (Binary64.of_int 3))
  = PrimFloat.div (Binary64.of_int 6667) (Binary64.of_int 100).
Proof. vm_compute. reflexivity. Qed.

Example fround2_exact :
  fround2 (Exact.div (Exact.of_int 200) (Exact.of_int 3)) = XNum (6667 # 100).
Proof. vm_compute. reflexivity. Qed.

(** ** The scenarios of the specification *)

Example scenario_1_temporal_evolution :
  snd (DataLoader.get_temporal_evolution (F := float) Scenario.paris None)
  = Ok [DataLoader.mkEvolution (CInt 2020) 100 PrimFloat.nan;
        DataLoader.mkEvolution (CInt 2021) 150 (Binary64.of_int 50)].
Proof. vm_compute. reflexivity. Qed.

Example scenario_3_category_distribution :
  snd (DataLoader.get_crime_types_distribution (F := float) Scenario.two_classes None None)
  = Ok [DataLoader.mkDistribution (CStr "B") 70 (Binary64.of_int 70);
        DataLoader.mkDistribution (CStr "A") 30 (Binary64.of_int 30)].
Proof. vm_compute. reflexivity. Qed.

Example scenario_5_top_ten_of_three :
  snd (DataLoader.get_top_departments Scenario.three_territories 10 None)
  = Ok [DataLoader.mkTop (CStr "13") (CStr "Bouches-du-Rhone") 70;
        DataLoader.mkTop (CStr "75") (CStr "Paris") 55;
        DataLoader.mkTop (CStr "69") (CStr "Rhone") 50].
Proof. reflexivity. Qed.

Example scenario_6_raw_table :
  rbind (DataLoader._clean_crime_data Scenario.parse_decimal Scenario.raw)
        DataLoader.ensure_faits
  = Ok (mkDF ["code_dept"; "departement"; "annee"; "classe"; "faits"]
             [[CStr "75"; CStr "Paris"; CInt 2020; CStr "Vols"; CInt 1]]).
Proof. reflexivity. Qed.

Example monthly_counts_are_summed :
  DataLoader.get_department_stats Scenario.monthly
  = (mkDF ["code_dept"; "departement"; "annee"; "classe"; "01"; "02"; "faits"]
          [[CStr "75"; CStr "Paris"; CInt 2020; CStr "Vols"; CInt 3; CInt 4; CInt 7]],
     Ok [DataLoader.mkDeptStat (CStr "75") (CStr "Paris") 7 1]).
Proof. reflexivity. Qed.

(** ** The result monad *)

Lemma rbind_ok {A B : Type} (m : result A) (k : A -> result B) (b : B) :
  rbind m k = Ok b -> exists a, m = Ok a /\ k a = Ok b.
Proof.
  destruct m as [a | e]; simpl; intro E.
  - exists a. split; [reflexivity | exact E].
  - discriminate E.
Qed.

Lemma rbind_raise_id {A : Type} (m : result A) (k : A -> result A) :
  (forall a, m = Ok a -> k a = Ok a) -> rbind m k = m.
Proof.
  destruct m as [a | e]; simpl; intro Hk.
  - apply Hk. reflexivity.
  - reflexivity.
Qed.

Ltac inv_bind H :=
  let x := fresh "x" in
  let E := fresh "E" in
  apply rbind_ok in H; destruct H as [x [E H]].

(** ** Sorting *)

Section SortingFacts.

Context {A : Type}.
Variable le : A -> A -> bool.

Lemma insert_sorted_perm (x : A) (l : list A) :
  Permutation (insert_sorted le x l) (x :: l).
Proof.
  induction l as [| y l IH]; simpl.
  - apply Permutation_refl.
  - destruct (le x y).
    + apply Permutation_refl.
    + apply perm_trans with (y :: x :: l).
      * apply perm_skip. exact IH.
      * apply perm_swap.
Qed.

Lemma isort_perm (l : list A) : Permutation (isort le l) l.
Proof.
  induction l as [| x l IH]; simpl.
  - apply perm_nil.
  - apply perm_trans with (x :: isort le l).
    + apply insert_sorted_perm.
    + apply perm_skip. exact IH.
Qed.

Lemma isort_in (l : list A) (x : A) : In x (isort le l) <-> In x l.
Proof.
  split; apply Permutation_in;
    [apply isort_perm | apply Permutation_sym, isort_perm].
Qed.

Lemma isort_length (l : list A) : List.length (isort le l) = List.length l.
Proof. apply Permutation_length, isort_perm. Qed.

Lemma isort_nil_inv (l : list A) : isort le l = [] -> l = [].
Proof.
  intro E. apply Permutation_nil. rewrite <- E.
  apply isort_perm.
Qed.

End SortingFacts.

Section SortDesc.

Context {A : Type}.
Variable key : A -> Z.

(** [a] may stand before [b] in descending order. *)
Definition desc (a b : A) : Prop := key b <= key a.

Lemma insert_desc_sorted (x : A) (l : list A) :
  StronglySorted desc l ->
  StronglySorted desc (insert_sorted (fun a b => key b <=? key a) x l).
Proof.
  induction 1 as [| y l Hs IH Hy]; simpl.
  - constructor; constructor.
  - destruct (key y <=? key x) eqn:L.
    + apply Z.leb_le in L.
      constructor.
      * constructor; assumption.
      * constructor; [exact L |].
        rewrite Forall_forall in *. intros z Hz.
        specialize (Hy z Hz). unfold desc in *. lia.
    + apply Z.leb_gt in L.
      constructor; [exact IH |].
      rewrite Forall_forall in *. intros z Hz.
      apply (Permutation_in _ (insert_sorted_perm _ x l)) in Hz.
      destruct Hz as [<- | Hz].
      * unfold desc. lia.
      * apply Hy. exact Hz.
Qed.

Lemma sort_desc_sorted (l : list A) : StronglySorted desc (sort_desc key l).
Proof.
  unfold sort_desc.
  induction l as [| x l IH]; simpl.
  - constructor.
  - apply insert_desc_sorted. exact IH.
Qed.

Lemma sort_desc_perm (l : list A) : Permutation (sort_desc key l) l.
Proof. apply isort_perm. Qed.

End SortDesc.

Lemma zsum_perm (l l' : list Z) : Permutation l l' -> zsum l = zsum l'.
Proof.
  induction 1; simpl; lia.
Qed.

Lemma zsum_app (l l' : list Z) : zsum (l ++ l') = zsum l + zsum l'.
Proof.
  induction l as [| x l IH]; simpl; lia.
Qed.

(** ** Grouping *)

Section GroupByFacts.

Context {K V : Type}.
Variable K_eq_dec : forall a b : K, {a = b} + {a <> b}.
Variable K_leb : K -> K -> bool.
Variable add : V -> V -> V.
Variable zero : V.

Lemma group_keys_in (kvs : list (K * V)) (k : K) :
  In k (group_keys K_eq_dec K_leb kvs) <-> In k (map fst kvs).
Proof.
  unfold group_keys. rewrite isort_in. apply nodup_In.
Qed.

Lemma group_keys_nodup (kvs : list (K * V)) :
  NoDup (group_keys K_eq_dec K_leb kvs).
Proof.
  unfold group_keys.
  apply (Permutation_NoDup (Permutation_sym (isort_perm K_leb _))).
  apply NoDup_nodup.
Qed.

Lemma groupby_agg_keys (kvs : list (K * V)) :
  map fst (groupby_agg K_eq_dec K_leb add zero kvs) = group_keys K_eq_dec K_leb kvs.
Proof.
  unfold groupby_agg. rewrite map_map. simpl. apply map_id.
Qed.

Lemma groupby_agg_in (kvs : list (K * V)) (k : K) (v : V) :
  In (k, v) (groupby_agg K_eq_dec K_leb add zero kvs) ->
  v = group_total K_eq_dec add zero kvs k.
Proof.
  unfold groupby_agg. rewrite in_map_iff.
  intros [k' [E _]]. inversion E. reflexivity.
Qed.

Lemma groupby_agg_nil_inv (kvs : list (K * V)) :
  groupby_agg K_eq_dec K_leb add zero kvs = [] -> kvs = [].
Proof.
  unfold groupby_agg, group_keys. intro E.
  apply map_eq_nil in E. apply isort_nil_inv in E.
  destruct kvs as [| kv kvs]; [reflexivity |].
  exfalso.
  assert (H : In (fst kv) (nodup K_eq_dec (map fst (kv :: kvs))))
    by (apply nodup_In; left; reflexivity).
  rewrite E in H. exact H.
Qed.

(** Mass is conserved for every additive measure of the aggregate. *)
Variable measure : V -> Z.
Hypothesis measure_zero : measure zero = 0.
Hypothesis measure_add : forall a b, measure (add a b) = measure a + measure b.

Lemma group_total_cons (kv : K * V) (kvs : list (K * V)) (k : K) :
  measure (group_total K_eq_dec add zero (kv :: kvs) k)
  = (if K_eq_dec (fst kv) k then measure (snd kv) else 0)
    + measure (group_total K_eq_dec add zero kvs k).
Proof.
  unfold group_total, same_key. simpl.
  destruct (K_eq_dec (fst kv) k); simpl.
  - apply measure_add.
  - reflexivity.
Qed.

Lemma indicator_sum (k0 : K) (z : Z) (ks : list K) :
  NoDup ks ->
  zsum (map (fun k => if K_eq_dec k0 k then z else 0) ks)
  = if in_dec K_eq_dec k0 ks then z else 0.
Proof.
  induction 1 as [| k ks Hk Hnd IH]; simpl.
  - reflexivity.
  - rewrite IH.
    destruct (K_eq_dec k k0) as [-> | Hne].
    + destruct (K_eq_dec k0 k0) as [_ | C]; [| contradiction].
      destruct (in_dec K_eq_dec k0 ks) as [Hin | _]; [contradiction | lia].
    + destruct (K_eq_dec k0 k) as [-> | _]; [contradiction |].
      destruct (in_dec K_eq_dec k0 ks); reflexivity.
Qed.

Lemma group_totals_sum (kvs : list (K * V)) (ks : list K) :
  NoDup ks ->
  (forall k, In k (map fst kvs) -> In k ks) ->
  zsum (map (fun k => measure (group_total K_eq_dec add zero kvs k)) ks)
  = zsum (map (fun kv => measure (snd kv)) kvs).
Proof.
  intros Hnd. induction kvs as [| kv kvs IH]; intro Hcover.
  - simpl. unfold group_total. simpl. rewrite measure_zero.
    clear. induction ks; simpl; [reflexivity | lia].
  - simpl.
    rewrite <- IH by (intros k Hk; apply Hcover; right; exact Hk).
    assert (Hsplit :
      forall l, zsum (map (fun k => measure (group_total K_eq_dec add zero (kv :: kvs) k)) l)
      = zsum (map (fun k => if K_eq_dec (fst kv) k then measure (snd kv) else 0) l)
        + zsum (map (fun k => measure (group_total K_eq_dec add zero kvs k)) l)).
    { induction l as [| k l IHl]; simpl; [reflexivity |].
      rewrite group_total_cons, IHl. lia. }
    rewrite Hsplit, (indicator_sum _ _ _ Hnd).
    destruct (in_dec K_eq_dec (fst kv) ks) as [_ | C]; [reflexivity |].
    exfalso. apply C, Hcover. left. reflexivity.
Qed.

Lemma groupby_agg_sum (kvs : list (K * V)) :
  zsum (map (fun kv => measure (snd kv)) (groupby_agg K_eq_dec K_leb add zero kvs))
  = zsum (map (fun kv => measure (snd kv)) kvs).
Proof.
  unfold groupby_agg. rewrite map_map. simpl.
  apply group_totals_sum.
  - apply group_keys_nodup.
  - intros k Hk. apply group_keys_in. exact Hk.
Qed.

End GroupByFacts.

(** ** Columns and rows *)

Lemma index_of_bound (c : string) (cols : list string) (i : nat) :
  index_of c cols = Some i -> (i < List.length cols)%nat.
Proof.
  revert i. induction cols as [| c' cols IH]; simpl; intros i E.
  - discriminate E.
  - destruct (String.eqb c c').
    + inversion E. lia.
    + destruct (index_of c cols) as [j |]; simpl in E; [| discriminate E].
      inversion E. specialize (IH j eq_refl). lia.
Qed.

Lemma index_of_in_columns (c : string) (df : DataFrame) :
  in_columns c df = true <-> exists i, index_of c (columns df) = Some i.
Proof.
  unfold in_columns. induction (columns df) as [| c' cols IH]; simpl.
  - split; [discriminate | intros [i E]; discriminate E].
  - destruct (String.eqb c c'); simpl.
    + split; [intros _; exists O; reflexivity | reflexivity].
    + rewrite IH. split; intros [i E].
      * exists (S i). rewrite E. reflexivity.
      * destruct (index_of c cols) as [j |]; [exists j; reflexivity | discriminate E].
Qed.

Lemma index_of_absent (c : string) (df : DataFrame) :
  in_columns c df = false <-> index_of c (columns df) = None.
Proof.
  split; intro H.
  - destruct (index_of c (columns df)) as [i |] eqn:E; [| reflexivity].
    assert (T : in_columns c df = true) by (apply index_of_in_columns; eauto).
    congruence.
  - destruct (in_columns c df) eqn:E; [| reflexivity].
    apply index_of_in_columns in E. destruct E as [i E]. congruence.
Qed.

Lemma index_of_app_left (c x : string) (cols : list string) (i : nat) :
  index_of c cols = Some i -> index_of c (cols ++ [x]) = Some i.
Proof.
  revert i. induction cols as [| c' cols IH]; simpl; intros i E.
  - discriminate E.
  - destruct (String.eqb c c'); [exact E |].
    destruct (index_of c cols) as [j |]; simpl in E; [| discriminate E].
    rewrite (IH j eq_refl). exact E.
Qed.

Lemma index_of_app_new (c : string) (cols : list string) :
  index_of c cols = None -> index_of c (cols ++ [c]) = Some (List.length cols).
Proof.
  induction cols as [| c' cols IH]; simpl; intro E.
  - rewrite String.eqb_refl. reflexivity.
  - destruct (String.eqb c c'); [discriminate E |].
    destruct (index_of c cols) as [j |]; simpl in E; [discriminate E |].
    rewrite (IH eq_refl). reflexivity.
Qed.

Lemma series_present (c : string) (df : DataFrame) :
  in_columns c df = true ->
  exists cs, series c df = Ok cs /\ List.length cs = List.length (rows df).
Proof.
  intro H. apply index_of_in_columns in H. destruct H as [i E].
  unfold series. rewrite E. eexists. split; [reflexivity |].
  apply length_map.
Qed.

Lemma series_absent (c : string) (df : DataFrame) :
  in_columns c df = false -> series c df = Raise (KeyError c).
Proof.
  intro H. apply index_of_absent in H. unfold series. rewrite H. reflexivity.
Qed.

Lemma series_ok_inv (c : string) (df : DataFrame) (cs : list cell) :
  series c df = Ok cs ->
  in_columns c df = true /\ List.length cs = List.length (rows df).
Proof.
  unfold series. destruct (index_of c (columns df)) as [i |] eqn:E; intro H.
  - inversion H. split; [apply index_of_in_columns; eauto | apply length_map].
  - discriminate H.
Qed.

Lemma summands_length (cs : list cell) (zs : list Z) :
  summands cs = Ok zs -> List.length zs = List.length cs.
Proof.
  revert zs. induction cs as [| c cs IH]; simpl; intros zs E.
  - inversion E. reflexivity.
  - inv_bind E. inv_bind E. inversion E. simpl. f_equal. apply IH. assumption.
Qed.

Lemma summands_numeric (cs : list cell) :
  forallb (fun x => negb (is_str x)) cs = true ->
  exists zs, summands cs = Ok zs.
Proof.
  induction cs as [| c cs IH]; simpl; intro H.
  - eexists. reflexivity.
  - apply andb_prop in H. destruct H as [Hc Hcs].
    destruct (IH Hcs) as [zs E]. rewrite E.
    destruct c; simpl in *; try discriminate Hc; eexists; reflexivity.
Qed.

Lemma map_result_length {A B : Type} (f : A -> result B) (l : list A) (bs : list B) :
  map_result f l = Ok bs -> List.length bs = List.length l.
Proof.
  revert bs. induction l as [| a l IH]; simpl; intros bs E.
  - inversion E. reflexivity.
  - inv_bind E. inv_bind E. inversion E. simpl. f_equal. apply IH. assumption.
Qed.

Lemma map_result_all_ok {A B : Type} (f : A -> result B) (l : list A) :
  (forall a, In a l -> exists b, f a = Ok b) ->
  exists bs, map_result f l = Ok bs.
Proof.
  induction l as [| a l IH]; simpl; intro H.
  - eexists. reflexivity.
  - destruct (H a (or_introl eq_refl)) as [b Eb]. rewrite Eb. simpl.
    destruct IH as [bs Ebs]; [intros; apply H; right; assumption |].
    rewrite Ebs. simpl. eexists. reflexivity.
Qed.

(** *** Selections *)

Lemma select_columns (keep : row -> bool) (df : DataFrame) :
  columns (select keep df) = columns df.
Proof. reflexivity. Qed.

Lemma select_in_columns (keep : row -> bool) (df : DataFrame) (c : string) :
  in_columns c (select keep df) = in_columns c df.
Proof. reflexivity. Qed.

Lemma select_well_formed (keep : row -> bool) (df : DataFrame) :
  well_formed df = true -> well_formed (select keep df) = true.
Proof.
  unfold well_formed, select. simpl. rewrite !forallb_forall.
  intros H r Hr. apply filter_In in Hr. apply H. tauto.
Qed.

Lemma select_numeric_column (keep : row -> bool) (df : DataFrame) (c : string) :
  numeric_column c df = true -> numeric_column c (select keep df) = true.
Proof.
  unfold numeric_column, series, select. simpl.
  destruct (index_of c (columns df)) as [i |]; [| discriminate].
  rewrite !forallb_forall. intros H x Hx.
  apply in_map_iff in Hx. destruct Hx as [r [<- Hr]].
  apply filter_In in Hr. apply H, in_map. tauto.
Qed.

Lemma select_numeric_counts (keep : row -> bool) (df : DataFrame) :
  numeric_counts df = true -> numeric_counts (select keep df) = true.
Proof.
  unfold numeric_counts. rewrite select_in_columns.
  destruct (in_columns "faits" df).
  - apply select_numeric_column.
  - unfold DataLoader.month_cols. rewrite select_columns.
    rewrite !forallb_forall. intros H c Hc.
    apply select_numeric_column, H, Hc.
Qed.

Lemma filter_eq_present (c : string) (test : cell -> bool) (df : DataFrame) :
  in_columns c df = true ->
  exists i, filter_eq c test df = Ok (select (fun r => test (cell_at i r)) df).
Proof.
  intro H. apply index_of_in_columns in H. destruct H as [i E].
  exists i. unfold filter_eq. rewrite E. reflexivity.
Qed.

Lemma filter_eq_inv (c : string) (test : cell -> bool) (df df' : DataFrame) :
  filter_eq c test df = Ok df' -> exists keep, df' = select keep df.
Proof.
  unfold filter_eq. destruct (index_of c (columns df)) as [i |]; intro H.
  - inversion H. eexists. reflexivity.
  - discriminate H.
Qed.

(** *** Assignment of a new column *)

Lemma well_formed_row (df : DataFrame) (r : row) :
  well_formed df = true -> In r (rows df) ->
  List.length r = List.length (columns df).
Proof.
  unfold well_formed. rewrite forallb_forall. intros H Hr.
  apply Nat.eqb_eq, H, Hr.
Qed.

Lemma appended_cells_old (width i : nat) (rs : list row) (vals : list cell) :
  (i < width)%nat ->
  (forall r, In r rs -> List.length r = width) ->
  List.length vals = List.length rs ->
  map (cell_at i) (map (fun rv => fst rv ++ [snd rv]) (combine rs vals))
  = map (cell_at i) rs.
Proof.
  intros Hi. revert vals.
  induction rs as [| r rs IH]; intros vals Hw Hl; destruct vals as [| v vals];
    simpl in *; try reflexivity; try discriminate Hl.
  f_equal.
  - unfold cell_at. apply app_nth1. rewrite (Hw r) by (left; reflexivity). exact Hi.
  - apply IH; [intros; apply Hw; right; assumption | lia].
Qed.

Lemma appended_cells_new (width : nat) (rs : list row) (vals : list cell) :
  (forall r, In r rs -> List.length r = width) ->
  List.length vals = List.length rs ->
  map (cell_at width) (map (fun rv => fst rv ++ [snd rv]) (combine rs vals)) = vals.
Proof.
  revert vals.
  induction rs as [| r rs IH]; intros vals Hw Hl; destruct vals as [| v vals];
    simpl in *; try reflexivity; try discriminate Hl.
  f_equal.
  - unfold cell_at. rewrite app_nth2 by (rewrite (Hw r) by (left; reflexivity); lia).
    rewrite (Hw r) by (left; reflexivity). rewrite Nat.sub_diag. reflexivity.
  - apply IH; [intros; apply Hw; right; assumption | lia].
Qed.

Lemma assign_new_series_old (c x : string) (vals cs : list cell) (df : DataFrame) :
  well_formed df = true ->
  List.length vals = List.length (rows df) ->
  series c df = Ok cs ->
  series c (assign_new x vals df) = Ok cs.
Proof.
  intros Hwf Hl. unfold series, assign_new. simpl.
  destruct (index_of c (columns df)) as [i |] eqn:E; intro H; [| discriminate H].
  rewrite (index_of_app_left _ _ _ _ E). inversion H. f_equal.
  apply appended_cells_old with (width := List.length (columns df)).
  - apply index_of_bound with c. exact E.
  - intros r Hr. apply well_formed_row; assumption.
  - exact Hl.
Qed.

Lemma assign_new_series_new (x : string) (vals : list cell) (df : DataFrame) :
  well_formed df = true ->
  List.length vals = List.length (rows df) ->
  in_columns x df = false ->
  series x (assign_new x vals df) = Ok vals.
Proof.
  intros Hwf Hl Hx. unfold series, assign_new. simpl.
  apply index_of_absent in Hx. rewrite (index_of_app_new _ _ Hx). f_equal.
  apply appended_cells_new.
  - intros r Hr. apply well_formed_row; assumption.
  - exact Hl.
Qed.

Lemma assign_new_well_formed (x : string) (vals : list cell) (df : DataFrame) :
  well_formed df = true -> well_formed (assign_new x vals df) = true.
Proof.
  intro Hwf. unfold well_formed, assign_new. simpl.
  rewrite forallb_forall. intros r Hr.
  apply in_map_iff in Hr. destruct Hr as [[r0 v] [<- Hin]].
  apply in_combine_l in Hin. simpl.
  rewrite !length_app. simpl.
  rewrite (well_formed_row df r0 Hwf Hin). apply Nat.eqb_refl.
Qed.

Lemma assign_new_rows_length (x : string) (vals : list cell) (df : DataFrame) :
  List.length vals = List.length (rows df) ->
  List.length (rows (assign_new x vals df)) = List.length (rows df).
Proof.
  intro Hl. unfold assign_new. simpl.
  rewrite length_map, length_combine. lia.
Qed.

(** *** Count-column resolution *)

Lemma map_result_in {A B : Type} (f : A -> result B) (l : list A) (bs : list B) (b : B) :
  map_result f l = Ok bs -> In b bs -> exists a, In a l /\ f a = Ok b.
Proof.
  revert bs. induction l as [| a l IH]; simpl; intros bs E Hb.
  - inversion E. subst. contradiction.
  - inv_bind E. inv_bind E. inversion E. subst. destruct Hb as [-> | Hb].
    + exists a. split; [left; reflexivity | assumption].
    + destruct (IH _ E1 Hb) as [a' [Ha' Ea']]. exists a'. split; [right |]; assumption.
Qed.

Lemma position_ok (c : string) (df : DataFrame) :
  in_columns c df = true -> exists i, position c df = Ok i.
Proof.
  intro H. apply index_of_in_columns in H. destruct H as [i E].
  exists i. unfold position. rewrite E. reflexivity.
Qed.

Lemma month_cols_in_columns (df : DataFrame) (c : string) :
  In c (DataLoader.month_cols df) -> in_columns c df = true.
Proof.
  unfold DataLoader.month_cols, in_columns. intro H.
  apply filter_In in H. destruct H as [H _].
  apply existsb_exists. exists c. split; [exact H | apply String.eqb_refl].
Qed.

Lemma sum_axis1_numeric (df : DataFrame) :
  forallb (fun c => numeric_column c df) (DataLoader.month_cols df) = true ->
  exists sums, sum_axis1 (DataLoader.month_cols df) df = Ok sums
               /\ List.length sums = List.length (rows df).
Proof.
  intro Hnum. rewrite forallb_forall in Hnum. unfold sum_axis1.
  destruct (map_result_all_ok (fun c => position c df) (DataLoader.month_cols df))
    as [idx Eidx].
  { intros c Hc. apply position_ok, month_cols_in_columns, Hc. }
  rewrite Eidx. simpl.
  destruct (map_result_all_ok
              (fun r => (zs <- summands (map (fun i => cell_at i r) idx) ;; Ok (zsum zs))%result)
              (rows df)) as [sums Esums].
  { intros r Hr.
    destruct (summands_numeric (map (fun i => cell_at i r) idx)) as [zs Ezs].
    - rewrite forallb_forall. intros x Hx.
      apply in_map_iff in Hx. destruct Hx as [i [<- Hi]].
      destruct (map_result_in _ _ _ _ Eidx Hi) as [c [Hc Ec]].
      specialize (Hnum c Hc). unfold numeric_column, series in Hnum.
      unfold position in Ec.
      destruct (index_of c (columns df)) as [j |]; [| discriminate Ec].
      inversion Ec. subst j. rewrite forallb_forall in Hnum.
      apply Hnum, in_map, Hr.
    - rewrite Ezs. simpl. eexists. reflexivity. }
  exists sums. split; [exact Esums |].
  apply map_result_length in Esums. exact Esums.
Qed.

Lemma ensure_faits_ok (df : DataFrame) :
  well_formed df = true ->
  numeric_counts df = true ->
  exists df',
    DataLoader.ensure_faits df = Ok df'
    /\ well_formed df' = true
    /\ numeric_column "faits" df' = true
    /\ (forall c cs, series c df = Ok cs -> series c df' = Ok cs)
    /\ List.length (rows df') = List.length (rows df).
Proof.
  intros Hwf Hnum. unfold DataLoader.ensure_faits, numeric_counts in *.
  destruct (in_columns "faits" df) eqn:Hf; simpl.
  - exists df. repeat split; auto.
  - destruct (DataLoader.month_cols df) as [| c0 cols] eqn:Em.
    + eexists. split; [reflexivity |].
      assert (Hl : List.length (repeat (CInt 1) (List.length (rows df)))
                   = List.length (rows df)) by apply repeat_length.
      repeat split.
      * apply assign_new_well_formed. exact Hwf.
      * unfold numeric_column.
        rewrite (assign_new_series_new _ _ _ Hwf Hl Hf).
        rewrite forallb_forall. intros x Hx.
        apply repeat_spec in Hx. subst x. reflexivity.
      * intros c cs. apply assign_new_series_old; assumption.
      * apply assign_new_rows_length. exact Hl.
    + assert (Es := sum_axis1_numeric df). rewrite Em in Es.
      destruct (Es Hnum) as [sums [Es' Hl0]].
      rewrite Es'. simpl.
      assert (Hl : List.length (map CInt sums) = List.length (rows df))
        by (rewrite length_map; exact Hl0).
      eexists. split; [reflexivity |].
      repeat split.
      * apply assign_new_well_formed. exact Hwf.
      * unfold numeric_column.
        rewrite (assign_new_series_new _ _ _ Hwf Hl Hf).
        rewrite forallb_forall. intros x Hx.
        apply in_map_iff in Hx. destruct Hx as [z [<- _]]. reflexivity.
      * intros c cs. apply assign_new_series_old; assumption.
      * apply assign_new_rows_length. exact Hl.
Qed.

(** ** Which aggregations assign to their argument *)

Section Frame.

Context {F : Type} `{FloatArith F}.

Lemma get_crime_types_distribution_frame
    (df : DataFrame) (dept_code : option string) (year : option Z) :
  fst (DataLoader.get_crime_types_distribution (F := F) df dept_code year) = df.
Proof. reflexivity. Qed.

Lemma get_top_departments_frame (df : DataFrame) (n : Z) (year : option Z) :
  fst (DataLoader.get_top_departments df n year) = df.
Proof. reflexivity. Qed.

Lemma get_temporal_evolution_frame_filtered (df : DataFrame) (dept_code : option string) :
  truthy_str dept_code = true ->
  fst (DataLoader.get_temporal_evolution (F := F) df dept_code) = df.
Proof.
  intro T. unfold DataLoader.get_temporal_evolution. rewrite T. reflexivity.
Qed.

Lemma get_department_stats_state (df : DataFrame) :
  fst (DataLoader.get_department_stats df)
  = match DataLoader.ensure_faits df with Ok df' => df' | Raise _ => df end.
Proof.
  unfold DataLoader.get_department_stats.
  destruct (DataLoader.ensure_faits df); reflexivity.
Qed.

Lemma get_temporal_evolution_state (df : DataFrame) (dept_code : option string) :
  truthy_str dept_code = false ->
  fst (DataLoader.get_temporal_evolution (F := F) df dept_code)
  = match DataLoader.ensure_faits df with Ok df' => df' | Raise _ => df end.
Proof.
  intro T. unfold DataLoader.get_temporal_evolution. rewrite T.
  destruct (DataLoader.ensure_faits df); reflexivity.
Qed.

End Frame.

(** C1, evaluated on a table without count column: after
    [get_department_stats] the caller's table has the extra column [faits],
    and so it has after [get_temporal_evolution] called without department
    code; with a department code, and in [get_crime_types_distribution] and
    [get_top_departments], which work on a copy, the table is the one that
    was passed.  The read-only property of C1 fails for the first two. *)
Theorem department_stats_adds_faits_to_its_argument :
  columns Scenario.no_count = ["code_dept"; "departement"; "annee"; "classe"]
  /\ columns (fst (DataLoader.get_department_stats Scenario.no_count))
     = ["code_dept"; "departement"; "annee"; "classe"; "faits"]
  /\ columns (fst (DataLoader.get_temporal_evolution (F := float) Scenario.no_count None))
     = ["code_dept"; "departement"; "annee"; "classe"; "faits"]
  /\ fst (DataLoader.get_temporal_evolution (F := float) Scenario.no_count (Some "75"))
     = Scenario.no_count
  /\ fst (DataLoader.get_crime_types_distribution (F := float) Scenario.no_count None None)
     = Scenario.no_count
  /\ fst (DataLoader.get_top_departments Scenario.no_count 10 None)
     = Scenario.no_count.
Proof.
  repeat split.
Qed.

(** ** The rate per thousand inhabitants *)

Lemma exact_of_int_nonzero (p : Z) : p <> 0 -> Exact.is_zero (inject_Z p) = false.
Proof.
  intro Hp. unfold Exact.is_zero. simpl. apply Z.eqb_neq. exact Hp.
Qed.

(** C7: [calculate_crime_rate] returns the integer 0 for a zero population,
    whatever the count, and [total_crimes / population * 1000] otherwise;
    for a positive population that value is a finite number, the exact
    quotient in exact arithmetic; [calculate_crime_rate(2000, 1000000)] is
    2.0, in binary64 as in exact arithmetic. *)
Theorem crime_rate_per_thousand :
  (forall (F : Type) (FA : FloatArith F) (x : Z),
      calculate_crime_rate (F := F) x 0 = PyInt 0)
  /\ (forall (F : Type) (FA : FloatArith F) (x p : Z),
         0 < p ->
         calculate_crime_rate (F := F) x p
         = PyFloat (fmul (fdiv (float_of_int x) (float_of_int p)) (float_of_int 1000)))
  /\ (forall x p : Z,
         0 <= x -> 0 < p ->
         exists q : Q,
           calculate_crime_rate (F := xfloat) x p = PyFloat (XNum q)
           /\ (q == inject_Z x / inject_Z p * 1000)%Q
           /\ (0 <= q)%Q)
  /\ calculate_crime_rate (F := float) 2000 1000000 = PyFloat 2%float
  /\ calculate_crime_rate (F := xfloat) 2000 1000000 = PyFloat (XNum 2).
Proof.
  split; [| split; [| split; [| split]]].
  - intros F FA x. reflexivity.
  - intros F FA x p Hp. unfold calculate_crime_rate.
    destruct (p =? 0) eqn:E; [apply Z.eqb_eq in E; lia | reflexivity].
  - intros x p Hx Hp. unfold calculate_crime_rate.
    destruct (p =? 0) eqn:E; [apply Z.eqb_eq in E; lia |].
    simpl. unfold Exact.of_int, Exact.div.
    rewrite exact_of_int_nonzero by lia. unfold Exact.mul.
    eexists. split; [reflexivity |].
    assert (Hq : (Qred (Qred (inject_Z x / inject_Z p) * inject_Z 1000)
                  == inject_Z x / inject_Z p * 1000)%Q).
    { rewrite !Qred_correct. reflexivity. }
    split; [exact Hq |].
    rewrite Hq.
    apply Qmult_le_0_compat; [| discriminate].
    apply Qle_shift_div_l.
    + unfold Qlt. simpl. lia.
    + rewrite Qmult_0_l. unfold Qle. simpl. lia.
  - vm_compute. reflexivity.
  - vm_compute. reflexivity.
Qed.

Lemma crime_rate_per_thousand_witness :
  exists q : Q,
    calculate_crime_rate (F := xfloat) 750 2165000 = PyFloat (XNum q)
    /\ (q == inject_Z 750 / inject_Z 2165000 * 1000)%Q
    /\ (0 <= q)%Q.
Proof.
  apply (proj1 (proj2 (proj2 crime_rate_per_thousand)) 750 2165000); lia.
Defined.

(** ** Falsy filters *)

(** C10: the filters are tested for truth ([if year:], [if dept_code:]): a
    year 0 and an empty department code give what no filter gives, in the
    result and in the caller's table; the rows are not selected by that
    value (on the Paris table the year 0 matches no row, and the ranking
    with [year=0] is the ranking of the whole table). *)
Theorem falsy_filters_are_no_filters :
  forall (F : Type) (FA : FloatArith F) (df : DataFrame)
         (dept_code : option string) (year : option Z) (n : Z),
    DataLoader.get_crime_types_distribution (F := F) df dept_code (Some 0)
    = DataLoader.get_crime_types_distribution df dept_code None
    /\ DataLoader.get_top_departments df n (Some 0)
       = DataLoader.get_top_departments df n None
    /\ DataLoader.get_temporal_evolution (F := F) df (Some "")
       = DataLoader.get_temporal_evolution df None
    /\ DataLoader.get_crime_types_distribution (F := F) df (Some "") year
       = DataLoader.get_crime_types_distribution df None year
    /\ snd (DataLoader.get_top_departments Scenario.paris 10 (Some 0))
       = Ok [DataLoader.mkTop (CStr "75") (CStr "Paris") 250]
    /\ rows (select (fun r => eq_int 0 (cell_at 2 r)) Scenario.paris) = [].
Proof.
  intros F FA df dept_code year n.
  repeat split.
Qed.

(** ** The context summary *)

Lemma get_data_summary_empty_with_year (df : DataFrame) :
  in_columns "annee" df = true -> rows df = [] ->
  get_data_summary df = Raise ValueError.
Proof.
  intros Hy Hr. unfold get_data_summary. rewrite Hy.
  destruct (series_present _ _ Hy) as [cs [Es Hl]]. rewrite Es.
  rewrite Hr in Hl. destruct cs; [| discriminate Hl]. reflexivity.
Qed.

Lemma get_data_summary_without_known_columns (df : DataFrame) :
  in_columns "annee" df = false -> in_columns "code_dept" df = false ->
  in_columns "faits" df = false -> existsb PyStr.isdigit (columns df) = false ->
  in_columns "classe" df = false ->
  get_data_summary df = Ok "".
Proof.
  intros H1 H2 H3 H4 H5. unfold get_data_summary.
  rewrite H1, H2, H3, H4, H5. reflexivity.
Qed.

(** C9, evaluated on the empty table that has the year column: the summary
    raises [ValueError] (the minimum of an empty array), where C9 says that
    no table makes it raise.  A fragment whose column is absent is left out:
    with rows, and without the year column on the empty table, the summary
    is returned. *)
Theorem summary_of_empty_table_with_year_raises :
  get_data_summary Scenario.empty_with_year = Raise ValueError
  /\ get_data_summary (mkDF ["code_dept"; "classe"; "faits"] [])
     = Ok "Départements: 0 | Total des faits: 0 | Types de crimes: 0"
  /\ get_data_summary Scenario.no_name
     = Ok "Départements: 1 | Total des faits: 3 | Types de crimes: 1"
  /\ get_data_summary Scenario.paris
     = Ok "Période: 2020 - 2021 | Départements: 1 | Total des faits: 250 | Types de crimes: 1".
Proof.
  repeat split.
Qed.

(** ** When the aggregations return *)

Lemma ensure_faits_columns (df df' : DataFrame) :
  DataLoader.ensure_faits df = Ok df' ->
  columns df' = columns df \/ columns df' = columns df ++ ["faits"].
Proof.
  unfold DataLoader.ensure_faits.
  destruct (in_columns "faits" df); simpl.
  - intro E. inversion E. left. reflexivity.
  - destruct (DataLoader.month_cols df) as [| c0 cols].
    + intro E. inversion E. right. reflexivity.
    + intro E. inv_bind E. inversion E. right. reflexivity.
Qed.

Lemma ensure_faits_other_columns (df df' : DataFrame) (c : string) :
  DataLoader.ensure_faits df = Ok df' -> c <> "faits" ->
  in_columns c df' = in_columns c df.
Proof.
  intros E Hc. unfold in_columns.
  destruct (ensure_faits_columns _ _ E) as [-> | ->]; [reflexivity |].
  rewrite existsb_app. simpl.
  apply String.eqb_neq in Hc. rewrite Hc. rewrite !orb_false_r. reflexivity.
Qed.

Lemma ensure_faits_has_faits (df df' : DataFrame) :
  DataLoader.ensure_faits df = Ok df' -> in_columns "faits" df' = true.
Proof.
  intro E. unfold DataLoader.ensure_faits in E.
  destruct (in_columns "faits" df) eqn:Hf; simpl in E.
  - inversion E. subst. exact Hf.
  - assert (Hnew : forall vals, in_columns "faits" (assign_new "faits" vals df) = true).
    { intro vals. unfold in_columns, assign_new. simpl.
      rewrite existsb_app. simpl. apply orb_true_r. }
    destruct (DataLoader.month_cols df); [| inv_bind E]; inversion E; apply Hnew.
Qed.

Lemma numeric_summands (c : string) (df : DataFrame) :
  numeric_column c df = true ->
  exists cs zs, series c df = Ok cs /\ summands cs = Ok zs.
Proof.
  unfold numeric_column. destruct (series c df) as [cs |]; [| discriminate].
  intro H. destruct (summands_numeric cs H) as [zs E]. eauto.
Qed.

Lemma department_groupby_ok (df : DataFrame) :
  in_columns "code_dept" df = true -> in_columns "departement" df = true ->
  in_columns "annee" df = true -> numeric_column "faits" df = true ->
  exists stats, DataLoader.department_groupby df = Ok stats.
Proof.
  intros H1 H2 H3 H4. unfold DataLoader.department_groupby.
  destruct (series_present _ _ H1) as [c1 [E1 _]].
  destruct (series_present _ _ H2) as [c2 [E2 _]].
  destruct (series_present _ _ H3) as [c3 [E3 _]].
  destruct (numeric_summands _ _ H4) as [c4 [zs [E4 Ez]]].
  rewrite E1, E2, E4, E3. simpl. rewrite Ez. simpl. eexists. reflexivity.
Qed.

Lemma groupby_sum_ok (c : string) (df : DataFrame) :
  in_columns c df = true -> numeric_column "faits" df = true ->
  exists groups, DataLoader.groupby_sum c df = Ok groups.
Proof.
  intros H1 H4. unfold DataLoader.groupby_sum.
  destruct (series_present _ _ H1) as [c1 [E1 _]].
  destruct (numeric_summands _ _ H4) as [c4 [zs [E4 Ez]]].
  rewrite E1, E4. simpl. rewrite Ez. simpl. eexists. reflexivity.
Qed.

Lemma groupby2_sum_ok (df : DataFrame) :
  in_columns "code_dept" df = true -> in_columns "departement" df = true ->
  numeric_column "faits" df = true ->
  exists top, DataLoader.groupby2_sum df = Ok top.
Proof.
  intros H1 H2 H4. unfold DataLoader.groupby2_sum.
  destruct (series_present _ _ H1) as [c1 [E1 _]].
  destruct (series_present _ _ H2) as [c2 [E2 _]].
  destruct (numeric_summands _ _ H4) as [c4 [zs [E4 Ez]]].
  rewrite E1, E2, E4. simpl. rewrite Ez. simpl. eexists. reflexivity.
Qed.

Lemma filter_dept_ok (dept_code : option string) (df : DataFrame) :
  (truthy_str dept_code = true -> in_columns "code_dept" df = true) ->
  exists keep, DataLoader.filter_dept dept_code df = Ok (select keep df).
Proof.
  intro H. unfold DataLoader.filter_dept.
  destruct (truthy_str dept_code).
  - destruct (filter_eq_present "code_dept"
                (eq_str match dept_code with Some s => s | None => "" end)
                df (H eq_refl)) as [i E].
    rewrite E. eexists. reflexivity.
  - exists (fun _ => true). unfold select. destruct df as [cols rs]. simpl.
    f_equal. f_equal. symmetry. apply forallb_filter_id.
    apply forallb_forall. reflexivity.
Qed.

Lemma filter_year_ok (year : option Z) (df : DataFrame) :
  (truthy_int year = true -> in_columns "annee" df = true) ->
  exists keep, DataLoader.filter_year year df = Ok (select keep df).
Proof.
  intro H. unfold DataLoader.filter_year.
  destruct (truthy_int year).
  - destruct (filter_eq_present "annee"
                (eq_int match year with Some y => y | None => 0 end)
                df (H eq_refl)) as [i E].
    rewrite E. eexists. reflexivity.
  - exists (fun _ => true). unfold select. destruct df as [cols rs]. simpl.
    f_equal. f_equal. symmetry. apply forallb_filter_id.
    apply forallb_forall. reflexivity.
Qed.

Lemma resolved_has_column (df df' : DataFrame) (c : string) :
  (forall c cs, series c df = Ok cs -> series c df' = Ok cs) ->
  in_columns c df = true -> in_columns c df' = true.
Proof.
  intros Hs Hc. destruct (series_present _ _ Hc) as [cs [E _]].
  apply Hs in E. apply series_ok_inv in E. tauto.
Qed.

Section Returns.

Context {F : Type} `{FloatArith F}.

Lemma get_department_stats_ok (df : DataFrame) :
  well_formed df = true -> numeric_counts df = true ->
  in_columns "code_dept" df = true -> in_columns "departement" df = true ->
  in_columns "annee" df = true ->
  exists df' stats,
    DataLoader.ensure_faits df = Ok df'
    /\ DataLoader.get_department_stats df = (df', Ok stats).
Proof.
  intros Hwf Hnum H1 H2 H3.
  destruct (ensure_faits_ok df Hwf Hnum) as [df' [E [_ [Hf [Hs _]]]]].
  destruct (department_groupby_ok df') as [stats Eg];
    try (eapply resolved_has_column; eassumption); try assumption.
  exists df', stats. split; [exact E |].
  unfold DataLoader.get_department_stats. rewrite E, Eg. reflexivity.
Qed.

Lemma get_temporal_evolution_ok (df : DataFrame) (dept_code : option string) :
  well_formed df = true -> numeric_counts df = true ->
  in_columns "annee" df = true ->
  (truthy_str dept_code = true -> in_columns "code_dept" df = true) ->
  exists out, snd (DataLoader.get_temporal_evolution (F := F) df dept_code) = Ok out.
Proof.
  intros Hwf Hnum H3 H1. unfold DataLoader.get_temporal_evolution.
  destruct (truthy_str dept_code) eqn:T; simpl.
  - destruct (filter_eq_present "code_dept"
                (eq_str match dept_code with Some s => s | None => "" end)
                df (H1 eq_refl)) as [i E].
    rewrite E. simpl.
    set (sel := select _ df).
    destruct (ensure_faits_ok sel) as [df' [E' [_ [Hf [Hs _]]]]].
    { apply select_well_formed, Hwf. }
    { apply select_numeric_counts, Hnum. }
    rewrite E'. simpl. unfold DataLoader.evolution_of.
    destruct (groupby_sum_ok "annee" df') as [g Eg]; [| exact Hf |].
    { eapply resolved_has_column; [exact Hs |]. exact H3. }
    rewrite Eg. simpl. eexists. reflexivity.
  - destruct (ensure_faits_ok df Hwf Hnum) as [df' [E' [_ [Hf [Hs _]]]]].
    rewrite E'. simpl. unfold DataLoader.evolution_of.
    destruct (groupby_sum_ok "annee" df') as [g Eg]; [| exact Hf |].
    { eapply resolved_has_column; [exact Hs |]. exact H3. }
    rewrite Eg. simpl. eexists. reflexivity.
Qed.

Lemma get_crime_types_distribution_ok
    (df : DataFrame) (dept_code : option string) (year : option Z) :
  well_formed df = true -> numeric_counts df = true ->
  in_columns "classe" df = true ->
  (truthy_str dept_code = true -> in_columns "code_dept" df = true) ->
  (truthy_int year = true -> in_columns "annee" df = true) ->
  exists out,
    snd (DataLoader.get_crime_types_distribution (F := F) df dept_code year) = Ok out.
Proof.
  intros Hwf Hnum Hc H1 H3. unfold DataLoader.get_crime_types_distribution, copy.
  simpl.
  destruct (filter_dept_ok dept_code df H1) as [k1 E1]. rewrite E1. simpl.
  destruct (filter_year_ok year (select k1 df) H3) as [k2 E2]. rewrite E2. simpl.
  set (sel := select k2 (select k1 df)).
  destruct (ensure_faits_ok sel) as [df' [E' [_ [Hf [Hs _]]]]].
  { apply select_well_formed, select_well_formed, Hwf. }
  { apply select_numeric_counts, select_numeric_counts, Hnum. }
  rewrite E'. simpl. unfold DataLoader.distribution_of.
  destruct (groupby_sum_ok "classe" df') as [g Eg]; [| exact Hf |].
  { eapply resolved_has_column; [exact Hs |]. exact Hc. }
  rewrite Eg. simpl. eexists. reflexivity.
Qed.

Lemma get_top_departments_ok (df : DataFrame) (n : Z) (year : option Z) :
  well_formed df = true -> numeric_counts df = true ->
  in_columns "code_dept" df = true -> in_columns "departement" df = true ->
  (truthy_int year = true -> in_columns "annee" df = true) ->
  exists top, snd (DataLoader.get_top_departments df n year) = Ok top.
Proof.
  intros Hwf Hnum H1 H2 H3. unfold DataLoader.get_top_departments, copy. simpl.
  destruct (filter_year_ok year df H3) as [k2 E2]. rewrite E2. simpl.
  set (sel := select k2 df).
  destruct (ensure_faits_ok sel) as [df' [E' [_ [Hf [Hs _]]]]].
  { apply select_well_formed, Hwf. }
  { apply select_numeric_counts, Hnum. }
  rewrite E'. simpl.
  destruct (groupby2_sum_ok df') as [g Eg]; [| | exact Hf |].
  { eapply resolved_has_column; [exact Hs |]. exact H1. }
  { eapply resolved_has_column; [exact Hs |]. exact H2. }
  rewrite Eg. simpl. eexists. reflexivity.
Qed.

End Returns.

Lemma department_stats_key_error (df : DataFrame) :
  well_formed df = true -> numeric_counts df = true ->
  (in_columns "code_dept" df = false ->
   snd (DataLoader.get_department_stats df) = Raise (KeyError "code_dept"))
  /\ (in_columns "code_dept" df = true -> in_columns "departement" df = false ->
      snd (DataLoader.get_department_stats df) = Raise (KeyError "departement"))
  /\ (in_columns "code_dept" df = true -> in_columns "departement" df = true ->
      in_columns "annee" df = false ->
      snd (DataLoader.get_department_stats df) = Raise (KeyError "annee")).
Proof.
  intros Hwf Hnum.
  destruct (ensure_faits_ok df Hwf Hnum) as [df' [E [_ [Hf [Hs _]]]]].
  unfold DataLoader.get_department_stats. rewrite E. simpl.
  unfold DataLoader.department_groupby.
  assert (Hother : forall c, c <> "faits" -> in_columns c df' = in_columns c df)
    by (intros; apply ensure_faits_other_columns; assumption).
  split; [| split].
  - intro H1. rewrite series_absent; [reflexivity |].
    rewrite Hother; [exact H1 | discriminate].
  - intros H1 H2.
    destruct (series_present "code_dept" df') as [c1 [E1 _]].
    { rewrite Hother; [exact H1 | discriminate]. }
    rewrite E1. simpl. rewrite series_absent; [reflexivity |].
    rewrite Hother; [exact H2 | discriminate].
  - intros H1 H2 H3.
    destruct (series_present "code_dept" df') as [c1 [E1 _]].
    { rewrite Hother; [exact H1 | discriminate]. }
    destruct (series_present "departement" df') as [c2 [E2 _]].
    { rewrite Hother; [exact H2 | discriminate]. }
    destruct (numeric_summands _ _ Hf) as [c4 [zs [E4 Ez]]].
    rewrite E1, E2, E4. simpl. rewrite series_absent; [reflexivity |].
    rewrite Hother; [exact H3 | discriminate].
Qed.

(** C3 fails as stated: on a table without territory name, and on one
    without year, [get_department_stats] raises [KeyError]. *)
Lemma department_stats_raises_without_name_or_year :
  snd (DataLoader.get_department_stats Scenario.no_name) = Raise (KeyError "departement")
  /\ snd (DataLoader.get_department_stats Scenario.no_year) = Raise (KeyError "annee").
Proof.
  split; reflexivity.
Qed.

(** C3, amended: each of the four aggregations resolves the count column
    itself and returns a result on every table (with numeric counts) that has
    the columns it groups and filters by; [get_department_stats] raises
    [KeyError] when [code_dept], [departement] or [annee] is absent. *)
Theorem aggregations_return_when_their_columns_exist :
  forall (F : Type) (FA : FloatArith F) (df : DataFrame),
    well_formed df = true ->
    numeric_counts df = true ->
    (in_columns "code_dept" df = true -> in_columns "departement" df = true ->
     in_columns "annee" df = true ->
     is_ok (snd (DataLoader.get_department_stats df)) = true)
    /\ (forall dept_code,
           in_columns "annee" df = true ->
           (truthy_str dept_code = true -> in_columns "code_dept" df = true) ->
           is_ok (snd (DataLoader.get_temporal_evolution (F := F) df dept_code)) = true)
    /\ (forall dept_code year,
           in_columns "classe" df = true ->
           (truthy_str dept_code = true -> in_columns "code_dept" df = true) ->
           (truthy_int year = true -> in_columns "annee" df = true) ->
           is_ok (snd (DataLoader.get_crime_types_distribution (F := F) df dept_code year))
           = true)
    /\ (forall n year,
           in_columns "code_dept" df = true -> in_columns "departement" df = true ->
           (truthy_int year = true -> in_columns "annee" df = true) ->
           is_ok (snd (DataLoader.get_top_departments df n year)) = true)
    /\ (in_columns "code_dept" df = false ->
        snd (DataLoader.get_department_stats df) = Raise (KeyError "code_dept"))
    /\ (in_columns "code_dept" df = true -> in_columns "departement" df = false ->
        snd (DataLoader.get_department_stats df) = Raise (KeyError "departement"))
    /\ (in_columns "code_dept" df = true -> in_columns "departement" df = true ->
        in_columns "annee" df = false ->
        snd (DataLoader.get_department_stats df) = Raise (KeyError "annee")).
Proof.
  intros F FA df Hwf Hnum.
  split; [| split; [| split; [| split]]].
  - intros H1 H2 H3.
    destruct (get_department_stats_ok df Hwf Hnum H1 H2 H3) as [df' [stats [_ E]]].
    rewrite E. reflexivity.
  - intros dept_code H3 H1.
    destruct (get_temporal_evolution_ok (F := F) df dept_code Hwf Hnum H3 H1) as [out E].
    rewrite E. reflexivity.
  - intros dept_code year Hc H1 H3.
    destruct (get_crime_types_distribution_ok (F := F) df dept_code year Hwf Hnum Hc H1 H3)
      as [out E].
    rewrite E. reflexivity.
  - intros n year H1 H2 H3.
    destruct (get_top_departments_ok df n year Hwf Hnum H1 H2 H3) as [top E].
    rewrite E. reflexivity.
  - apply department_stats_key_error; assumption.
Qed.

Lemma aggregations_return_witness :
  is_ok (snd (DataLoader.get_department_stats Scenario.monthly)) = true
  /\ is_ok (snd (DataLoader.get_top_departments Scenario.no_count 10 (Some 2020))) = true.
Proof.
  pose proof (aggregations_return_when_their_columns_exist
                float binary64_arith Scenario.monthly eq_refl eq_refl) as Hm.
  pose proof (aggregations_return_when_their_columns_exist
                float binary64_arith Scenario.no_count eq_refl eq_refl) as Hn.
  split.
  - apply (proj1 Hm); reflexivity.
  - apply (proj1 (proj2 (proj2 (proj2 Hn))) 10 (Some 2020)); reflexivity.
Defined.

(** ** Conservation of the counts *)

Lemma combine_drop_second {A : Type} (P : A -> bool) (ks : list A) (zs ws : list Z) :
  List.length zs = List.length ws ->
  map (fun kv => (fst kv, fst (snd kv)))
      (filter (fun kv => P (fst kv)) (combine ks (combine zs ws)))
  = filter (fun kv => P (fst kv)) (combine ks zs).
Proof.
  revert zs ws.
  induction ks as [| k ks IH]; intros zs ws Hl; [reflexivity |].
  destruct zs as [| z zs]; destruct ws as [| w ws]; simpl in *;
    try reflexivity; try discriminate Hl.
  destruct (P k); simpl; [f_equal |]; apply IH; lia.
Qed.

Lemma filter_all {A : Type} (P : A -> bool) (l : list A) :
  forallb P l = true -> filter P l = l.
Proof.
  induction l as [| a l IH]; simpl; intro H; [reflexivity |].
  apply andb_prop in H. destruct H as [Ha Hl]. rewrite Ha, (IH Hl). reflexivity.
Qed.

Lemma map_snd_combine {A B : Type} (l : list A) (l' : list B) :
  List.length l = List.length l' -> map snd (combine l l') = l'.
Proof.
  revert l'. induction l as [| a l IH]; intros [| b l'] Hl; simpl in *;
    try reflexivity; try discriminate Hl.
  f_equal. apply IH. lia.
Qed.

Lemma map_fst_combine {A B : Type} (l : list A) (l' : list B) :
  List.length l = List.length l' -> map fst (combine l l') = l.
Proof.
  revert l'. induction l as [| a l IH]; intros [| b l'] Hl; simpl in *;
    try reflexivity; try discriminate Hl.
  f_equal. apply IH. lia.
Qed.

Lemma keys2_present (codes names : list cell) :
  forallb cell_present codes = true -> forallb cell_present names = true ->
  forallb key2_present (combine codes names) = true.
Proof.
  revert names. induction codes as [| c codes IH]; intros [| m names] Hc Hn;
    simpl in *; try reflexivity.
  apply andb_prop in Hc. apply andb_prop in Hn.
  destruct Hc as [Hc Hcs]. destruct Hn as [Hn Hns].
  unfold key2_present at 1. simpl. unfold cell_present in Hc, Hn.
  rewrite Hc, Hn. simpl. apply IH; assumption.
Qed.

Lemma forallb_on_fst {A B : Type} (P : A -> bool) (l : list A) (l' : list B) :
  forallb P l = true -> forallb (fun kv => P (fst kv)) (combine l l') = true.
Proof.
  revert l'. induction l as [| a l IH]; intros [| b l'] H; simpl in *;
    try reflexivity.
  apply andb_prop in H. destruct H as [Ha Hl]. rewrite Ha. simpl. apply IH, Hl.
Qed.

(** C5 fails as stated: a row whose territory name is missing belongs to no
    group, and its count is lost (total 0 against a count column that sums
    to 5). *)
Lemma department_stats_drops_rows_without_name :
  snd (DataLoader.get_department_stats Scenario.missing_name) = Ok []
  /\ rbind (series "faits" Scenario.missing_name) summands = Ok [5].
Proof.
  split; reflexivity.
Qed.

(** C5, amended: when [get_department_stats] returns, the totals of its
    rows sum to the resolved counts of the rows whose [code_dept] and
    [departement] are both present, hence to the whole resolved count column
    when no row misses one of the two. *)
Theorem department_stats_conserves_counts :
  forall (df df' : DataFrame) (stats : list DataLoader.dept_stat),
    DataLoader.get_department_stats df = (df', Ok stats) ->
    exists codes names counts,
      DataLoader.ensure_faits df = Ok df'
      /\ series "code_dept" df' = Ok codes
      /\ series "departement" df' = Ok names
      /\ rbind (series "faits" df') summands = Ok counts
      /\ zsum (map DataLoader.ds_total_faits stats)
         = zsum (map snd (filter (fun kc => key2_present (fst kc))
                                 (combine (combine codes names) counts)))
      /\ (forallb cell_present codes = true ->
          forallb cell_present names = true ->
          zsum (map DataLoader.ds_total_faits stats) = zsum counts).
Proof.
  intros df df' stats E. unfold DataLoader.get_department_stats in E.
  destruct (DataLoader.ensure_faits df) as [d |] eqn:Ef; [| inversion E].
  inversion E as [[Ed Eg]]. subst d. clear E.
  unfold DataLoader.department_groupby in Eg.
  apply rbind_ok in Eg. destruct Eg as [codes [Ec Eg]].
  apply rbind_ok in Eg. destruct Eg as [names [En Eg]].
  apply rbind_ok in Eg. destruct Eg as [faits [Efa Eg]].
  apply rbind_ok in Eg. destruct Eg as [annee [Ea Eg]].
  apply rbind_ok in Eg. destruct Eg as [counts [Es Eg]].
  inversion Eg as [Estats]. clear Eg. subst stats.
  exists codes, names, counts.
  assert (Hlc : List.length codes = List.length (rows df')) by (apply series_ok_inv in Ec; tauto).
  assert (Hln : List.length names = List.length (rows df')) by (apply series_ok_inv in En; tauto).
  assert (Hlf : List.length faits = List.length (rows df')) by (apply series_ok_inv in Efa; tauto).
  assert (Hla : List.length annee = List.length (rows df')) by (apply series_ok_inv in Ea; tauto).
  assert (Hls : List.length counts = List.length faits) by (apply summands_length; exact Es).
  assert (Hsum :
    zsum (map DataLoader.ds_total_faits
           (sort_desc DataLoader.ds_total_faits
              (map (fun kv => DataLoader.mkDeptStat (fst (fst kv)) (snd (fst kv))
                                                    (fst (snd kv)) (snd (snd kv)))
                 (groupby_agg key2_eq_dec key2_leb DataLoader.add2 (0, 0)
                    (filter (fun kv => negb (isna (fst (fst kv))) && negb (isna (snd (fst kv))))
                       (combine (combine codes names)
                          (combine counts (map (fun c => if isna c then 0 else 1) annee))))))))
    = zsum (map snd (filter (fun kc => key2_present (fst kc))
                            (combine (combine codes names) counts)))).
  { rewrite (zsum_perm _ _ (Permutation_map _ (sort_desc_perm _ _))).
    rewrite map_map. simpl.
    rewrite (groupby_agg_sum key2_eq_dec key2_leb DataLoader.add2 (0, 0) fst eq_refl
               (fun a b => eq_refl)).
    transitivity
      (zsum (map snd
         (map (fun kv : key2 * (Z * Z) => (fst kv, fst (snd kv)))
            (filter (fun kv => key2_present (fst kv))
               (combine (combine codes names)
                  (combine counts (map (fun c => if isna c then 0 else 1) annee))))))).
    - rewrite map_map. reflexivity.
    - rewrite combine_drop_second by (rewrite length_map; lia). reflexivity. }
  repeat split; try assumption.
  - rewrite Efa. simpl. exact Es.
  - intros Hc Hn. rewrite Hsum.
    rewrite filter_all.
    + rewrite map_snd_combine; [reflexivity |].
      unfold key2. rewrite length_combine. lia.
    + apply (forallb_on_fst key2_present). apply keys2_present; assumption.
Qed.

Lemma department_stats_conserves_counts_witness :
  exists codes names counts,
    DataLoader.ensure_faits Scenario.monthly
    = Ok (fst (DataLoader.get_department_stats Scenario.monthly))
    /\ series "code_dept" (fst (DataLoader.get_department_stats Scenario.monthly)) = Ok codes
    /\ series "departement" (fst (DataLoader.get_department_stats Scenario.monthly)) = Ok names
    /\ rbind (series "faits" (fst (DataLoader.get_department_stats Scenario.monthly))) summands
       = Ok counts
    /\ zsum (map DataLoader.ds_total_faits
               [DataLoader.mkDeptStat (CStr "75") (CStr "Paris") 7 1])
       = zsum (map snd (filter (fun kc => key2_present (fst kc))
                               (combine (combine codes names) counts)))
    /\ (forallb cell_present codes = true ->
        forallb cell_present names = true ->
        zsum (map DataLoader.ds_total_faits
                [DataLoader.mkDeptStat (CStr "75") (CStr "Paris") 7 1])
        = zsum counts).
Proof.
  apply (department_stats_conserves_counts Scenario.monthly).
  reflexivity.
Defined.

(** ** Groups and their totals *)



Lemma in_combine_left_exists {A B : Type} (l : list A) (l' : list B) (a : A) :
  List.length l = List.length l' -> In a l -> exists b, In (a, b) (combine l l').
Proof.
  revert l'. induction l as [| x l IH]; intros [| y l'] Hl Ha; simpl in *;
    try contradiction; try discriminate Hl.
  destruct Ha as [-> | Ha].
  - exists y. left. reflexivity.
  - destruct (IH l') as [b Hb]; [lia | exact Ha |]. exists b. right. exact Hb.
Qed.

Section GroupedTotals.

Context {K : Type}.
Variable K_eq_dec : forall a b : K, {a = b} + {a <> b}.
Variable K_leb : K -> K -> bool.
Variable present : K -> bool.

Lemma same_key_among_present (k : K) (kvs : list (K * Z)) :
  present k = true ->
  filter (same_key K_eq_dec k) (filter (fun kv => present (fst kv)) kvs)
  = filter (same_key K_eq_dec k) kvs.
Proof.
  intro Hk. induction kvs as [| kv kvs IH]; simpl; [reflexivity |].
  destruct (present (fst kv)) eqn:P; simpl; rewrite IH; [reflexivity |].
  unfold same_key. destruct (K_eq_dec (fst kv) k) as [E | _]; [| reflexivity].
  rewrite E in P. congruence.
Qed.

Lemma present_keys_in (keys : list K) (counts : list Z) (k : K) :
  List.length keys = List.length counts ->
  In k (map fst (filter (fun kv => present (fst kv)) (combine keys counts)))
  <-> In k keys /\ present k = true.
Proof.
  intro Hl. rewrite in_map_iff. split.
  - intros [kv [<- Hin]]. apply filter_In in Hin. destruct Hin as [Hin Hp].
    split; [| exact Hp]. destruct kv as [k0 v]. apply in_combine_l in Hin. exact Hin.
  - intros [Hin Hp]. destruct (in_combine_left_exists keys counts k Hl Hin) as [v Hv].
    exists (k, v). split; [reflexivity |]. apply filter_In. split; assumption.
Qed.

Lemma groupby_grouped_totals (keys : list K) (counts : list Z) (out : list (K * Z)) :
  List.length keys = List.length counts ->
  Permutation out
    (groupby_agg K_eq_dec K_leb Z.add 0
       (filter (fun kv => present (fst kv)) (combine keys counts))) ->
  grouped_totals K_eq_dec present keys counts out.
Proof.
  intros Hl Hp.
  set (kvs := filter (fun kv => present (fst kv)) (combine keys counts)) in *.
  assert (Hkeys : Permutation (map fst out) (group_keys K_eq_dec K_leb kvs)).
  { rewrite <- (groupby_agg_keys K_eq_dec K_leb Z.add 0). apply Permutation_map, Hp. }
  assert (Hin : forall k, In k (map fst out) <-> In k keys /\ present k = true).
  { intro k. split; intro Hk.
    - apply (Permutation_in _ Hkeys), group_keys_in in Hk.
      apply (present_keys_in keys counts k Hl). exact Hk.
    - apply (present_keys_in keys counts k Hl) in Hk.
      apply (Permutation_in _ (Permutation_sym Hkeys)), group_keys_in. exact Hk. }
  split; [| split].
  - apply (Permutation_NoDup (Permutation_sym Hkeys)), group_keys_nodup.
  - exact Hin.
  - intros k t Hkt.
    assert (Hk : present k = true).
    { apply (Hin k). apply in_map_iff. exists (k, t). split; [reflexivity | exact Hkt]. }
    apply (Permutation_in _ Hp) in Hkt. apply groupby_agg_in in Hkt.
    rewrite Hkt. unfold group_total, total_where, kvs.
    rewrite (same_key_among_present k _ Hk). reflexivity.
Qed.

End GroupedTotals.


Lemma groupby_sum_inv (c : string) (df : DataFrame) (groups : list (cell * Z)) :
  DataLoader.groupby_sum c df = Ok groups ->
  exists keys counts,
    series c df = Ok keys
    /\ rbind (series "faits" df) summands = Ok counts
    /\ List.length keys = List.length counts
    /\ groups = groupby_agg cell_eq_dec cell_leb Z.add 0
                  (filter (fun kv => cell_present (fst kv)) (combine keys counts)).
Proof.
  unfold DataLoader.groupby_sum. intro E.
  apply rbind_ok in E. destruct E as [keys [Ek E]].
  apply rbind_ok in E. destruct E as [faits [Ef E]].
  apply rbind_ok in E. destruct E as [counts [Es E]].
  inversion E as [Eg]. exists keys, counts.
  repeat split.
  - exact Ek.
  - rewrite Ef. exact Es.
  - apply series_ok_inv in Ek. apply series_ok_inv in Ef.
    apply summands_length in Es. lia.
Qed.


(** ** binary64: the conversion of an integer and the division by zero *)

Lemma digits2_pos_lower (p : positive) :
  2 ^ (Zpos (digits2_pos p) - 1) <= Zpos p.
Proof.
  induction p as [p IH | p IH |]; cbn [digits2_pos].
  - rewrite Pos2Z.inj_succ.
    replace (Z.succ (Zpos (digits2_pos p)) - 1) with (Z.succ (Zpos (digits2_pos p) - 1)) by lia.
    rewrite Z.pow_succ_r by lia. lia.
  - rewrite Pos2Z.inj_succ.
    replace (Z.succ (Zpos (digits2_pos p)) - 1) with (Z.succ (Zpos (digits2_pos p) - 1)) by lia.
    rewrite Z.pow_succ_r by lia. lia.
  - simpl. lia.
Qed.

Lemma digits2_pos_bound (p : positive) :
  Zpos p < 2 ^ 53 -> Zpos (digits2_pos p) <= 53.
Proof.
  intro Hp. pose proof (digits2_pos_lower p) as Hl.
  destruct (Z_le_gt_dec (Zpos (digits2_pos p)) 53) as [H | H]; [exact H |].
  exfalso.
  assert (H53 : 2 ^ 53 <= 2 ^ (Zpos (digits2_pos p) - 1))
    by (apply Z.pow_le_mono_r; lia).
  lia.
Qed.

Lemma digits2_pos_iter_xO (k p : positive) :
  Zpos (digits2_pos (Pos.iter xO p k)) = Zpos (digits2_pos p) + Zpos k.
Proof.
  induction k as [| k IH] using Pos.peano_ind.
  - cbn [Pos.iter digits2_pos]. lia.
  - rewrite Pos.iter_succ. cbn [digits2_pos]. rewrite Pos2Z.inj_succ, IH. lia.
Qed.

(** A mantissa of 53 digits with an exponent in range is left as it is. *)
Lemma binary_round_aux_canonical (s : bool) (m : positive) (e : Z) :
  Zpos (digits2_pos m) = 53 -> -1074 <= e <= 971 ->
  binary_round_aux prec emax s (Zpos m) e loc_Exact = S754_finite s m e
  /\ valid_binary (S754_finite s m e) = true.
Proof.
  intros Hd He.
  assert (Hf : fexp prec emax (Zpos (digits2_pos m) + e) = e).
  { unfold fexp, emin, prec, emax. rewrite Hd. lia. }
  split.
  - unfold binary_round_aux, shr_fexp. cbn [Zdigits2 shr_record_of_loc].
    rewrite Hf, Z.sub_diag. cbn [shr shr_m loc_of_shr_record round_nearest_even].
    cbn [Zdigits2 shr_record_of_loc]. rewrite Hf, Z.sub_diag. cbn [shr shr_m].
    replace (e <=? emax - prec) with true; [reflexivity |].
    symmetry. apply Z.leb_le. unfold emax, prec. lia.
  - cbn [SpecFloat.valid_binary]. unfold bounded, canonical_mantissa.
    rewrite Hf, Z.eqb_refl. cbn [andb]. apply Z.leb_le. unfold emax, prec. lia.
Qed.

Lemma binary_round_small (s : bool) (p : positive) :
  Zpos p < 2 ^ 53 ->
  exists m e,
    binary_round prec emax s p 0 = S754_finite s m e
    /\ valid_binary (S754_finite s m e) = true
    /\ Zpos (digits2_pos m) = 53 /\ -52 <= e <= 0.
Proof.
  intro Hp. pose proof (digits2_pos_bound p Hp) as Hd.
  assert (Hpos : 0 < Zpos (digits2_pos p)) by lia.
  unfold binary_round.
  assert (Hf : fexp prec emax (Zpos (digits2_pos p) + 0) = Zpos (digits2_pos p) - 53).
  { unfold fexp, emin, prec, emax. lia. }
  rewrite Hf. unfold shl_align.
  destruct (Zpos (digits2_pos p) - 53 - 0) as [| k | k] eqn:Ek; try lia.
  - exists p, 0.
    destruct (binary_round_aux_canonical s p 0) as [E Hv]; [lia | lia |].
    repeat split; try assumption; lia.
  - exists (Pos.iter xO p k), (Zpos (digits2_pos p) - 53).
    assert (Hk : Zpos (digits2_pos (Pos.iter xO p k)) = 53)
      by (rewrite digits2_pos_iter_xO; lia).
    destruct (binary_round_aux_canonical s (Pos.iter xO p k) (Zpos (digits2_pos p) - 53))
      as [E Hv]; [exact Hk | lia |].
    repeat split; try assumption; lia.
Qed.

(** The conversion of an integer below 2^53 in magnitude is the normal number of
    its sign, with a mantissa of 53 digits. *)
Lemma of_int_finite (z : Z) :
  z <> 0 -> - 2 ^ 53 < z < 2 ^ 53 ->
  exists m e,
    Prim2SF (Binary64.of_int z) = S754_finite (z <? 0) m e
    /\ Zpos (digits2_pos m) = 53 /\ -52 <= e <= 0.
Proof.
  intros Hz Hb. unfold Binary64.of_int.
  destruct z as [| p | p]; [contradiction | |]; cbn [binary_normalize Z.ltb Z.compare].
  - destruct (binary_round_small false p) as [m [e [E [Hv Hme]]]]; [lia |].
    exists m, e. rewrite E. split; [apply Prim2SF_SF2Prim, Hv | exact Hme].
  - destruct (binary_round_small true p) as [m [e [E [Hv Hme]]]]; [lia |].
    exists m, e. rewrite E. split; [apply Prim2SF_SF2Prim, Hv | exact Hme].
Qed.

(** In binary64 an integer that is not zero, divided by the integer zero,
    is the infinity of its sign. *)
Lemma binary64_div_by_zero (z : Z) :
  z <> 0 -> - 2 ^ 53 < z < 2 ^ 53 ->
  PrimFloat.div (Binary64.of_int z) (Binary64.of_int 0)
  = if z <? 0 then PrimFloat.neg_infinity else PrimFloat.infinity.
Proof.
  intros Hz Hb. destruct (of_int_finite z Hz Hb) as [m [e [E _]]].
  apply Prim2SF_inj. rewrite div_spec, E.
  replace (Prim2SF (Binary64.of_int 0)) with (S754_zero false)
    by (vm_compute; reflexivity).
  unfold SF64div. cbn [SFdiv]. rewrite xorb_false_r.
  destruct (z <? 0); vm_compute; reflexivity.
Qed.

(** ** The distribution by category *)

Lemma Ok_inj {A : Type} (a b : A) : Ok a = Ok b -> a = b.
Proof. intro E. inversion E. reflexivity. Qed.


Section Distribution.

Context {F : Type} `{FloatArith F}.


End Distribution.





(** ** The ranking of the territories *)

Lemma firstn_succ_prefix {A : Type} (k : nat) (l : list A) :
  exists rest, firstn (S k) l = firstn k l ++ rest.
Proof.
  revert l. induction k as [| k IH]; intros [| a l].
  - exists []. reflexivity.
  - exists [a]. reflexivity.
  - exists []. reflexivity.
  - destruct (IH l) as [rest E]. exists rest.
    change (firstn (S (S k)) (a :: l)) with (a :: firstn (S k) l).
    rewrite E. reflexivity.
Qed.

Lemma head_nonnegative {A : Type} (n : Z) (l : list A) :
  0 <= n -> head n l = firstn (Z.to_nat n) l.
Proof.
  intro Hn. unfold head. destruct (0 <=? n) eqn:E; [reflexivity |].
  apply Z.leb_gt in E. lia.
Qed.

Lemma top_rows_of_groups (groups : list (key2 * Z)) :
  map (fun r => ((DataLoader.top_code_dept r, DataLoader.top_departement r),
                 DataLoader.top_total_faits r))
      (map (fun kv : key2 * Z => DataLoader.mkTop (fst (fst kv)) (snd (fst kv)) (snd kv))
           groups)
  = groups.
Proof.
  induction groups as [| [[c m] t] groups IH]; simpl; [reflexivity |].
  rewrite IH. reflexivity.
Qed.

Lemma groupby2_sum_inv (df : DataFrame) (top : list DataLoader.top_row) :
  DataLoader.groupby2_sum df = Ok top ->
  exists codes names counts,
    series "code_dept" df = Ok codes
    /\ series "departement" df = Ok names
    /\ rbind (series "faits" df) summands = Ok counts
    /\ List.length (combine codes names) = List.length counts
    /\ top = map (fun kv : key2 * Z =>
                    DataLoader.mkTop (fst (fst kv)) (snd (fst kv)) (snd kv))
                 (groupby_agg key2_eq_dec key2_leb Z.add 0
                    (filter (fun kv => key2_present (fst kv))
                            (combine (combine codes names) counts))).
Proof.
  unfold DataLoader.groupby2_sum. intro E.
  apply rbind_ok in E. destruct E as [codes [Ec E]].
  apply rbind_ok in E. destruct E as [names [En E]].
  apply rbind_ok in E. destruct E as [faits [Ef E]].
  apply rbind_ok in E. destruct E as [counts [Es E]].
  apply Ok_inj in E. exists codes, names, counts.
  repeat split.
  - exact Ec.
  - exact En.
  - rewrite Ef. exact Es.
  - apply series_ok_inv in Ec. apply series_ok_inv in En. apply series_ok_inv in Ef.
    apply summands_length in Es. rewrite length_combine. lia.
  - symmetry. exact E.
Qed.

(** C6 fails as stated: with [n = -1], [head] drops the last row instead of
    keeping none, so the result is longer than [n] and is no prefix of the
    result for [n + 1 = 0]; and a table without territory name makes the
    call raise. *)
Lemma top_departments_with_negative_n :
  snd (DataLoader.get_top_departments Scenario.three_territories (-1) None)
  = Ok [DataLoader.mkTop (CStr "13") (CStr "Bouches-du-Rhone") 70;
        DataLoader.mkTop (CStr "75") (CStr "Paris") 55]
  /\ snd (DataLoader.get_top_departments Scenario.three_territories 0 None) = Ok []
  /\ snd (DataLoader.get_top_departments Scenario.no_name 10 None)
     = Raise (KeyError "departement").
Proof.
  repeat split.
Qed.

(** C6, amended: for [n >= 0], when [get_top_departments] returns, its result
    is the first [n] rows of the ranking, which lists each pair (code, name)
    present in the filtered table once, with the sum of its counts, in
    descending order of total; the result has at most [n] rows, is the whole
    ranking when that has no more than [n] rows, and is a prefix of the result
    for [n + 1]. *)
Theorem top_departments_truncates_the_ranking :
  forall (df : DataFrame) (n : Z) (year : option Z) (top : list DataLoader.top_row),
    0 <= n ->
    snd (DataLoader.get_top_departments df n year) = Ok top ->
    exists filtered codes names counts ranking,
      rbind (DataLoader.filter_year year (copy df)) DataLoader.ensure_faits = Ok filtered
      /\ series "code_dept" filtered = Ok codes
      /\ series "departement" filtered = Ok names
      /\ rbind (series "faits" filtered) summands = Ok counts
      /\ grouped_totals key2_eq_dec key2_present (combine codes names) counts
           (map (fun r => ((DataLoader.top_code_dept r, DataLoader.top_departement r),
                           DataLoader.top_total_faits r))
                ranking)
      /\ StronglySorted
           (fun a b => DataLoader.top_total_faits b <= DataLoader.top_total_faits a)
           ranking
      /\ top = firstn (Z.to_nat n) ranking
      /\ Z.of_nat (List.length top) <= n
      /\ (Z.of_nat (List.length ranking) <= n -> top = ranking)
      /\ exists rest,
           snd (DataLoader.get_top_departments df (n + 1) year) = Ok (top ++ rest).
Proof.
  intros df n year top Hn E.
  unfold DataLoader.get_top_departments in *. cbn [snd] in *.
  apply rbind_ok in E. destruct E as [d1 [E1 E]].
  apply rbind_ok in E. destruct E as [d2 [E2 E]].
  apply rbind_ok in E. destruct E as [groups [Eg E]].
  apply Ok_inj in E.
  destruct (groupby2_sum_inv _ _ Eg) as [codes [names [counts [Ec [En [Es [Hl Hg]]]]]]].
  set (ranking := sort_desc DataLoader.top_total_faits groups) in *.
  rewrite head_nonnegative in E by exact Hn.
  exists d2, codes, names, counts, ranking.
  split; [| split; [| split; [| split; [| split; [| split; [| split; [| split; [| split]]]]]]]].
  - rewrite E1. cbn [rbind]. exact E2.
  - exact Ec.
  - exact En.
  - exact Es.
  - apply (groupby_grouped_totals key2_eq_dec key2_leb); [exact Hl |].
    apply perm_trans with
      (map (fun r => ((DataLoader.top_code_dept r, DataLoader.top_departement r),
                      DataLoader.top_total_faits r)) groups).
    + apply Permutation_map. apply sort_desc_perm.
    + rewrite Hg, top_rows_of_groups. apply Permutation_refl.
  - apply sort_desc_sorted.
  - symmetry. exact E.
  - rewrite <- E. rewrite length_firstn. lia.
  - intro Hlen. rewrite <- E. apply firstn_all2. lia.
  - rewrite E1. cbn [rbind]. rewrite E2. cbn [rbind]. rewrite Eg. cbn [rbind].
    fold ranking. rewrite head_nonnegative by lia.
    replace (Z.to_nat (n + 1)) with (S (Z.to_nat n)) by lia.
    destruct (firstn_succ_prefix (Z.to_nat n) ranking) as [rest Er].
    exists rest. rewrite Er, E. reflexivity.
Qed.

Lemma top_departments_witness :
  exists rest,
    snd (DataLoader.get_top_departments Scenario.three_territories (1 + 1) None)
    = Ok ([DataLoader.mkTop (CStr "13") (CStr "Bouches-du-Rhone") 70] ++ rest).
Proof.
  destruct (top_departments_truncates_the_ranking
              Scenario.three_territories 1 None
              [DataLoader.mkTop (CStr "13") (CStr "Bouches-du-Rhone") 70]
              ltac:(lia) eq_refl)
    as [filtered [codes [names [counts [ranking [_ [_ [_ [_ [_ [_ [_ [_ [_ H]]]]]]]]]]]]]].
  exact H.
Defined.

(** ** The evolution from one year to the next *)

(** *** The order of the years *)

Lemma ascii_compare_refl (a : ascii) : Ascii.compare a a = Eq.
Proof. unfold Ascii.compare. apply N.compare_refl. Qed.

Lemma ascii_compare_lt_trans (a b c : ascii) :
  Ascii.compare a b = Lt -> Ascii.compare b c = Lt -> Ascii.compare a c = Lt.
Proof.
  unfold Ascii.compare. rewrite !N.compare_lt_iff. apply N.lt_trans.
Qed.

Lemma string_leb_trans (s t u : string) :
  String.leb s t = true -> String.leb t u = true -> String.leb s u = true.
Proof.
  unfold String.leb. revert t u.
  induction s as [| a s IH]; intros t u Hst Htu.
  - destruct u; reflexivity.
  - destruct t as [| b t]; [discriminate Hst |].
    destruct u as [| c u]; [discriminate Htu |].
    cbn [String.compare] in *.
    destruct (Ascii.compare a b) eqn:Eab; try discriminate Hst;
      destruct (Ascii.compare b c) eqn:Ebc; try discriminate Htu.
    + apply Ascii.compare_eq_iff in Eab, Ebc. subst b c.
      rewrite ascii_compare_refl. apply (IH t u); assumption.
    + apply Ascii.compare_eq_iff in Eab. subst b. rewrite Ebc. reflexivity.
    + apply Ascii.compare_eq_iff in Ebc. subst c. rewrite Eab. reflexivity.
    + rewrite (ascii_compare_lt_trans a b c Eab Ebc). reflexivity.
Qed.

Lemma cell_leb_total (a b : cell) : cell_leb a b = true \/ cell_leb b a = true.
Proof.
  destruct a as [x | s |], b as [y | t |]; cbn [cell_leb]; auto.
  - destruct (Z.leb_spec x y); [left; reflexivity | right; apply Z.leb_le; lia].
  - apply String.leb_total.
Qed.

Lemma cell_leb_trans (a b c : cell) :
  cell_leb a b = true -> cell_leb b c = true -> cell_leb a c = true.
Proof.
  destruct a as [x | s |], b as [y | t |], c as [z | u |]; cbn [cell_leb];
    intros H1 H2; try reflexivity; try discriminate.
  - apply Z.leb_le. apply Z.leb_le in H1, H2. lia.
  - apply (string_leb_trans s t u); assumption.
Qed.

Section Ascending.

Context {A : Type}.
Variable le : A -> A -> bool.
Hypothesis le_total : forall a b, le a b = true \/ le b a = true.
Hypothesis le_trans : forall a b c, le a b = true -> le b c = true -> le a c = true.

Lemma insert_sorted_ascending (x : A) (l : list A) :
  StronglySorted (fun a b => le a b = true) l ->
  StronglySorted (fun a b => le a b = true) (insert_sorted le x l).
Proof.
  induction 1 as [| y l Hs IH Hy]; simpl.
  - constructor; constructor.
  - destruct (le x y) eqn:L.
    + constructor; [constructor; assumption |].
      constructor; [exact L |].
      rewrite Forall_forall in *. intros z Hz. apply (le_trans x y z L), Hy, Hz.
    + constructor; [exact IH |].
      rewrite Forall_forall in *. intros z Hz.
      apply (Permutation_in _ (insert_sorted_perm le x l)) in Hz.
      destruct Hz as [<- | Hz]; [| apply Hy, Hz].
      destruct (le_total x y) as [C | C]; [congruence | exact C].
Qed.

Lemma isort_ascending (l : list A) :
  StronglySorted (fun a b => le a b = true) (isort le l).
Proof.
  induction l as [| x l IH]; simpl; [constructor |].
  apply insert_sorted_ascending, IH.
Qed.

End Ascending.

Lemma cell_leb_antisym (a b : cell) :
  cell_leb a b = true -> cell_leb b a = true -> a = b.
Proof.
  destruct a as [x | s |], b as [y | t |]; cbn [cell_leb];
    intros H1 H2; try discriminate; try reflexivity.
  - apply Z.leb_le in H1, H2. f_equal. lia.
  - f_equal. apply String.leb_antisym; assumption.
Qed.

(** In a list in ascending order without repetition, two elements with no
    element between them are neighbours. *)
Lemma neighbours_in_ascending (l : list cell) (a b : cell) :
  StronglySorted (fun x y => cell_leb x y = true) l -> NoDup l ->
  In a l -> In b l -> a <> b -> cell_leb a b = true ->
  (forall c, In c l -> cell_leb a c = true -> cell_leb c b = true -> c = a \/ c = b) ->
  exists l1 l2, l = l1 ++ a :: b :: l2.
Proof.
  intros Hs Hnd Ha Hb Hab Hle Hbetween.
  induction l as [| x l IH]; [contradiction |].
  inversion Hs as [| ? ? Hs' Hx]. subst.
  inversion Hnd as [| ? ? Hnx Hnd']. subst.
  rewrite Forall_forall in Hx.
  destruct Ha as [-> | Ha].
  - exists []. destruct Hb as [-> | Hb]; [congruence |].
    destruct l as [| c l]; [contradiction |].
    exists l. cbn [app]. f_equal. f_equal.
    destruct Hb as [-> | Hb]; [reflexivity |].
    inversion Hs' as [| ? ? _ Hc]. subst. rewrite Forall_forall in Hc.
    destruct (Hbetween c) as [-> | ->]; try reflexivity.
    + right. left. reflexivity.
    + apply Hx. left. reflexivity.
    + apply Hc, Hb.
    + exfalso. apply Hnx. left. reflexivity.
  - destruct Hb as [-> | Hb].
    + exfalso. apply Hab. apply cell_leb_antisym; [exact Hle | apply Hx, Ha].
    + destruct IH as [l1 [l2 El]]; try assumption.
      * intros c Hc. apply Hbetween. right. exact Hc.
      * exists (x :: l1), l2. rewrite El. reflexivity.
Qed.

Lemma map_neighbours {A B : Type} (f : A -> B) (l : list A) (l1 l2 : list B) (a b : B) :
  map f l = l1 ++ a :: b :: l2 ->
  exists before r0 r1 after,
    l = before ++ r0 :: r1 :: after /\ f r0 = a /\ f r1 = b.
Proof.
  revert l. induction l1 as [| x l1 IH]; intros l E.
  - destruct l as [| r0 [| r1 after]]; try discriminate E.
    cbn [map app] in E. injection E as E0 E1 _.
    exists [], r0, r1, after. repeat split; assumption.
  - destruct l as [| r l]; [discriminate E |].
    cbn [map app] in E. injection E as _ E.
    destruct (IH l E) as [before [r0 [r1 [after [El [E0 E1]]]]]].
    exists (r :: before), r0, r1, after. rewrite El. repeat split; assumption.
Qed.

(** *** The rows of the result *)

Section Evolution.

Context {F : Type} `{FloatArith F}.

Lemma adjacent_rows (g : cell * Z) (x : F) (rest : list (cell * Z))
    (before : list (DataLoader.evolution_row F))
    (r0 r1 : DataLoader.evolution_row F) (after : list (DataLoader.evolution_row F)) :
  evolution_row_of (g, x) :: following_rows (snd g) rest = before ++ r0 :: r1 :: after ->
  DataLoader.ev_evolution_pct r1
  = pct_of (DataLoader.ev_total_faits r0) (DataLoader.ev_total_faits r1).
Proof.
  unfold following_rows. revert g x before.
  induction rest as [| g' rest IH]; intros g x before E.
  - destruct before as [| b [| b' before]]; discriminate E.
  - destruct before as [| b before].
    + injection E as E0 E1 _. subst r0 r1. reflexivity.
    + injection E as _ E. eapply (IH g'). exact E.
Qed.

Lemma evolution_of_adjacent (df : DataFrame) (out : list (DataLoader.evolution_row F))
    (before : list (DataLoader.evolution_row F))
    (r0 r1 : DataLoader.evolution_row F) (after : list (DataLoader.evolution_row F)) :
  DataLoader.evolution_of df = Ok out ->
  out = before ++ r0 :: r1 :: after ->
  DataLoader.ev_evolution_pct r1
  = fmul (fsub (fdiv (float_of_int (DataLoader.ev_total_faits r1))
                     (float_of_int (DataLoader.ev_total_faits r0)))
               (float_of_int 1))
         (float_of_int 100).
Proof.
  unfold DataLoader.evolution_of. intros E Eout.
  apply rbind_ok in E. destruct E as [groups [_ E]].
  apply Ok_inj in E. rewrite Eout in E. clear Eout.
  destruct groups as [| g rest].
  - destruct before; discriminate E.
  - apply (adjacent_rows g (fmul fnan (float_of_int 100)) rest before r0 r1 after).
    exact E.
Qed.

Lemma get_temporal_evolution_resolved (df : DataFrame) (dept_code : option string)
    (out : list (DataLoader.evolution_row F)) :
  snd (DataLoader.get_temporal_evolution df dept_code) = Ok out ->
  exists resolved,
    rbind (DataLoader.filter_dept dept_code df) DataLoader.ensure_faits = Ok resolved
    /\ DataLoader.evolution_of resolved = Ok out.
Proof.
  unfold DataLoader.get_temporal_evolution, DataLoader.filter_dept.
  destruct (truthy_str dept_code); cbn [snd].
  - intro E.
    apply rbind_ok in E. destruct E as [d1 [E1 E]].
    apply rbind_ok in E. destruct E as [d2 [E2 E]].
    exists d2. rewrite E1. cbn [rbind]. split; assumption.
  - cbn [rbind].
    destruct (DataLoader.ensure_faits df) as [d |]; cbn [snd]; intro E.
    + exists d. split; [reflexivity | exact E].
    + discriminate E.
Qed.

Lemma evolution_of_inv (df : DataFrame) (out : list (DataLoader.evolution_row F)) :
  DataLoader.evolution_of df = Ok out ->
  exists groups,
    DataLoader.groupby_sum "annee" df = Ok groups
    /\ map (fun r => (DataLoader.ev_annee r, DataLoader.ev_total_faits r)) out = groups
    /\ (forall r rest, out = r :: rest ->
          DataLoader.ev_evolution_pct r = fmul fnan (float_of_int 100)).
Proof.
  unfold DataLoader.evolution_of. intro E.
  apply rbind_ok in E. destruct E as [groups [Eg E]]. apply Ok_inj in E.
  exists groups. split; [exact Eg |].
  assert (Hl : List.length (pct_change (F := F) (map snd groups)) = List.length groups).
  { destruct groups as [| g groups]; [reflexivity |].
    cbn [map pct_change List.length]. rewrite length_map, length_combine.
    cbn [List.length]. rewrite !length_map. lia. }
  split.
  - subst out. rewrite map_map.
    cbn [DataLoader.ev_annee DataLoader.ev_total_faits].
    set (pct := map _ (pct_change _)).
    assert (Hp : List.length pct = List.length groups)
      by (unfold pct; rewrite length_map; exact Hl).
    clearbody pct. clear Hl Eg. revert pct Hp.
    induction groups as [| [k t] groups IH]; intros pct Hp; [reflexivity |].
    destruct pct as [| p pct]; [discriminate Hp |].
    cbn [combine map fst snd]. rewrite IH; [reflexivity |].
    simpl in Hp. lia.
  - intros r rest Eout. subst out.
    destruct groups as [| g groups]; [discriminate Eout |].
    cbn [map pct_change combine] in Eout.
    injection Eout as Er _. subst r. reflexivity.
Qed.


(** What the result says of the table: the table that is grouped is the
    argument, filtered and with its count column resolved; the rows are its
    years with their totals, in ascending order; and the row of a year has
    the percentage computed from the total of the year before it. *)
Lemma temporal_evolution_rows (df : DataFrame) (dept_code : option string)
    (out : list (DataLoader.evolution_row F)) :
  snd (DataLoader.get_temporal_evolution df dept_code) = Ok out ->
  exists resolved years counts,
    rbind (DataLoader.filter_dept dept_code df) DataLoader.ensure_faits = Ok resolved
    /\ series "annee" resolved = Ok years
    /\ rbind (series "faits" resolved) summands = Ok counts
    /\ grouped_totals cell_eq_dec cell_present years counts
         (map (fun r => (DataLoader.ev_annee r, DataLoader.ev_total_faits r)) out)
    /\ StronglySorted (fun a b => cell_leb a b = true) (map DataLoader.ev_annee out)
    /\ zsum (map DataLoader.ev_total_faits out)
       = zsum (map snd (filter (fun kc => cell_present (fst kc)) (combine years counts)))
    /\ (forall r rest, out = r :: rest ->
          DataLoader.ev_evolution_pct r = fmul fnan (float_of_int 100))
    /\ (forall y0 y1,
          consecutive_years years y0 y1 ->
          In (DataLoader.mkEvolution y1
                (total_where cell_eq_dec years counts y1)
                (pct_of (total_where cell_eq_dec years counts y0)
                        (total_where cell_eq_dec years counts y1)))
             out).
Proof.
  intro E.
  destruct (get_temporal_evolution_resolved _ _ _ E) as [resolved [Etie Er]].
  destruct (evolution_of_inv _ _ Er) as [groups [Eg [Hrows Hfirst]]].
  destruct (groupby_sum_inv _ _ _ Eg) as [years [counts [Ey [Ec [Hl Hg]]]]].
  assert (Hgt : grouped_totals cell_eq_dec cell_present years counts
                  (map (fun r => (DataLoader.ev_annee r, DataLoader.ev_total_faits r)) out)).
  { apply (groupby_grouped_totals cell_eq_dec cell_leb); [exact Hl |].
    rewrite Hrows, Hg. apply Permutation_refl. }
  assert (Hkeys : map DataLoader.ev_annee out = map fst groups)
    by (rewrite <- Hrows, map_map; reflexivity).
  assert (Hsorted : StronglySorted (fun a b => cell_leb a b = true)
                      (map DataLoader.ev_annee out)).
  { rewrite Hkeys, Hg, groupby_agg_keys. unfold group_keys.
    apply isort_ascending; [exact cell_leb_total | exact cell_leb_trans]. }
  exists resolved, years, counts.
  split; [exact Etie | split; [exact Ey | split; [exact Ec | split; [exact Hgt |
    split; [exact Hsorted | split; [| split; [exact Hfirst |]]]]]]].
  - replace (map DataLoader.ev_total_faits out) with (map snd groups)
      by (rewrite <- Hrows, map_map; reflexivity).
    rewrite Hg.
    apply (groupby_agg_sum cell_eq_dec cell_leb Z.add 0 (fun z => z)); reflexivity.
  - intros y0 y1 [H0 [H1 [P0 [P1 [Hne [Hle Hbetween]]]]]].
    destruct Hgt as [Hnd [Hin Htot]].
    assert (Hyears : map fst (map (fun r => (DataLoader.ev_annee r,
                                              DataLoader.ev_total_faits r)) out)
                     = map DataLoader.ev_annee out)
      by (rewrite map_map; reflexivity).
    rewrite Hyears in Hnd, Hin.
    destruct (neighbours_in_ascending (map DataLoader.ev_annee out) y0 y1)
      as [l1 [l2 Esplit]]; try assumption.
    { apply Hin. split; assumption. }
    { apply Hin. split; assumption. }
    { intros c Hc. apply Hin in Hc. apply Hbetween. apply Hc. }
    destruct (map_neighbours _ _ _ _ _ _ Esplit)
      as [before [r0 [r1 [after [Eout [E0 E1]]]]]].
    pose proof (evolution_of_adjacent _ _ _ _ _ _ Er Eout) as Hpct.
    assert (Ht : forall r, In r out ->
                   DataLoader.ev_total_faits r
                   = total_where cell_eq_dec years counts (DataLoader.ev_annee r)).
    { intros r Hr. apply Htot. apply in_map_iff. exists r. split; [reflexivity | exact Hr]. }
    assert (Hr0 : In r0 out) by (rewrite Eout; apply in_or_app; right; left; reflexivity).
    assert (Hr1 : In r1 out)
      by (rewrite Eout; apply in_or_app; right; right; left; reflexivity).
    pose proof (Ht r0 Hr0) as Ht0. pose proof (Ht r1 Hr1) as Ht1.
    rewrite E0 in Ht0. rewrite E1 in Ht1.
    replace (DataLoader.mkEvolution y1 (total_where cell_eq_dec years counts y1)
               (pct_of (total_where cell_eq_dec years counts y0)
                       (total_where cell_eq_dec years counts y1)))
      with r1; [exact Hr1 |].
    destruct r1 as [a1 t1 p1]. cbn [DataLoader.ev_annee DataLoader.ev_total_faits
                                    DataLoader.ev_evolution_pct] in *.
    subst a1. rewrite <- Ht0, <- Ht1. unfold pct_of. rewrite <- Hpct. reflexivity.
Qed.

End Evolution.

Lemma binary64_pct_after_zero (cur : Z) :
  - 2 ^ 53 < cur < 2 ^ 53 ->
  pct_of (F := float) 0 cur
  = if cur =? 0 then PrimFloat.nan
    else if cur <? 0 then PrimFloat.neg_infinity else PrimFloat.infinity.
Proof.
  intro Hb. destruct (cur =? 0) eqn:Ez.
  - apply Z.eqb_eq in Ez. subst cur. vm_compute. reflexivity.
  - apply Z.eqb_neq in Ez.
    unfold pct_of. cbn [fmul fsub fdiv float_of_int binary64_arith].
    rewrite (binary64_div_by_zero cur Ez Hb).
    destruct (cur <? 0); vm_compute; reflexivity.
Qed.

(** C2 fails as stated: in scenario 2 (total 0 in 2020, 50 in 2021) the
    percentage of 2021 is plus infinity, in binary64 as in exact arithmetic,
    and infinity is not NaN. *)
Lemma zero_prior_year_gives_infinity :
  snd (DataLoader.get_temporal_evolution (F := float) Scenario.zero_prior None)
  = Ok [DataLoader.mkEvolution (CInt 2020) 0 PrimFloat.nan;
        DataLoader.mkEvolution (CInt 2021) 50 PrimFloat.infinity]
  /\ snd (DataLoader.get_temporal_evolution (F := xfloat) Scenario.zero_prior None)
     = Ok [DataLoader.mkEvolution (CInt 2020) 0 XNaN;
           DataLoader.mkEvolution (CInt 2021) 50 (XInf false)]
  /\ PrimFloat.is_nan PrimFloat.infinity = false
  /\ PrimFloat.is_infinity PrimFloat.infinity = true.
Proof.
  repeat split.
Qed.

(** C2, amended.  [get_temporal_evolution] returns on every table (with
    numeric counts) that has the year column, and the department code column
    when a code is given.  When it returns, the table that is grouped is the
    argument, filtered by the department and with its count column resolved,
    and for every two consecutive years of that table the result has the row
    of the second year, with its total and with the percentage
    [(cur / prev - 1) * 100] computed from the two totals in the arithmetic
    of the code.  In binary64, for totals below 2^53 in magnitude: when the
    total of the first year is zero, that percentage is plus infinity when
    the total of the second year is positive, minus infinity when it is
    negative, and NaN (missing) only when it is zero too. *)
Theorem evolution_after_a_zero_total :
  (forall (F : Type) (FA : FloatArith F) (df : DataFrame) (dept_code : option string),
      well_formed df = true -> numeric_counts df = true ->
      in_columns "annee" df = true ->
      (truthy_str dept_code = true -> in_columns "code_dept" df = true) ->
      is_ok (snd (DataLoader.get_temporal_evolution (F := F) df dept_code)) = true)
  /\ (forall (F : Type) (FA : FloatArith F) (df : DataFrame) (dept_code : option string)
             (out : list (DataLoader.evolution_row F)),
         snd (DataLoader.get_temporal_evolution df dept_code) = Ok out ->
         exists resolved years counts,
           rbind (DataLoader.filter_dept dept_code df) DataLoader.ensure_faits = Ok resolved
           /\ series "annee" resolved = Ok years
           /\ rbind (series "faits" resolved) summands = Ok counts
           /\ (forall y0 y1,
                 consecutive_years years y0 y1 ->
                 In (DataLoader.mkEvolution y1
                       (total_where cell_eq_dec years counts y1)
                       (pct_of (total_where cell_eq_dec years counts y0)
                               (total_where cell_eq_dec years counts y1)))
                    out))
  /\ (forall (df : DataFrame) (dept_code : option string)
             (out : list (DataLoader.evolution_row float)),
         snd (DataLoader.get_temporal_evolution df dept_code) = Ok out ->
         exists resolved years counts,
           rbind (DataLoader.filter_dept dept_code df) DataLoader.ensure_faits = Ok resolved
           /\ series "annee" resolved = Ok years
           /\ rbind (series "faits" resolved) summands = Ok counts
           /\ (forall y0 y1,
                 consecutive_years years y0 y1 ->
                 total_where cell_eq_dec years counts y0 = 0 ->
                 - 2 ^ 53 < total_where cell_eq_dec years counts y1 < 2 ^ 53 ->
                 In (DataLoader.mkEvolution y1
                       (total_where cell_eq_dec years counts y1)
                       (if total_where cell_eq_dec years counts y1 =? 0
                        then PrimFloat.nan
                        else if total_where cell_eq_dec years counts y1 <? 0
                             then PrimFloat.neg_infinity
                             else PrimFloat.infinity))
                    out)).
Proof.
  split; [| split].
  - intros F FA df dept_code Hwf Hnum Hy Hc.
    destruct (get_temporal_evolution_ok (F := F) df dept_code Hwf Hnum Hy Hc) as [out E].
    rewrite E. reflexivity.
  - intros F FA df dept_code out E.
    destruct (temporal_evolution_rows _ _ _ E)
      as [resolved [years [counts [Etie [Ey [Ec [_ [_ [_ [_ Hrow]]]]]]]]]].
    exists resolved, years, counts. repeat split; assumption.
  - intros df dept_code out E.
    destruct (temporal_evolution_rows _ _ _ E)
      as [resolved [years [counts [Etie [Ey [Ec [_ [_ [_ [_ Hrow]]]]]]]]]].
    exists resolved, years, counts.
    split; [exact Etie | split; [exact Ey | split; [exact Ec |]]].
    intros y0 y1 Hcons H0 Hb.
    rewrite <- (binary64_pct_after_zero _ Hb), <- H0.
    apply Hrow. exact Hcons.
Qed.

Lemma evolution_after_a_zero_total_witness :
  In (DataLoader.mkEvolution (CInt 2021) 50 PrimFloat.infinity)
     [DataLoader.mkEvolution (CInt 2020) 0 PrimFloat.nan;
      DataLoader.mkEvolution (CInt 2021) 50 PrimFloat.infinity].
Proof.
  destruct evolution_after_a_zero_total as [_ [_ Hfloat]].
  destruct (Hfloat Scenario.zero_prior None
              [DataLoader.mkEvolution (CInt 2020) 0 PrimFloat.nan;
               DataLoader.mkEvolution (CInt 2021) 50 PrimFloat.infinity])
    as [resolved [years [counts [Etie [Ey [Ec Hrow]]]]]].
  { vm_compute. reflexivity. }
  apply Ok_inj in Etie. subst resolved.
  apply Ok_inj in Ey. subst years.
  apply Ok_inj in Ec. subst counts.
  apply (Hrow (CInt 2020) (CInt 2021)).
  - unfold consecutive_years. cbn [In].
    repeat split; try reflexivity; try (left; reflexivity);
      try (right; left; reflexivity); try discriminate.
    intros y [<- | [<- | []]] _ _; [left | right]; reflexivity.
  - reflexivity.
  - vm_compute. split; reflexivity.
Defined.

(** ** The normalizer *)

Lemma lookup_restricted (P : string -> bool) (mapping : list (string * string)) (c : string) :
  P c = true ->
  lookup c (filter (fun kv => P (fst kv)) mapping) = lookup c mapping.
Proof.
  intro Hc. induction mapping as [| [k v] mapping IH]; simpl; [reflexivity |].
  destruct (P k) eqn:Pk; simpl.
  - rewrite IH. reflexivity.
  - destruct (String.eqb_spec c k) as [-> | _]; [congruence | exact IH].
Qed.

Lemma column_mapping_values (c v : string) :
  lookup c DataLoader.column_mapping = Some v ->
  rename_label DataLoader.column_mapping v = v.
Proof.
  unfold DataLoader.column_mapping. simpl.
  repeat (match goal with
          | |- context [String.eqb c ?k] =>
              destruct (String.eqb c k); [intro E; inversion E; reflexivity |]
          end).
  discriminate.
Qed.

Lemma rename_label_idempotent (c : string) :
  rename_label DataLoader.column_mapping (rename_label DataLoader.column_mapping c)
  = rename_label DataLoader.column_mapping c.
Proof.
  unfold rename_label at 2 3.
  destruct (lookup c DataLoader.column_mapping) as [v |] eqn:E.
  - apply column_mapping_values with c. exact E.
  - unfold rename_label. rewrite E. reflexivity.
Qed.

Lemma in_columns_self (c : string) (cols : list string) :
  In c cols -> existsb (String.eqb c) cols = true.
Proof.
  intro H. apply existsb_exists. exists c. split; [exact H | apply String.eqb_refl].
Qed.

Lemma rename_present_columns (df : DataFrame) :
  columns (rename_columns
             (filter (fun kv => in_columns (fst kv) df) DataLoader.column_mapping) df)
  = map (rename_label DataLoader.column_mapping) (columns df).
Proof.
  unfold rename_columns. cbn [columns]. apply map_ext_in. intros c Hc.
  unfold rename_label.
  pose proof (lookup_restricted (fun k => in_columns k df)
                DataLoader.column_mapping c (in_columns_self c _ Hc)) as Hl.
  cbv beta in Hl. rewrite Hl. reflexivity.
Qed.

Lemma existsb_restricted (P : string -> bool) (labels : list string) (c : string) :
  P c = true ->
  existsb (String.eqb c) (filter P labels) = existsb (String.eqb c) labels.
Proof.
  intro Hc. induction labels as [| l labels IH]; simpl; [reflexivity |].
  destruct (P l) eqn:Pl; simpl.
  - rewrite IH. reflexivity.
  - destruct (String.eqb_spec c l) as [-> | _]; [congruence | exact IH].
Qed.

Lemma positions_restricted (P : string -> bool) (labels cols : list string) (start : nat) :
  (forall c, In c cols -> P c = true) ->
  positions_from start (filter P labels) cols = positions_from start labels cols.
Proof.
  revert start. induction cols as [| c cols IH]; intros start Hp; simpl; [reflexivity |].
  rewrite existsb_restricted by (apply Hp; left; reflexivity).
  rewrite IH by (intros; apply Hp; right; assumption).
  reflexivity.
Qed.

Lemma positions_none (labels cols : list string) (start : nat) :
  filter (fun l => existsb (String.eqb l) cols) labels = [] ->
  positions_from start labels cols = [].
Proof.
  intro Hnone. revert start. induction cols as [| c cols IH]; intro start; [reflexivity |].
  simpl.
  assert (Hc : existsb (String.eqb c) labels = false).
  { destruct (existsb (String.eqb c) labels) eqn:E; [| reflexivity].
    apply existsb_exists in E. destruct E as [l [Hl El]].
    apply String.eqb_eq in El. subst l.
    assert (Hin : In c (filter (fun l => existsb (String.eqb l) (c :: cols)) labels)).
    { apply filter_In. split; [exact Hl |]. simpl. rewrite String.eqb_refl. reflexivity. }
    rewrite Hnone in Hin. contradiction. }
  rewrite Hc. apply IH.
  destruct (filter (fun l => existsb (String.eqb l) cols) labels) as [| l ls] eqn:E;
    [reflexivity |].
  exfalso.
  assert (Hin : In l (filter (fun l => existsb (String.eqb l) cols) labels))
    by (rewrite E; left; reflexivity).
  apply filter_In in Hin. destruct Hin as [Hl Hex].
  assert (Hin' : In l (filter (fun l => existsb (String.eqb l) (c :: cols)) labels)).
  { apply filter_In. split; [exact Hl |]. simpl. rewrite Hex. apply orb_true_r. }
  rewrite Hnone in Hin'. contradiction.
Qed.

Lemma count_occ_absent (c : string) (df : DataFrame) :
  in_columns c df = false -> count_occ string_dec (columns df) c = O.
Proof.
  unfold in_columns. intro H. apply count_occ_not_In. intro Hin.
  apply in_columns_self in Hin. congruence.
Qed.

Section Normalizer.

Variable parse_number : string -> option Z.

Lemma to_numeric_not_str (c : cell) : is_str (DataLoader.to_numeric parse_number c) = false.
Proof.
  destruct c as [z | s |]; simpl; try reflexivity.
  destruct (parse_number s); reflexivity.
Qed.

Lemma to_numeric_fixed (c : cell) :
  is_str c = false -> DataLoader.to_numeric parse_number c = c.
Proof.
  destruct c; simpl; [reflexivity | discriminate | reflexivity].
Qed.

Lemma update_at_fixed (i : nat) (r : row) :
  is_str (cell_at i r) = false ->
  update_at i (DataLoader.to_numeric parse_number) r = r.
Proof.
  revert i. induction r as [| c r IH]; intros [| i] H; simpl in *; try reflexivity.
  - rewrite to_numeric_fixed by exact H. reflexivity.
  - rewrite IH by exact H. reflexivity.
Qed.

Lemma update_at_cell (i : nat) (r : row) :
  is_str (cell_at i (update_at i (DataLoader.to_numeric parse_number) r)) = false.
Proof.
  revert i. induction r as [| c r IH]; intros [| i]; simpl; try reflexivity.
  - apply to_numeric_not_str.
  - apply IH.
Qed.

(** A table that the normalizer leaves alone. *)
Lemma canonical_is_fixed (df : DataFrame) :
  canonical df = true -> DataLoader._clean_crime_data parse_number df = Ok df.
Proof.
  unfold canonical. intro H.
  apply andb_prop in H. destruct H as [H Hrows].
  apply andb_prop in H. destruct H as [H Hnum].
  apply andb_prop in H. destruct H as [Hlabels Hcount].
  rewrite forallb_forall in Hlabels.
  unfold DataLoader._clean_crime_data.
  assert (Hren : rename_columns
                   (filter (fun kv => in_columns (fst kv) df) DataLoader.column_mapping) df
                 = df).
  { destruct df as [cols rs].
    pose proof (rename_present_columns (mkDF cols rs)) as Hc.
    unfold rename_columns in *. simpl in *. f_equal.
    rewrite Hc. rewrite <- (map_id cols) at 2. apply map_ext_in.
    intros c Hin. apply String.eqb_eq, Hlabels, Hin. }
  rewrite Hren.
  assert (Hnumeric : (if in_columns "annee" df
                      then DataLoader.annee_to_numeric parse_number df else Ok df) = Ok df).
  { destruct (in_columns "annee" df) eqn:Hy; [| reflexivity].
    unfold DataLoader.annee_to_numeric.
    apply Nat.leb_le in Hcount.
    destruct (1 <? count_occ string_dec (columns df) "annee")%nat eqn:Hc;
      [apply Nat.ltb_lt in Hc; lia |].
    destruct (index_of "annee" (columns df)) as [i |] eqn:Ei.
    - destruct df as [cols rs]. simpl in *. f_equal. f_equal.
      rewrite <- (map_id rs) at 2. apply map_ext_in. intros r Hr.
      apply update_at_fixed.
      rewrite forallb_forall in Hnum. specialize (Hnum r Hr).
      apply negb_true_iff in Hnum. exact Hnum.
    - apply index_of_absent in Ei. congruence. }
  rewrite Hnumeric. cbn [rbind]. f_equal.
  destruct (filter (fun col => in_columns col df) ["code_dept"; "annee"; "classe"])
    as [| c0 crit] eqn:Ecrit; [reflexivity |].
  rewrite <- Ecrit. unfold dropna, select.
  pose proof (positions_restricted (fun col => in_columns col df)
                ["code_dept"; "annee"; "classe"] (columns df) 0
                (fun c Hc => in_columns_self c _ Hc)) as Hpos.
  cbv beta in Hpos. rewrite Hpos.
  rewrite filter_all by exact Hrows. destruct df; reflexivity.
Qed.

(** What the normalizer returns is canonical. *)
Lemma cleaned_is_canonical (df df' : DataFrame) :
  DataLoader._clean_crime_data parse_number df = Ok df' -> canonical df' = true.
Proof.
  unfold DataLoader._clean_crime_data.
  pose proof (rename_present_columns df) as Hcols1.
  remember (rename_columns
              (filter (fun kv => in_columns (fst kv) df) DataLoader.column_mapping) df)
    as df1 eqn:Edf1.
  clear Edf1. intro E. apply rbind_ok in E. destruct E as [df2 [E2 E]]. apply Ok_inj in E.
  assert (H2 : columns df2 = columns df1
               /\ (count_occ string_dec (columns df2) "annee" <= 1)%nat
               /\ forall i, index_of "annee" (columns df2) = Some i ->
                            forall r, In r (rows df2) -> is_str (cell_at i r) = false).
  { destruct (in_columns "annee" df1) eqn:Hy.
    - unfold DataLoader.annee_to_numeric in E2.
      destruct (1 <? count_occ string_dec (columns df1) "annee")%nat eqn:Hc;
        [discriminate E2 |].
      apply Nat.ltb_ge in Hc.
      destruct (index_of "annee" (columns df1)) as [i |] eqn:Ei; [| discriminate E2].
      apply Ok_inj in E2. subst df2. cbn [columns rows]. repeat split.
      + exact Hc.
      + intros j Ej r Hr. rewrite Ei in Ej. inversion Ej. subst j.
        apply in_map_iff in Hr. destruct Hr as [r0 [<- _]]. apply update_at_cell.
    - apply Ok_inj in E2. subst df2. repeat split.
      + rewrite count_occ_absent by exact Hy. lia.
      + intros i Ei. apply index_of_absent in Hy. congruence. }
  destruct H2 as [Hcols2 [Hcount Hnum]].
  set (crit := filter (fun col => in_columns col df2) ["code_dept"; "annee"; "classe"]) in *.
  assert (Hcols : columns df' = columns df2).
  { subst df'. destruct crit; reflexivity. }
  assert (Hsub : forall r, In r (rows df') -> In r (rows df2)).
  { subst df'. destruct crit; [auto |].
    unfold dropna, select. simpl. intros r Hr. apply filter_In in Hr. tauto. }
  unfold canonical. rewrite Hcols.
  apply andb_true_intro. split; [apply andb_true_intro; split;
                                 [apply andb_true_intro; split |] |].
  - rewrite forallb_forall. intros c Hc. apply String.eqb_eq.
    rewrite Hcols2, Hcols1 in Hc. apply in_map_iff in Hc. destruct Hc as [c0 [<- _]].
    apply rename_label_idempotent.
  - apply Nat.leb_le. exact Hcount.
  - destruct (index_of "annee" (columns df2)) as [i |] eqn:Ei; [| reflexivity].
    rewrite forallb_forall. intros r Hr. rewrite (Hnum i eq_refl r); [reflexivity |].
    apply Hsub, Hr.
  - rewrite forallb_forall. intros r Hr.
    destruct crit as [| c0 crit'] eqn:Ecrit.
    + unfold crit in Ecrit. unfold in_columns in Ecrit.
      rewrite (positions_none _ _ _ Ecrit). reflexivity.
    + subst df'. unfold dropna, select in Hr. simpl in Hr.
      apply filter_In in Hr. destruct Hr as [_ Hr].
      rewrite <- Ecrit in Hr. unfold crit in Hr.
      pose proof (positions_restricted (fun col => in_columns col df2)
                    ["code_dept"; "annee"; "classe"] (columns df2) 0
                    (fun c Hc => in_columns_self c _ Hc)) as Hpos.
      cbv beta in Hpos. rewrite Hpos in Hr. exact Hr.
Qed.

End Normalizer.

(** C8: normalizing what the normalizer returned gives it back (and a first
    failure stays that failure), and a table in canonical form (no source
    alias among its labels, one numeric year column at most, no row with a
    missing critical field) is returned as it is, labels and rows. *)
Theorem normalization_is_idempotent :
  forall (parse_number : string -> option Z) (df : DataFrame),
    rbind (DataLoader._clean_crime_data parse_number df)
          (DataLoader._clean_crime_data parse_number)
    = DataLoader._clean_crime_data parse_number df
    /\ (canonical df = true -> DataLoader._clean_crime_data parse_number df = Ok df).
Proof.
  intros parse_number df. split.
  - apply rbind_raise_id. intros df' E.
    apply canonical_is_fixed. apply (cleaned_is_canonical parse_number df). exact E.
  - apply canonical_is_fixed.
Qed.

Lemma normalization_is_idempotent_witness :
  DataLoader._clean_crime_data Scenario.parse_decimal Scenario.paris = Ok Scenario.paris
  /\ rbind (DataLoader._clean_crime_data Scenario.parse_decimal Scenario.raw)
           (DataLoader._clean_crime_data Scenario.parse_decimal)
     = Ok (mkDF ["code_dept"; "departement"; "annee"; "classe"]
                [[CStr "75"; CStr "Paris"; CInt 2020; CStr "Vols"]]).
Proof.
  split.
  - apply (proj2 (normalization_is_idempotent Scenario.parse_decimal Scenario.paris)).
    reflexivity.
  - rewrite (proj1 (normalization_is_idempotent Scenario.parse_decimal Scenario.raw)).
    reflexivity.
Defined.

(** * Further properties *)

(** ** Strings *)

Lemma lower_app (a b : string) :
  PyStr.lower (a ++ b)%string = (PyStr.lower a ++ PyStr.lower b)%string.
Proof.
  induction a as [| c a IH]; simpl; [reflexivity | rewrite IH; reflexivity].
Qed.

Lemma prefix_app_left (sub s t : string) :
  prefix sub s = true -> prefix sub (s ++ t)%string = true.
Proof.
  revert sub. induction s as [| c s IH]; intros sub H.
  - destruct sub; [destruct t; reflexivity | discriminate H].
  - destruct sub as [| d sub]; [reflexivity |].
    simpl in *. destruct (ascii_dec d c); [apply IH; exact H | discriminate H].
Qed.

Lemma contains_app_left (sub s t : string) :
  PyStr.contains sub s = true -> PyStr.contains sub (s ++ t)%string = true.
Proof.
  induction s as [| c s IH]; intro H.
  - cbn [PyStr.contains] in H. rewrite orb_false_r in H.
    destruct sub; [| discriminate H].
    destruct t; reflexivity.
  - cbn [PyStr.contains] in H. cbn [String.append PyStr.contains].
    apply orb_prop in H. destruct H as [H | H].
    + pose proof (prefix_app_left sub (String c s) t H) as P.
      cbn [String.append] in P. rewrite P. reflexivity.
    + rewrite (IH H). apply orb_true_r.
Qed.

Lemma contains_app_right (sub s t : string) :
  PyStr.contains sub t = true -> PyStr.contains sub (s ++ t)%string = true.
Proof.
  intro H. induction s as [| c s IH]; [exact H |].
  cbn [String.append PyStr.contains]. rewrite IH. apply orb_true_r.
Qed.

Lemma contains_inside (sub a w b : string) :
  PyStr.contains sub (PyStr.lower w) = true ->
  PyStr.contains sub (PyStr.lower (a ++ w ++ b)%string) = true.
Proof.
  intro H. rewrite !lower_app.
  apply contains_app_right, contains_app_left, H.
Qed.

(** ** The answers without language model *)

Lemma first_response_split (prompt_lower : string)
    (earlier : list (string * string)) (key response : string)
    (later : list (string * string)) :
  forallb (fun kr => negb (PyStr.contains (fst kr) prompt_lower)) earlier = true ->
  PyStr.contains key prompt_lower = true ->
  CrimeAnalysisBot.first_response prompt_lower (earlier ++ (key, response) :: later)
  = Some response.
Proof.
  intros He Hk. induction earlier as [| [k r] earlier IH]; simpl in *.
  - rewrite Hk. reflexivity.
  - apply andb_prop in He. destruct He as [Hk0 He].
    apply negb_true_iff in Hk0. rewrite Hk0. apply IH, He.
Qed.

(** X1: a prompt that mentions a keyword of the table, in any capitalisation
    and anywhere in its text, gets the answer of that keyword, provided no
    keyword that stands earlier in the table occurs in it. *)
Theorem fallback_answers_the_first_keyword :
  forall (earlier : list (string * string)) (key response : string)
         (later : list (string * string)) (a w b : string),
    CrimeAnalysisBot.responses = earlier ++ (key, response) :: later ->
    PyStr.lower w = key ->
    forallb (fun kr => negb (PyStr.contains (fst kr) (PyStr.lower (a ++ w ++ b)%string)))
            earlier = true ->
    CrimeAnalysisBot._generate_fallback_response (a ++ w ++ b)%string = response.
Proof.
  intros earlier key response later a w b Etable Ew Hearlier.
  unfold CrimeAnalysisBot._generate_fallback_response.
  rewrite Etable.
  rewrite (first_response_split _ earlier key response later Hearlier); [reflexivity |].
  apply contains_inside. rewrite Ew.
  assert (Hin : In (key, response) CrimeAnalysisBot.responses)
    by (rewrite Etable; apply in_elt).
  unfold CrimeAnalysisBot.responses in Hin. simpl in Hin.
  destruct Hin as [E | [E | [E | [E | []]]]]; inversion E; reflexivity.
Qed.

Lemma fallback_answers_the_first_keyword_witness :
  CrimeAnalysisBot._generate_fallback_response
    ("Pourquoi une " ++ "DIMINUTION" ++ " des vols ?")%string
  = "Une baisse peut résulter d'actions préventives, de changements démographiques ou de modifications dans les méthodes d'enregistrement.".
Proof.
  apply (fallback_answers_the_first_keyword
           (firstn 3 CrimeAnalysisBot.responses) "diminution" _ []
           "Pourquoi une " "DIMINUTION" " des vols ?");
    reflexivity.
Defined.

Ltac distinct_strings H :=
  apply String.eqb_eq in H; vm_compute in H; discriminate H.

(** X2: an answer of the table is given only to a prompt in which its keyword
    occurs, and the general answer only to a prompt in which none does. *)
Theorem fallback_answer_matches_the_prompt :
  forall prompt : string,
    (forall key response,
        In (key, response) CrimeAnalysisBot.responses ->
        CrimeAnalysisBot._generate_fallback_response prompt = response ->
        PyStr.contains key (PyStr.lower prompt) = true)
    /\ (CrimeAnalysisBot._generate_fallback_response prompt
        = CrimeAnalysisBot.no_keyword_response
        <-> forallb (fun kr => negb (PyStr.contains (fst kr) (PyStr.lower prompt)))
                    CrimeAnalysisBot.responses = true).
Proof.
  intro prompt.
  unfold CrimeAnalysisBot._generate_fallback_response, CrimeAnalysisBot.responses.
  cbn [CrimeAnalysisBot.first_response forallb fst].
  set (l := PyStr.lower prompt).
  destruct (PyStr.contains "tendance" l) eqn:E1;
    destruct (PyStr.contains "comparaison" l) eqn:E2;
    destruct (PyStr.contains "augmentation" l) eqn:E3;
    destruct (PyStr.contains "diminution" l) eqn:E4;
    (split;
     [ intros key response Hin Hr; cbn [In] in Hin;
       destruct Hin as [E | [E | [E | [E | []]]]]; injection E as <- <-;
       first [ assumption | distinct_strings Hr ]
     | split; intro Hr;
       first [ reflexivity | discriminate Hr | distinct_strings Hr ] ]).
Qed.

(** ** The models offered *)

(** X3: [get_available_models] never returns the empty list and never
    repeats a name; without usable key it offers the configured default model
    alone, and with one, only the names written in the code, whatever the
    configured default is.  An absent key, an empty one and the placeholder
    are not usable. *)
Theorem available_models_are_never_empty :
  forall (environ : string -> option string) (self : CrimeAnalysisBot.bot),
    let models := CrimeAnalysisBot.get_available_models environ self in
    let openai :=
      CrimeAnalysisBot.usable_key (environ "OPENAI_API_KEY") "your_api_key_here" in
    let anthropic :=
      CrimeAnalysisBot.usable_key (environ "ANTHROPIC_API_KEY") "your_anthropic_key_here" in
    models <> []
    /\ NoDup models
    /\ (openai = false -> anthropic = false ->
        models = [CrimeAnalysisBot.default_model self])
    /\ (openai || anthropic = true ->
        forall m, In m models ->
                  In m ["gpt-5-nano"; "gpt-4o"; "gpt-4-turbo"; "gpt-3.5-turbo";
                        "claude-3-opus-20240229"; "claude-3-sonnet-20240229";
                        "claude-3-haiku-20240307"])
    /\ CrimeAnalysisBot.usable_key None "your_api_key_here" = false
    /\ CrimeAnalysisBot.usable_key (Some "") "your_api_key_here" = false
    /\ CrimeAnalysisBot.usable_key (Some "your_api_key_here") "your_api_key_here" = false.
Proof.
  intros environ self. cbv zeta.
  unfold CrimeAnalysisBot.get_available_models.
  destruct (CrimeAnalysisBot.usable_key (environ "OPENAI_API_KEY") _);
    destruct (CrimeAnalysisBot.usable_key (environ "ANTHROPIC_API_KEY") _);
    cbn [app orb].
  all: repeat split; try discriminate; try reflexivity; try (intros; assumption).
  all: try (intros _ m Hm; cbn [In] in *; tauto).
  all: try (repeat constructor; cbn [In]; intros Hin;
            repeat (destruct Hin as [Hin | Hin]; [discriminate Hin |]); exact Hin).
  all: intros _ m Hm; cbn [In] in *; discriminate.
Qed.

(** ** Completions, retries and the history *)

Section GenerateResponse.

Variable LITELLM_AVAILABLE : bool.
Variable completion : string -> list CrimeAnalysisBot.message -> result string.

Lemma or_else_fallback (self : CrimeAnalysisBot.bot) :
  CrimeAnalysisBot.fallback_model self <> ""
  \/ CrimeAnalysisBot.default_model self = "" ->
  CrimeAnalysisBot.or_else (Some (CrimeAnalysisBot.fallback_model self))
                           (CrimeAnalysisBot.default_model self)
  = CrimeAnalysisBot.fallback_model self.
Proof.
  intros [Hf | Hd]; unfold CrimeAnalysisBot.or_else.
  - destruct (CrimeAnalysisBot.fallback_model self); [contradiction | reflexivity].
  - destruct (CrimeAnalysisBot.fallback_model self); [exact Hd | reflexivity].
Qed.

Lemma generate_response_step (fuel : nat) (self : CrimeAnalysisBot.bot)
    (prompt : string) (model context : option string) :
  CrimeAnalysisBot.generate_response LITELLM_AVAILABLE completion (S fuel) self prompt
    model context
  = if negb LITELLM_AVAILABLE
    then Some (self, CrimeAnalysisBot._generate_fallback_response prompt)
    else
      match completion (CrimeAnalysisBot.or_else model (CrimeAnalysisBot.default_model self))
                       (request prompt context) with
      | Ok answer =>
          Some (CrimeAnalysisBot.mkBot
                  (CrimeAnalysisBot.default_model self)
                  (CrimeAnalysisBot.fallback_model self)
                  (CrimeAnalysisBot.conversation_history self
                   ++ [("user", prompt)] ++ [("assistant", answer)]),
                answer)
      | Raise _ =>
          if negb (String.eqb
                     (CrimeAnalysisBot.or_else model (CrimeAnalysisBot.default_model self))
                     (CrimeAnalysisBot.fallback_model self))
          then
            match CrimeAnalysisBot.generate_response LITELLM_AVAILABLE completion fuel
                    self prompt (Some (CrimeAnalysisBot.fallback_model self)) context with
            | Some answered => Some answered
            | None => Some (self, CrimeAnalysisBot._generate_fallback_response prompt)
            end
          else Some (self, CrimeAnalysisBot._generate_fallback_response prompt)
      end.
Proof. reflexivity. Qed.

Lemma generate_response_outcome (fuel : nat) (self : CrimeAnalysisBot.bot)
    (prompt : string) (model context : option string)
    (self' : CrimeAnalysisBot.bot) (answer : string) :
  CrimeAnalysisBot.generate_response LITELLM_AVAILABLE completion fuel self prompt
    model context = Some (self', answer) ->
  response_outcome LITELLM_AVAILABLE completion self prompt model context self' answer.
Proof.
  revert model. induction fuel as [| fuel IH]; intros model E; [discriminate E |].
  rewrite generate_response_step in E.
  destruct LITELLM_AVAILABLE eqn:Ha; cbn [negb] in E.
  - destruct (completion _ (request prompt context)) as [a |] eqn:Ec.
    + injection E as <- <-. unfold response_outcome.
      cbn [CrimeAnalysisBot.default_model CrimeAnalysisBot.fallback_model
           CrimeAnalysisBot.conversation_history].
      split; [reflexivity | split; [reflexivity |]].
      right. split; [reflexivity | split; [reflexivity |]].
      eexists. split; [exact Ec | left; reflexivity].
    + destruct (negb _).
      * destruct (CrimeAnalysisBot.generate_response _ _ fuel self prompt _ context)
          as [answered |] eqn:Er.
        -- injection E as ->. apply IH in Er. unfold response_outcome in *.
           destruct Er as [Hd [Hf [[Hh Hans] | [_ [Hh [m [Hc Hm]]]]]]].
           ++ split; [exact Hd | split; [exact Hf |]]. left. split; assumption.
           ++ split; [exact Hd | split; [exact Hf |]]. right.
              split; [reflexivity | split; [exact Hh |]].
              exists m. split; [exact Hc |].
              right. destruct Hm as [Hm | Hm]; exact Hm.
        -- injection E as <- <-. unfold response_outcome.
           split; [reflexivity | split; [reflexivity |]]. left. split; reflexivity.
      * injection E as <- <-. unfold response_outcome.
        split; [reflexivity | split; [reflexivity |]]. left. split; reflexivity.
  - injection E as <- <-. unfold response_outcome.
    split; [reflexivity | split; [reflexivity |]]. left. split; reflexivity.
Qed.

Lemma generate_response_always_returns (fuel : nat) (self : CrimeAnalysisBot.bot)
    (prompt : string) (model context : option string) :
  exists answered,
    CrimeAnalysisBot.generate_response LITELLM_AVAILABLE completion (S fuel) self
      prompt model context = Some answered.
Proof.
  rewrite generate_response_step.
  destruct LITELLM_AVAILABLE; cbn [negb]; [| eauto].
  destruct (completion _ _); [eauto |].
  destruct (negb _); [| eauto].
  destruct (CrimeAnalysisBot.generate_response _ _ fuel self prompt _ context); eauto.
Qed.

Lemma generate_response_two_calls (fuel : nat) (self : CrimeAnalysisBot.bot)
    (prompt : string) (model context : option string) :
  CrimeAnalysisBot.fallback_model self <> ""
  \/ CrimeAnalysisBot.default_model self = "" ->
  CrimeAnalysisBot.generate_response LITELLM_AVAILABLE completion (S (S fuel)) self
    prompt model context
  = CrimeAnalysisBot.generate_response LITELLM_AVAILABLE completion 2 self
      prompt model context.
Proof.
  intro Hconfig.
  cbn [CrimeAnalysisBot.generate_response].
  destruct LITELLM_AVAILABLE; cbn [negb]; [| reflexivity].
  destruct (completion _ _); [reflexivity |].
  destruct (negb _); [| reflexivity].
  rewrite (or_else_fallback self Hconfig).
  destruct (completion _ _); [reflexivity |].
  rewrite String.eqb_refl. cbn [negb]. reflexivity.
Qed.

Lemma question_answer_pairs_app (n : nat) (history tail : list CrimeAnalysisBot.message) :
  (List.length history <= n)%nat ->
  question_answer_pairs history = true ->
  question_answer_pairs (history ++ tail) = question_answer_pairs tail.
Proof.
  revert history. induction n as [| n IH]; intros history Hl Hp.
  - destruct history; [reflexivity | simpl in Hl; lia].
  - destruct history as [| [r1 c1] [| [r2 c2] rest]]; [reflexivity | discriminate Hp |].
    cbn [question_answer_pairs] in Hp.
    apply andb_prop in Hp. destruct Hp as [Hr Hp].
    cbn [app question_answer_pairs]. rewrite Hr. cbn [andb].
    apply IH; [simpl in Hl; lia | exact Hp].
Qed.

End GenerateResponse.

(** X4: with a fallback model that has a name (or a default model that has
    none), [generate_response] comes to an end after two attempts at most:
    with any depth of two or more it returns what it returns with a depth of
    two.  The models of the bot are as they were, and either nothing is
    recorded and the answer is the one without language model, or the
    question and the answer are appended to the history and the answer is
    what the completion gave, on the same request, for the requested model or
    for the fallback model. *)
Theorem generate_response_ends_with_an_answer :
  forall (available : bool)
         (completion : string -> list CrimeAnalysisBot.message -> result string)
         (fuel : nat) (self : CrimeAnalysisBot.bot) (prompt : string)
         (model context : option string),
    CrimeAnalysisBot.fallback_model self <> ""
    \/ CrimeAnalysisBot.default_model self = "" ->
    (2 <= fuel)%nat ->
    exists self' answer,
      CrimeAnalysisBot.generate_response available completion fuel self prompt
        model context = Some (self', answer)
      /\ CrimeAnalysisBot.generate_response available completion 2 self prompt
           model context = Some (self', answer)
      /\ response_outcome available completion self prompt model context self' answer.
Proof.
  intros available completion fuel self prompt model context Hconfig Hfuel.
  destruct fuel as [| [| fuel]]; try lia.
  destruct (generate_response_always_returns available completion (S fuel) self prompt
              model context) as [[self' answer] E].
  exists self', answer. split; [exact E | split].
  - rewrite <- E. symmetry. apply generate_response_two_calls. exact Hconfig.
  - apply generate_response_outcome with (fuel := S (S fuel)). exact E.
Qed.

Lemma generate_response_ends_witness :
  exists self' answer,
    CrimeAnalysisBot.generate_response true (fun _ _ => Raise ValueError) 5
      (CrimeAnalysisBot.mkBot "gpt-5-nano" "claude-3-haiku-20240307" [])
      "Quelle est la tendance ?" None None = Some (self', answer)
    /\ CrimeAnalysisBot.generate_response true (fun _ _ => Raise ValueError) 2
         (CrimeAnalysisBot.mkBot "gpt-5-nano" "claude-3-haiku-20240307" [])
         "Quelle est la tendance ?" None None = Some (self', answer)
    /\ response_outcome true (fun _ _ => Raise ValueError)
         (CrimeAnalysisBot.mkBot "gpt-5-nano" "claude-3-haiku-20240307" [])
         "Quelle est la tendance ?" None None self' answer.
Proof.
  apply generate_response_ends_with_an_answer.
  - left. discriminate.
  - repeat constructor.
Defined.

(** X5: the history stays a sequence of questions, each followed by its
    answer: it is so for a new bot and after [clear_history], and
    [generate_response] and [answer_question] keep it so. *)
Theorem history_is_questions_and_answers :
  forall (available : bool)
         (completion : string -> list CrimeAnalysisBot.message -> result string)
         (environ : string -> option string) (default_model fallback_model : string)
         (fuel : nat) (self self' : CrimeAnalysisBot.bot) (prompt context : string)
         (model optional_context : option string) (answer : string),
    question_answer_pairs
      (CrimeAnalysisBot.conversation_history
         (CrimeAnalysisBot.__init__ environ default_model fallback_model)) = true
    /\ question_answer_pairs
         (CrimeAnalysisBot.conversation_history (CrimeAnalysisBot.clear_history self)) = true
    /\ (question_answer_pairs (CrimeAnalysisBot.conversation_history self) = true ->
        CrimeAnalysisBot.generate_response available completion fuel self prompt
          model optional_context = Some (self', answer) ->
        question_answer_pairs (CrimeAnalysisBot.conversation_history self') = true)
    /\ (question_answer_pairs (CrimeAnalysisBot.conversation_history self) = true ->
        CrimeAnalysisBot.answer_question available completion fuel self prompt
          context model = Some (self', answer) ->
        question_answer_pairs (CrimeAnalysisBot.conversation_history self') = true).
Proof.
  intros available completion environ default_model fallback_model fuel self self'
         prompt context model optional_context answer.
  assert (Hkeep : forall ctx,
             question_answer_pairs (CrimeAnalysisBot.conversation_history self) = true ->
             CrimeAnalysisBot.generate_response available completion fuel self prompt
               model ctx = Some (self', answer) ->
             question_answer_pairs (CrimeAnalysisBot.conversation_history self') = true).
  { intros ctx Hp E. apply generate_response_outcome in E.
    destruct E as [_ [_ [[Hh _] | [_ [Hh _]]]]]; rewrite Hh; [exact Hp |].
    rewrite (question_answer_pairs_app _ _ _ (le_n _) Hp). reflexivity. }
  split; [reflexivity | split; [reflexivity | split]].
  - apply Hkeep.
  - apply Hkeep.
Qed.

(** X6: [generate_response] returns whenever the call itself can be made,
    whatever the completion does; and when every completion fails, the answer
    is the one without language model and the bot is as it was, for every
    configuration of the models and every depth that the recursion limit
    leaves.  This holds also when the fallback model has no name and the
    default model has one, where each retry asks for the default model again
    and only the recursion limit ends the retries. *)
Theorem failing_completions_give_the_answer_without_model :
  forall (completion : string -> list CrimeAnalysisBot.message -> result string)
         (self : CrimeAnalysisBot.bot) (prompt : string) (context : option string),
    (forall m messages, is_ok (completion m messages) = false) ->
    forall (available : bool) (fuel : nat) (model : option string),
      CrimeAnalysisBot.generate_response available completion (S fuel) self prompt
        model context
      = Some (self, CrimeAnalysisBot._generate_fallback_response prompt).
Proof.
  intros completion self prompt context Hfail available fuel.
  induction fuel as [| fuel IH]; intro model.
  - cbn [CrimeAnalysisBot.generate_response].
    destruct available; cbn [negb]; [| reflexivity].
    pose proof (Hfail (CrimeAnalysisBot.or_else model (CrimeAnalysisBot.default_model self))
                      (request prompt context)) as Hc.
    unfold request in Hc.
    destruct (completion _ _); [discriminate Hc |].
    destruct (negb _); reflexivity.
  - rewrite generate_response_step.
    destruct available; cbn [negb]; [| reflexivity].
    pose proof (Hfail (CrimeAnalysisBot.or_else model (CrimeAnalysisBot.default_model self))
                      (request prompt context)) as Hc.
    destruct (completion _ _); [discriminate Hc |].
    destruct (negb _); [| reflexivity].
    rewrite IH. reflexivity.
Qed.

Lemma failing_completions_witness :
  CrimeAnalysisBot.generate_response true (fun _ _ => Raise ValueError) 1000
    (CrimeAnalysisBot.mkBot "gpt-5-nano" "" []) "Bonjour" None None
  = Some (CrimeAnalysisBot.mkBot "gpt-5-nano" "" [],
          CrimeAnalysisBot._generate_fallback_response "Bonjour").
Proof.
  apply (failing_completions_give_the_answer_without_model
           (fun _ _ => Raise ValueError)
           (CrimeAnalysisBot.mkBot "gpt-5-nano" "" []) "Bonjour" None
           (fun _ _ => eq_refl) true 999 None).
Defined.

Section AnalyzeTrends.

Variable LITELLM_AVAILABLE : bool.
Variable completion : string -> list CrimeAnalysisBot.message -> result string.
Context {F : Type} `{FloatArith F}.
Variable format_1f : F -> string.

Lemma analyze_trends_inv (fuel : nat) (self : CrimeAnalysisBot.bot) (df : DataFrame)
    (department : option string) (r : option (CrimeAnalysisBot.bot * string)) :
  CrimeAnalysisBot.analyze_trends LITELLM_AVAILABLE completion format_1f fuel self df
    department = Ok r ->
  exists context rest : string,
    r = CrimeAnalysisBot.generate_response LITELLM_AVAILABLE completion fuel self
          (text
             ["Analyse les tendances de criminalité basées sur ces informations:";
              "        "] ++ rest)%string
          None (Some context).
Proof.
  unfold CrimeAnalysisBot.analyze_trends. intro E.
  destruct (truthy_str department).
  - destruct (filter_eq "code_dept" _ df) as [df_filtered | e];
      cbn [rbind fst snd] in E; [| discriminate E].
    destruct (in_columns "annee" df_filtered && in_columns "faits" df_filtered).
    + destruct (DataLoader.groupby_sum "annee" df_filtered) as [evolution | e];
        cbn [rbind] in E; [| discriminate E].
      destruct (1 <? List.length evolution)%nat; cbn [rbind] in E;
        apply Ok_inj in E; subst r; eexists; eexists; reflexivity.
    + cbn [rbind] in E. apply Ok_inj in E. subst r. eexists; eexists; reflexivity.
  - cbn [rbind fst snd] in E.
    destruct (in_columns "annee" df && in_columns "faits" df).
    + destruct (DataLoader.groupby_sum "annee" df) as [evolution | e];
        cbn [rbind] in E; [| discriminate E].
      destruct (1 <? List.length evolution)%nat; cbn [rbind] in E;
        apply Ok_inj in E; subst r; eexists; eexists; reflexivity.
    + cbn [rbind] in E. apply Ok_inj in E. subst r. eexists; eexists; reflexivity.
Qed.

End AnalyzeTrends.

Lemma trend_prompt_fallback (rest : string) :
  CrimeAnalysisBot._generate_fallback_response
    (text
       ["Analyse les tendances de criminalité basées sur ces informations:";
        "        "] ++ rest)%string
  = "Les données montrent des variations selon les périodes et les territoires. Pour une analyse détaillée, consultez les graphiques ci-dessus.".
Proof.
  unfold CrimeAnalysisBot._generate_fallback_response.
  rewrite lower_app.
  unfold CrimeAnalysisBot.responses. cbn [CrimeAnalysisBot.first_response].
  rewrite contains_app_left; [reflexivity |].
  vm_compute. reflexivity.
Qed.

(** X7: asked for a department on a table without the column [code_dept],
    [analyze_trends] raises [KeyError] for that column before any request is
    made. *)
Theorem trend_analysis_needs_the_department_column :
  forall (available : bool)
         (completion : string -> list CrimeAnalysisBot.message -> result string)
         (F : Type) (arith : FloatArith F) (format_1f : F -> string) (fuel : nat)
         (self : CrimeAnalysisBot.bot)
         (df : DataFrame) (department : option string),
    truthy_str department = true ->
    in_columns "code_dept" df = false ->
    CrimeAnalysisBot.analyze_trends available completion format_1f fuel self df department
    = Raise (KeyError "code_dept").
Proof.
  intros available completion F arith format_1f fuel self df department Hd Hc.
  unfold CrimeAnalysisBot.analyze_trends. rewrite Hd.
  unfold filter_eq. apply index_of_absent in Hc. rewrite Hc. reflexivity.
Qed.

Lemma trend_analysis_needs_the_department_column_witness :
  CrimeAnalysisBot.analyze_trends false (fun _ _ => Raise ValueError)
    (fun _ : xfloat => "") 1
    (CrimeAnalysisBot.mkBot "gpt-5-nano" "claude-3-haiku-20240307" [])
    (mkDF ["annee"; "faits"] [[CInt 2020; CInt 4]]) (Some "75")
  = Raise (KeyError "code_dept").
Proof.
  apply trend_analysis_needs_the_department_column; reflexivity.
Defined.

(** X8: an answer of [analyze_trends] that leaves the history as it was did
    not come from a language model: the bot is unchanged, and the answer is
    the one of the keyword [tendance], which the prompt of the analysis
    always contains, whatever the table and the department. *)
Theorem trend_analysis_without_model_gives_the_trend_answer :
  forall (available : bool)
         (completion : string -> list CrimeAnalysisBot.message -> result string)
         (F : Type) (arith : FloatArith F) (format_1f : F -> string) (fuel : nat)
         (self self' : CrimeAnalysisBot.bot) (df : DataFrame)
         (department : option string) (answer : string),
    CrimeAnalysisBot.analyze_trends available completion format_1f fuel self df department
    = Ok (Some (self', answer)) ->
    CrimeAnalysisBot.conversation_history self'
    = CrimeAnalysisBot.conversation_history self ->
    self' = self
    /\ answer = "Les données montrent des variations selon les périodes et les territoires. Pour une analyse détaillée, consultez les graphiques ci-dessus.".
Proof.
  intros available completion F arith format_1f fuel self self' df department answer E Hh.
  apply analyze_trends_inv in E. destruct E as [context [rest E]].
  symmetry in E. apply generate_response_outcome in E.
  destruct E as [Hd [Hf [[_ Hans] | [_ [Hh' _]]]]].
  - split.
    + destruct self, self'. simpl in *. congruence.
    + rewrite Hans. apply trend_prompt_fallback.
  - rewrite Hh in Hh'. apply (f_equal (@List.length _)) in Hh'.
    rewrite length_app in Hh'. simpl in Hh'. lia.
Qed.

Lemma trend_analysis_without_model_witness :
  CrimeAnalysisBot.mkBot "gpt-5-nano" "claude-3-haiku-20240307" []
  = CrimeAnalysisBot.mkBot "gpt-5-nano" "claude-3-haiku-20240307" []
  /\ "Les données montrent des variations selon les périodes et les territoires. Pour une analyse détaillée, consultez les graphiques ci-dessus."
     = "Les données montrent des variations selon les périodes et les territoires. Pour une analyse détaillée, consultez les graphiques ci-dessus.".
Proof.
  apply (trend_analysis_without_model_gives_the_trend_answer
           true (fun _ _ => Raise ValueError) xfloat exact_arith (fun _ => "") 2
           (CrimeAnalysisBot.mkBot "gpt-5-nano" "claude-3-haiku-20240307" [])
           (CrimeAnalysisBot.mkBot "gpt-5-nano" "claude-3-haiku-20240307" [])
           Scenario.paris None); reflexivity.
Defined.

(** ** Calling an aggregation again *)

Lemma ensure_faits_again (df df' : DataFrame) :
  DataLoader.ensure_faits df = Ok df' -> DataLoader.ensure_faits df' = Ok df'.
Proof.
  intro E. apply ensure_faits_has_faits in E.
  unfold DataLoader.ensure_faits. rewrite E. reflexivity.
Qed.

(** X9: the count column is assigned once.  A second call of
    [get_department_stats], or of [get_temporal_evolution], on the table as
    the first call left it leaves the table as it is and returns what the
    first call returned; a table that has the column [faits] is not changed
    by either. *)
Theorem second_call_changes_nothing :
  forall (F : Type) (FA : FloatArith F) (df : DataFrame) (dept_code : option string),
    DataLoader.get_department_stats (fst (DataLoader.get_department_stats df))
    = DataLoader.get_department_stats df
    /\ DataLoader.get_temporal_evolution (F := F)
         (fst (DataLoader.get_temporal_evolution (F := F) df dept_code)) dept_code
       = DataLoader.get_temporal_evolution df dept_code
    /\ (in_columns "faits" df = true ->
        fst (DataLoader.get_department_stats df) = df
        /\ fst (DataLoader.get_temporal_evolution (F := F) df dept_code) = df).
Proof.
  intros F FA df dept_code. split; [| split].
  - unfold DataLoader.get_department_stats.
    destruct (DataLoader.ensure_faits df) as [df' | e] eqn:E; cbn [fst].
    + rewrite (ensure_faits_again _ _ E). reflexivity.
    + rewrite E. reflexivity.
  - unfold DataLoader.get_temporal_evolution.
    destruct (truthy_str dept_code) eqn:T; cbn [fst].
    + reflexivity.
    + destruct (DataLoader.ensure_faits df) as [df' | e] eqn:E; cbn [fst].
      * rewrite (ensure_faits_again _ _ E). reflexivity.
      * rewrite E. reflexivity.
  - intro Hf.
    assert (E : DataLoader.ensure_faits df = Ok df).
    { unfold DataLoader.ensure_faits. rewrite Hf. reflexivity. }
    unfold DataLoader.get_department_stats, DataLoader.get_temporal_evolution.
    rewrite E. destruct (truthy_str dept_code); split; reflexivity.
Qed.

(** ** The ranking and the department statistics *)

Section SortMap.

Context {A B : Type}.
Variable f : A -> B.
Variable le : A -> A -> bool.
Variable le' : B -> B -> bool.
Hypothesis le_f : forall a b, le' (f a) (f b) = le a b.

Lemma insert_sorted_map (x : A) (l : list A) :
  insert_sorted le' (f x) (map f l) = map f (insert_sorted le x l).
Proof.
  induction l as [| y l IH]; simpl; [reflexivity |].
  rewrite le_f. destruct (le x y); simpl; [reflexivity | rewrite IH; reflexivity].
Qed.

Lemma isort_map (l : list A) : isort le' (map f l) = map f (isort le l).
Proof.
  induction l as [| x l IH]; simpl; [reflexivity |].
  rewrite IH. apply insert_sorted_map.
Qed.

End SortMap.

Section Parts.

Variable proj : Z * Z -> Z.
Hypothesis proj_zero : proj (0, 0) = 0.
Hypothesis proj_add : forall a b, proj (DataLoader.add2 a b) = proj a + proj b.

Lemma group_total_part (kvs : list (key2 * (Z * Z))) (k : key2) :
  proj (group_total key2_eq_dec DataLoader.add2 (0, 0) kvs k)
  = group_total key2_eq_dec Z.add 0 (map (part proj) kvs) k.
Proof.
  unfold group_total. induction kvs as [| kv kvs IH]; [exact proj_zero |].
  cbn [map filter].
  assert (Ek : same_key key2_eq_dec k (part proj kv) = same_key key2_eq_dec k kv)
    by reflexivity.
  rewrite Ek. destruct (same_key key2_eq_dec k kv).
  - cbn [map fold_right]. rewrite proj_add, IH. reflexivity.
  - exact IH.
Qed.

Lemma groupby_agg_part (kvs : list (key2 * (Z * Z))) :
  map (part proj) (groupby_agg key2_eq_dec key2_leb DataLoader.add2 (0, 0) kvs)
  = groupby_agg key2_eq_dec key2_leb Z.add 0 (map (part proj) kvs).
Proof.
  unfold groupby_agg, group_keys.
  assert (E : map fst (map (part proj) kvs) = map fst kvs).
  { rewrite map_map. reflexivity. }
  rewrite E, map_map. apply map_ext. intro k. unfold part. cbn [fst snd].
  rewrite group_total_part. reflexivity.
Qed.

Lemma filter_part (p : key2 -> bool) (kvs : list (key2 * (Z * Z))) :
  map (part proj) (filter (fun kv => p (fst kv)) kvs)
  = filter (fun kv => p (fst kv)) (map (part proj) kvs).
Proof.
  induction kvs as [| kv kvs IH]; [reflexivity |].
  cbn [map filter part fst]. destruct (p (fst kv)); cbn [map]; rewrite IH; reflexivity.
Qed.

End Parts.

Lemma combine_sum_part (keys : list key2) (faits counts : list Z) :
  List.length faits = List.length counts ->
  map (part fst) (combine keys (combine faits counts)) = combine keys faits.
Proof.
  revert faits counts. induction keys as [| k keys IH]; intros faits counts Hl;
    [reflexivity |].
  destruct faits as [| x faits]; destruct counts as [| c counts];
    try discriminate Hl; [reflexivity |].
  cbn [combine map part fst snd]. rewrite IH; [reflexivity |].
  simpl in Hl. lia.
Qed.

Lemma combine_count_part (keys : list key2) (faits counts : list Z) :
  List.length faits = List.length counts ->
  map (part snd) (combine keys (combine faits counts)) = combine keys counts.
Proof.
  revert faits counts. induction keys as [| k keys IH]; intros faits counts Hl;
    [reflexivity |].
  destruct faits as [| x faits]; destruct counts as [| c counts];
    try discriminate Hl; [reflexivity |].
  cbn [combine map part fst snd]. rewrite IH; [reflexivity |].
  simpl in Hl. lia.
Qed.

Lemma department_groupby_inv (df : DataFrame) (stats : list DataLoader.dept_stat) :
  DataLoader.department_groupby df = Ok stats ->
  exists codes names faits annee counts,
    series "code_dept" df = Ok codes
    /\ series "departement" df = Ok names
    /\ series "faits" df = Ok faits
    /\ series "annee" df = Ok annee
    /\ summands faits = Ok counts
    /\ List.length counts = List.length (map year_recorded annee)
    /\ List.length (combine codes names) = List.length counts
    /\ stats
       = sort_desc DataLoader.ds_total_faits
           (map (fun kv : key2 * (Z * Z) =>
                   DataLoader.mkDeptStat (fst (fst kv)) (snd (fst kv))
                                         (fst (snd kv)) (snd (snd kv)))
                (groupby_agg key2_eq_dec key2_leb DataLoader.add2 (0, 0)
                   (filter (fun kv => key2_present (fst kv))
                      (combine (combine codes names)
                         (combine counts (map year_recorded annee)))))).
Proof.
  unfold DataLoader.department_groupby. intro E.
  apply rbind_ok in E. destruct E as [codes [Ec E]].
  apply rbind_ok in E. destruct E as [names [En E]].
  apply rbind_ok in E. destruct E as [faits [Ef E]].
  apply rbind_ok in E. destruct E as [annee [Ea E]].
  apply rbind_ok in E. destruct E as [counts [Es E]].
  apply Ok_inj in E.
  exists codes, names, faits, annee, counts.
  pose proof (summands_length _ _ Es) as Hs.
  pose proof (proj2 (series_ok_inv _ _ _ Ec)) as Hc.
  pose proof (proj2 (series_ok_inv _ _ _ En)) as Hn.
  pose proof (proj2 (series_ok_inv _ _ _ Ef)) as Hf.
  pose proof (proj2 (series_ok_inv _ _ _ Ea)) as Ha.
  repeat split; try assumption.
  - rewrite length_map. congruence.
  - rewrite length_combine. lia.
  - symmetry. exact E.
Qed.

(** X10: when [get_department_stats] returns, [get_top_departments] without
    year returns too, and its rows are the first [n] rows of the statistics
    (for a negative [n], all but the last [-n]), without the column of the
    number of records: both rank the same groups, ties in the same order. *)
Theorem top_departments_are_the_first_statistics :
  forall (df : DataFrame) (n : Z) (stats : list DataLoader.dept_stat),
    snd (DataLoader.get_department_stats df) = Ok stats ->
    snd (DataLoader.get_top_departments df n None)
    = Ok (head n (map top_of_stat stats)).
Proof.
  intros df n stats E.
  unfold DataLoader.get_department_stats in E.
  unfold DataLoader.get_top_departments, copy, DataLoader.filter_year.
  cbn [truthy_int snd rbind].
  destruct (DataLoader.ensure_faits df) as [df' | e]; cbn [snd] in E; [| discriminate E].
  cbn [rbind].
  destruct (department_groupby_inv _ _ E)
    as [codes [names [faits [annee [counts [Ec [En [Ef [Ea [Es [Hl [_ Estats]]]]]]]]]]]].
  unfold DataLoader.groupby2_sum. rewrite Ec, En, Ef. cbn [rbind]. rewrite Es. cbn [rbind].
  f_equal. f_equal. rewrite Estats.
  set (groups := groupby_agg key2_eq_dec key2_leb DataLoader.add2 (0, 0) _).
  assert (HG : groupby_agg key2_eq_dec key2_leb Z.add 0
                 (filter (fun kv : cell * cell * Z =>
                            negb (isna (fst (fst kv))) && negb (isna (snd (fst kv))))
                         (combine (combine codes names) counts))
               = map (part fst) groups).
  { symmetry. etransitivity; [apply groupby_agg_part; reflexivity |]. f_equal.
    etransitivity; [apply (filter_part fst key2_present) |]. f_equal.
    apply combine_sum_part. exact Hl. }
  rewrite HG. unfold sort_desc.
  rewrite <- (isort_map top_of_stat
                (fun a b => DataLoader.ds_total_faits b <=? DataLoader.ds_total_faits a)
                (fun a b => DataLoader.top_total_faits b <=? DataLoader.top_total_faits a))
    by reflexivity.
  f_equal. rewrite !map_map. apply map_ext. intro kv. reflexivity.
Qed.

Lemma top_departments_are_the_first_statistics_witness :
  snd (DataLoader.get_top_departments Scenario.three_territories 2 None)
  = Ok [DataLoader.mkTop (CStr "13") (CStr "Bouches-du-Rhone") 70;
        DataLoader.mkTop (CStr "75") (CStr "Paris") 55].
Proof.
  apply (top_departments_are_the_first_statistics Scenario.three_territories 2
           [DataLoader.mkDeptStat (CStr "13") (CStr "Bouches-du-Rhone") 70 1;
            DataLoader.mkDeptStat (CStr "75") (CStr "Paris") 55 2;
            DataLoader.mkDeptStat (CStr "69") (CStr "Rhone") 50 1]).
  reflexivity.
Defined.

Lemma total_where_recorded (keys : list key2) (annee : list cell) (k : key2) :
  0 <= total_where key2_eq_dec keys (map year_recorded annee) k
    <= Z.of_nat (List.length annee).
Proof.
  unfold total_where. revert annee.
  induction keys as [| k0 keys IH]; intros annee.
  - simpl. lia.
  - destruct annee as [| c annee]; [simpl; lia |].
    specialize (IH annee).
    cbn [map combine filter fst snd List.length].
    assert (Hc : 0 <= year_recorded c <= 1)
      by (unfold year_recorded; destruct (isna c); lia).
    set (rest := zsum _) in IH.
    destruct (key2_eq_dec k0 k); cbn [map snd];
      [change (zsum (year_recorded c :: ?l)) with (year_recorded c + zsum l) |];
      fold rest; lia.
Qed.

(** X11: when [get_department_stats] returns, the table it leaves is the
    argument with its count column resolved, and in the result the number of
    records of a department is the number of its rows in that table whose
    year is not missing ([count] skips the missing values), not the number of
    its rows; the departments are the pairs (code, name) present in that
    table, once each, and the rows come in descending order of total. *)
Theorem department_statistics_count_the_recorded_years :
  forall (df df' : DataFrame) (stats : list DataLoader.dept_stat),
    DataLoader.get_department_stats df = (df', Ok stats) ->
    exists codes names annee,
      DataLoader.ensure_faits df = Ok df'
      /\ series "code_dept" df' = Ok codes
      /\ series "departement" df' = Ok names
      /\ series "annee" df' = Ok annee
      /\ grouped_totals key2_eq_dec key2_present (combine codes names)
           (map year_recorded annee)
           (map (fun s => ((DataLoader.ds_code_dept s, DataLoader.ds_departement s),
                           DataLoader.ds_nb_enregistrements s))
                stats)
      /\ (forall s, In s stats ->
            0 <= DataLoader.ds_nb_enregistrements s <= Z.of_nat (List.length (rows df')))
      /\ StronglySorted
           (fun a b => DataLoader.ds_total_faits b <= DataLoader.ds_total_faits a)
           stats.
Proof.
  intros df df' stats E. unfold DataLoader.get_department_stats in E.
  destruct (DataLoader.ensure_faits df) as [d | e] eqn:Etie; [| discriminate E].
  injection E as Ed E. subst d.
  destruct (department_groupby_inv _ _ E)
    as [codes [names [faits [annee [counts [Ec [En [Ef [Ea [Es [Hl [Hk Estats]]]]]]]]]]]].
  exists codes, names, annee.
  set (groups := groupby_agg key2_eq_dec key2_leb DataLoader.add2 (0, 0) _) in Estats.
  assert (HG : map (part snd) groups
               = groupby_agg key2_eq_dec key2_leb Z.add 0
                   (filter (fun kv => key2_present (fst kv))
                           (combine (combine codes names) (map year_recorded annee)))).
  { etransitivity; [apply groupby_agg_part; reflexivity |]. f_equal.
    etransitivity; [apply (filter_part snd key2_present) |]. f_equal.
    apply combine_count_part. exact Hl. }
  assert (Hg : grouped_totals key2_eq_dec key2_present (combine codes names)
                 (map year_recorded annee)
                 (map (fun s => ((DataLoader.ds_code_dept s, DataLoader.ds_departement s),
                                 DataLoader.ds_nb_enregistrements s))
                      stats)).
  { apply (groupby_grouped_totals key2_eq_dec key2_leb).
    - unfold key2 in *. rewrite Hk. exact Hl.
    - apply Permutation_trans with (map (part snd) groups);
        [| rewrite HG; apply Permutation_refl].
      rewrite Estats.
      apply Permutation_trans
        with (map (fun s => ((DataLoader.ds_code_dept s, DataLoader.ds_departement s),
                             DataLoader.ds_nb_enregistrements s))
                  (map (fun kv : key2 * (Z * Z) =>
                          DataLoader.mkDeptStat (fst (fst kv)) (snd (fst kv))
                                                (fst (snd kv)) (snd (snd kv)))
                       groups)).
      + apply Permutation_map, sort_desc_perm.
      + rewrite map_map.
        erewrite map_ext; [apply Permutation_refl |].
        intros [[c m] [t r]]. reflexivity. }
  assert (Hnb : forall s, In s stats ->
             DataLoader.ds_nb_enregistrements s
             = total_where key2_eq_dec (combine codes names) (map year_recorded annee)
                 (DataLoader.ds_code_dept s, DataLoader.ds_departement s)).
  { intros s Hs. destruct Hg as [_ [_ Ht]]. apply Ht.
    apply in_map_iff. exists s. split; [reflexivity | exact Hs]. }
  split; [reflexivity |].
  split; [exact Ec | split; [exact En | split; [exact Ea | split; [exact Hg | split]]]].
  - intros s Hs. rewrite (Hnb s Hs).
    rewrite <- (proj2 (series_ok_inv _ _ _ Ea)).
    apply total_where_recorded.
  - rewrite Estats. apply sort_desc_sorted.
Qed.

Lemma department_statistics_count_witness :
  exists codes names annee,
    DataLoader.ensure_faits Example.unrecorded_year = Ok Example.unrecorded_year
    /\ series "code_dept" Example.unrecorded_year = Ok codes
    /\ series "departement" Example.unrecorded_year = Ok names
    /\ series "annee" Example.unrecorded_year = Ok annee
    /\ grouped_totals key2_eq_dec key2_present (combine codes names)
         (map year_recorded annee)
         (map (fun s => ((DataLoader.ds_code_dept s, DataLoader.ds_departement s),
                         DataLoader.ds_nb_enregistrements s))
              [DataLoader.mkDeptStat (CStr "75") (CStr "Paris") 8 1])
    /\ (forall s, In s [DataLoader.mkDeptStat (CStr "75") (CStr "Paris") 8 1] ->
          0 <= DataLoader.ds_nb_enregistrements s
            <= Z.of_nat (List.length (rows Example.unrecorded_year)))
    /\ StronglySorted
         (fun a b => DataLoader.ds_total_faits b <= DataLoader.ds_total_faits a)
         [DataLoader.mkDeptStat (CStr "75") (CStr "Paris") 8 1].
Proof.
  apply (department_statistics_count_the_recorded_years Example.unrecorded_year).
  reflexivity.
Defined.

(** ** The years of the evolution *)

(** X12: when [get_temporal_evolution] returns, the table that is grouped is
    the argument, filtered by the department when a code is given and with
    its count column resolved; the rows of the result are the years present
    in that table, once each and in ascending order, each with the sum of the
    counts of its rows, and the totals add up to the counts of the rows whose
    year is present; the percentage of the first row is the product of NaN by
    100, which is NaN in binary64 and in exact arithmetic. *)
Theorem temporal_evolution_lists_the_years_in_order :
  forall (F : Type) (FA : FloatArith F) (df : DataFrame) (dept_code : option string)
         (out : list (DataLoader.evolution_row F)),
    snd (DataLoader.get_temporal_evolution df dept_code) = Ok out ->
    (exists resolved years counts,
        rbind (DataLoader.filter_dept dept_code df) DataLoader.ensure_faits = Ok resolved
        /\ series "annee" resolved = Ok years
        /\ rbind (series "faits" resolved) summands = Ok counts
        /\ grouped_totals cell_eq_dec cell_present years counts
             (map (fun r => (DataLoader.ev_annee r, DataLoader.ev_total_faits r)) out)
        /\ StronglySorted (fun a b => cell_leb a b = true) (map DataLoader.ev_annee out)
        /\ zsum (map DataLoader.ev_total_faits out)
           = zsum (map snd (filter (fun kc => cell_present (fst kc))
                                   (combine years counts))))
    /\ (forall r rest, out = r :: rest ->
          DataLoader.ev_evolution_pct r = fmul fnan (float_of_int 100))
    /\ PrimFloat.is_nan (fmul (F := float) fnan (float_of_int 100)) = true
    /\ fmul (F := xfloat) fnan (float_of_int 100) = XNaN.
Proof.
  intros F FA df dept_code out E.
  destruct (temporal_evolution_rows _ _ _ E)
    as [resolved [years [counts [Etie [Ey [Ec [Hgt [Hsorted [Hsum [Hfirst _]]]]]]]]]].
  split; [| split; [exact Hfirst | split; reflexivity]].
  exists resolved, years, counts.
  split; [exact Etie | split; [exact Ey | split; [exact Ec | split; [exact Hgt |
    split; [exact Hsorted | exact Hsum]]]]].
Qed.

Lemma temporal_evolution_order_witness :
  StronglySorted (fun a b => cell_leb a b = true) [CInt 2020; CInt 2021]
  /\ (forall r rest,
         [DataLoader.mkEvolution (CInt 2020) 0 PrimFloat.nan;
          DataLoader.mkEvolution (CInt 2021) 50 PrimFloat.infinity] = r :: rest ->
         DataLoader.ev_evolution_pct r = PrimFloat.nan).
Proof.
  destruct (temporal_evolution_lists_the_years_in_order float binary64_arith
              Scenario.zero_prior None
              [DataLoader.mkEvolution (CInt 2020) 0 PrimFloat.nan;
               DataLoader.mkEvolution (CInt 2021) 50 PrimFloat.infinity])
    as [[resolved [years [counts [_ [_ [_ [_ [Hsorted _]]]]]]]] [Hfirst _]].
  { vm_compute. reflexivity. }
  split; [exact Hsorted | exact Hfirst].
Defined.

(** ** The rate column of the map *)

Lemma dict_get_in {V : Type} (k : string) (d : list (string * V)) (v : V) :
  dict_get k d = Some v -> In (k, v) d.
Proof.
  induction d as [| [k' v'] d IH]; simpl; [discriminate |].
  destruct (String.eqb k k') eqn:E.
  - apply String.eqb_eq in E. intro H. injection H as <-. left. subst k'. reflexivity.
  - intro H. right. apply IH, H.
Qed.

Lemma populations_are_positive (code : cell) (population : Z) :
  App.population_of code = Some population -> 0 < population.
Proof.
  destruct code as [z | s |]; try discriminate. cbn [App.population_of]. intro E.
  apply dict_get_in in E.
  assert (Hall : Forall (fun kv => 0 < snd kv) load_population_data)
    by (unfold load_population_data; repeat constructor).
  rewrite Forall_forall in Hall. apply (Hall (s, population) E).
Qed.

(** X13: the rate that the third tab puts in the column [taux] is the integer
    0 only for a department whose code is no key of the population table:
    every population of the table is positive, so for a code of the table the
    rate is the float [total_faits / population * 1000], and the guard of
    [calculate_crime_rate] on a population of zero is never taken.  The nine
    departments of the demonstration data are all in the table. *)
Theorem map_rate_of_a_department :
  forall (F : Type) (FA : FloatArith F) (stat : DataLoader.dept_stat),
    (forall population,
        App.population_of (DataLoader.ds_code_dept stat) = Some population ->
        0 < population
        /\ App.taux stat
           = PyFloat (fmul (fdiv (float_of_int (DataLoader.ds_total_faits stat))
                                 (float_of_int population))
                           (float_of_int 1000)))
    /\ (App.population_of (DataLoader.ds_code_dept stat) = None ->
        App.taux (F := F) stat = PyInt 0)
    /\ (forall code name,
           In (code, name) DataSource.departements ->
           exists population, App.population_of (CStr code) = Some population).
Proof.
  intros F FA stat. split; [| split].
  - intros population E. pose proof (populations_are_positive _ _ E) as Hp.
    split; [exact Hp |].
    unfold App.taux. rewrite E. unfold calculate_crime_rate.
    destruct (population =? 0) eqn:Ez; [apply Z.eqb_eq in Ez; lia | reflexivity].
  - intro E. unfold App.taux. rewrite E. reflexivity.
  - intros code name Hin. unfold DataSource.departements in Hin.
    repeat (destruct Hin as [Hin | Hin];
            [injection Hin as <- _; eexists; reflexivity |]).
    destruct Hin.
Qed.

(** ** The data source *)

Section DemoData.

Variable randint : nat -> Z.

Lemma demo_data_shape :
  columns (DataSource._create_demo_data randint)
  = ["code_dept"; "departement"; "annee"; "classe"; "faits"]
  /\ List.length (rows (DataSource._create_demo_data randint)) = 225%nat
  /\ well_formed (DataSource._create_demo_data randint) = true
  /\ numeric_counts (DataSource._create_demo_data randint) = true
  /\ canonical (DataSource._create_demo_data randint) = true.
Proof.
  repeat split; vm_compute; reflexivity.
Qed.

End DemoData.

(** X14: with no cache file and a download that fails, [load_crime_data]
    returns the demonstration table as [_create_demo_data] made it, whatever
    the draws: the normalizer changes nothing of it.  That table has the five
    columns of the schema and 225 rows (5 years, 9 departments, 5 classes),
    and each of the four aggregations returns on it.  A cache file is read
    instead of the download, and its table goes through the normalizer. *)
Theorem load_crime_data_falls_back_on_the_demo_data :
  forall (randint : nat -> Z) (parse_number : string -> option Z) (e : exn)
         (F : Type) (FA : FloatArith F),
    let demo := DataSource._create_demo_data randint in
    DataSource.load_crime_data randint parse_number None (Raise e) = Ok demo
    /\ columns demo = ["code_dept"; "departement"; "annee"; "classe"; "faits"]
    /\ List.length (rows demo) = 225%nat
    /\ is_ok (snd (DataLoader.get_department_stats demo)) = true
    /\ (forall dept_code,
           is_ok (snd (DataLoader.get_temporal_evolution (F := F) demo dept_code)) = true)
    /\ (forall dept_code year,
           is_ok (snd (DataLoader.get_crime_types_distribution (F := F) demo dept_code year))
           = true)
    /\ (forall n year, is_ok (snd (DataLoader.get_top_departments demo n year)) = true)
    /\ (forall read download,
           DataSource.load_crime_data randint parse_number (Some read) download
           = rbind read (DataLoader._clean_crime_data parse_number)).
Proof.
  intros randint parse_number e F FA demo.
  destruct (demo_data_shape randint) as [Hcols [Hrows [Hwf [Hnum Hcan]]]].
  fold demo in Hcols, Hrows, Hwf, Hnum, Hcan.
  assert (Hin : forall c, In c ["code_dept"; "departement"; "annee"; "classe"; "faits"] ->
                          in_columns c demo = true).
  { intros c Hc. unfold in_columns. rewrite Hcols.
    repeat (destruct Hc as [<- | Hc]; [reflexivity |]). destruct Hc. }
  split; [| split; [exact Hcols | split; [exact Hrows | split; [| split; [| split; [| split]]]]]].
  - unfold DataSource.load_crime_data. cbn [rbind]. apply canonical_is_fixed. exact Hcan.
  - destruct (get_department_stats_ok demo Hwf Hnum) as [df' [stats [_ E]]];
      [apply Hin; simpl; tauto | apply Hin; simpl; tauto | apply Hin; simpl; tauto |].
    rewrite E. reflexivity.
  - intro dept_code.
    destruct (get_temporal_evolution_ok (F := F) demo dept_code Hwf Hnum) as [out E];
      [apply Hin; simpl; tauto | intros _; apply Hin; simpl; tauto |].
    rewrite E. reflexivity.
  - intros dept_code year.
    destruct (get_crime_types_distribution_ok (F := F) demo dept_code year Hwf Hnum)
      as [out E];
      [apply Hin; simpl; tauto | intros _; apply Hin; simpl; tauto
       | intros _; apply Hin; simpl; tauto |].
    rewrite E. reflexivity.
  - intros n year.
    destruct (get_top_departments_ok demo n year Hwf Hnum) as [out E];
      [apply Hin; simpl; tauto | apply Hin; simpl; tauto
       | intros _; apply Hin; simpl; tauto |].
    rewrite E. reflexivity.
  - intros read download. reflexivity.
Qed.

(** ** When the summary is returned *)

Lemma extremum_from_numeric (want_max : bool) (acc : cell) (cs : list cell) :
  is_str acc = false ->
  forallb (fun x => negb (is_str x)) cs = true ->
  exists c, extremum_from want_max acc cs = Ok c /\ is_str c = false.
Proof.
  revert acc. induction cs as [| x cs IH]; intros acc Hacc Hcs.
  - exists acc. split; [reflexivity | exact Hacc].
  - cbn [forallb] in Hcs. apply andb_prop in Hcs. destruct Hcs as [Hx Hcs].
    cbn [extremum_from].
    destruct acc as [a | s |]; try discriminate Hacc;
      destruct x as [y | t |]; try discriminate Hx; cbn [pick rbind];
      apply IH; try reflexivity; exact Hcs.
Qed.

Lemma extremum_numeric (want_max : bool) (cs : list cell) :
  cs <> [] ->
  forallb (fun x => negb (is_str x)) cs = true ->
  exists c, extremum want_max cs = Ok c /\ is_str c = false.
Proof.
  intros Hne Hcs. destruct cs as [| x cs]; [contradiction |].
  cbn [forallb] in Hcs. apply andb_prop in Hcs. destruct Hcs as [Hx Hcs].
  cbn [extremum]. apply extremum_from_numeric; [| exact Hcs].
  destruct (is_str x); [discriminate Hx | reflexivity].
Qed.

Lemma format_f0_numeric (grouped : bool) (c : cell) :
  is_str c = false -> exists s, format_f0 grouped c = Ok s.
Proof.
  destruct c; [eexists; reflexivity | discriminate | eexists; reflexivity].
Qed.

Lemma unique_numeric (cs : list cell) :
  cs <> [] ->
  forallb (fun x => negb (is_str x)) cs = true ->
  unique cs <> [] /\ forallb (fun x => negb (is_str x)) (unique cs) = true.
Proof.
  intros Hne Hcs. unfold unique. split.
  - destruct cs as [| x cs]; [contradiction |].
    intro E.
    assert (Hin : In x (nodup cell_eq_dec (x :: cs))) by (apply nodup_In; left; reflexivity).
    rewrite E in Hin. exact Hin.
  - rewrite forallb_forall in *. intros x Hx. apply Hcs. apply nodup_In in Hx. exact Hx.
Qed.

Lemma rbind_returns {A B : Type} (m : result A) (k : A -> result B) :
  (exists a, m = Ok a) -> (forall a, exists b, k a = Ok b) ->
  exists b, rbind m k = Ok b.
Proof.
  intros [a ->] Hk. apply Hk.
Qed.

Lemma integer_cells_numeric (cs : list cell) :
  forallb is_int cs = true -> forallb (fun x => negb (is_str x)) cs = true.
Proof.
  rewrite !forallb_forall. intros H x Hx. specialize (H x Hx).
  destruct x; [reflexivity | discriminate H | reflexivity].
Qed.

(** X15: [get_data_summary] returns a text for every table that has a row,
    whose year column, when present, holds integers only (no missing year,
    as after the normalizer), whose count column, when present, holds no
    string, and whose columns named by digits hold none either when there is
    no count column. *)
Theorem summary_of_a_table_with_rows :
  forall df : DataFrame,
    rows df <> [] ->
    (in_columns "annee" df = true -> integer_column "annee" df = true) ->
    (in_columns "faits" df = true -> numeric_column "faits" df = true) ->
    (in_columns "faits" df = false ->
     forallb (fun c => numeric_column c df) (filter PyStr.isdigit (columns df)) = true) ->
    exists summary, get_data_summary df = Ok summary.
Proof.
  intros df Hrows Hyear Hfaits Hdigits.
  unfold get_data_summary. cbv zeta.
  apply rbind_returns; [| intro summary1; apply rbind_returns;
                          [| intro summary2; apply rbind_returns;
                             [| intro summary3; apply rbind_returns;
                                [| intro summary4; eexists; reflexivity]]]].
  - destruct (in_columns "annee" df) eqn:Ha; [| eexists; reflexivity].
    specialize (Hyear eq_refl). unfold integer_column in Hyear.
    destruct (series_present _ _ Ha) as [cs [Es Hl]]. rewrite Es in *. cbn [rbind].
    apply integer_cells_numeric in Hyear.
    assert (Hne : cs <> []).
    { intro E. rewrite E in Hl. destruct (rows df); [contradiction | discriminate Hl]. }
    destruct (unique_numeric cs Hne Hyear) as [Hune Hunum].
    destruct (extremum_numeric false _ Hune Hunum) as [lo [Elo Hlo]].
    destruct (extremum_numeric true _ Hune Hunum) as [hi [Ehi Hhi]].
    destruct (format_f0_numeric false lo Hlo) as [slo Eslo].
    destruct (format_f0_numeric false hi Hhi) as [shi Eshi].
    rewrite Elo. cbn [rbind]. rewrite Eslo. cbn [rbind]. rewrite Ehi. cbn [rbind].
    rewrite Eshi. cbn [rbind]. eexists. reflexivity.
  - destruct (in_columns "code_dept" df) eqn:Hc; [| eexists; reflexivity].
    destruct (series_present _ _ Hc) as [cs [Es _]]. rewrite Es. cbn [rbind].
    eexists. reflexivity.
  - destruct (in_columns "faits" df) eqn:Hf.
    + destruct (numeric_summands _ _ (Hfaits eq_refl)) as [cs [zs [Es Ez]]].
      rewrite Es. cbn [rbind]. rewrite Ez. cbn [rbind]. eexists. reflexivity.
    + destruct (existsb PyStr.isdigit (columns df)); [| eexists; reflexivity].
      specialize (Hdigits eq_refl). rewrite forallb_forall in Hdigits.
      apply rbind_returns; [| intro sums; eexists; reflexivity].
      apply map_result_all_ok.
      intros c Hc. destruct (numeric_summands _ _ (Hdigits c Hc)) as [cs [zs [Es Ez]]].
      rewrite Es. cbn [rbind]. rewrite Ez. cbn [rbind]. eexists. reflexivity.
  - destruct (in_columns "classe" df) eqn:Hk; [| eexists; reflexivity].
    destruct (series_present _ _ Hk) as [cs [Es _]]. rewrite Es. cbn [rbind].
    eexists. reflexivity.
Qed.

Lemma summary_of_a_table_with_rows_witness :
  exists summary, get_data_summary Scenario.monthly = Ok summary.
Proof.
  apply summary_of_a_table_with_rows.
  - discriminate.
  - reflexivity.
  - discriminate.
  - reflexivity.
Defined.

(** ** What the normalizer returns *)

Section NormalizerOutcome.

Variable parse_number : string -> option Z.

Lemma update_at_length (i : nat) (f : cell -> cell) (r : row) :
  List.length (update_at i f r) = List.length r.
Proof.
  revert i. induction r as [| c r IH]; intros [| i]; simpl; try reflexivity.
  rewrite IH. reflexivity.
Qed.

Lemma annee_to_numeric_outcome (df : DataFrame) :
  in_columns "annee" df = true ->
  if (1 <? count_occ string_dec (columns df) "annee")%nat
  then DataLoader.annee_to_numeric parse_number df = Raise TypeError
  else exists df',
      DataLoader.annee_to_numeric parse_number df = Ok df'
      /\ columns df' = columns df
      /\ List.length (rows df') = List.length (rows df)
      /\ (well_formed df = true -> well_formed df' = true).
Proof.
  intro Ha. unfold DataLoader.annee_to_numeric.
  destruct (1 <? count_occ string_dec (columns df) "annee")%nat; [reflexivity |].
  apply index_of_in_columns in Ha. destruct Ha as [i Ei]. rewrite Ei.
  eexists. split; [reflexivity |]. cbn [columns rows].
  split; [reflexivity | split; [apply length_map |]].
  unfold well_formed. cbn [columns rows]. rewrite !forallb_forall.
  intros Hwf r Hr. apply in_map_iff in Hr. destruct Hr as [r0 [<- Hr0]].
  rewrite update_at_length. apply Hwf, Hr0.
Qed.

Lemma select_shape (keep : row -> bool) (df : DataFrame) :
  columns (select keep df) = columns df
  /\ (List.length (rows (select keep df)) <= List.length (rows df))%nat
  /\ (well_formed df = true -> well_formed (select keep df) = true).
Proof.
  unfold select, well_formed. cbn [columns rows].
  split; [reflexivity | split; [apply filter_length_le |]].
  rewrite !forallb_forall. intros Hwf r Hr. apply filter_In in Hr. apply Hwf, Hr.
Qed.

End NormalizerOutcome.

(** X16: [_clean_crime_data] raises [TypeError] when more than one column
    is named [annee] once the labels are renamed (a table that has both
    [Millésime] and [annee], say), and returns otherwise; the table it
    returns has the labels of the argument renamed by the whole mapping (the
    restriction to the labels present changes nothing), in the same order, no
    more rows than the argument, and one cell per column in every row when
    the argument has. *)
Theorem normalizer_renames_and_drops_rows :
  forall (parse_number : string -> option Z) (df : DataFrame),
    let labels := map (rename_label DataLoader.column_mapping) (columns df) in
    ((1 <? count_occ string_dec labels "annee")%nat = true ->
     DataLoader._clean_crime_data parse_number df = Raise TypeError)
    /\ ((1 <? count_occ string_dec labels "annee")%nat = false ->
        exists df',
          DataLoader._clean_crime_data parse_number df = Ok df'
          /\ columns df' = labels
          /\ (List.length (rows df') <= List.length (rows df))%nat
          /\ (well_formed df = true -> well_formed df' = true)).
Proof.
  intros parse_number df labels.
  unfold DataLoader._clean_crime_data.
  pose proof (rename_present_columns df) as Hcols. fold labels in Hcols.
  set (df1 := rename_columns _ df) in *.
  assert (Hrows1 : rows df1 = rows df) by reflexivity.
  assert (Hwf1 : well_formed df = true -> well_formed df1 = true).
  { unfold well_formed. rewrite Hrows1, Hcols. unfold labels. rewrite length_map. tauto. }
  clearbody df1.
  assert (Hdrop : forall df2 : DataFrame,
             columns df2 = labels ->
             List.length (rows df2) = List.length (rows df) ->
             (well_formed df = true -> well_formed df2 = true) ->
             exists df',
               Ok (match filter (fun col => in_columns col df2)
                                ["code_dept"; "annee"; "classe"] with
                   | [] => df2
                   | _ :: _ => dropna (filter (fun col => in_columns col df2)
                                              ["code_dept"; "annee"; "classe"]) df2
                   end) = Ok df'
               /\ columns df' = labels
               /\ (List.length (rows df') <= List.length (rows df))%nat
               /\ (well_formed df = true -> well_formed df' = true)).
  { intros df2 Hc2 Hr2 Hw2. eexists. split; [reflexivity |].
    destruct (filter _ _) as [| l ls].
    - split; [exact Hc2 | split; [lia | exact Hw2]].
    - unfold dropna.
      destruct (select_shape
                  (fun r => forallb (fun j => negb (isna (cell_at j r)))
                                    (positions_from 0 (l :: ls) (columns df2))) df2)
        as [Hc [Hr Hw]].
      split; [congruence | split; [lia | auto]]. }
  split; intro Hcount.
  - assert (Ha : in_columns "annee" df1 = true).
    { destruct (in_columns "annee" df1) eqn:Ha; [reflexivity |].
      apply count_occ_absent in Ha. rewrite Hcols in Ha. rewrite Ha in Hcount.
      discriminate Hcount. }
    rewrite Ha. pose proof (annee_to_numeric_outcome parse_number df1 Ha) as Hout.
    rewrite Hcols, Hcount in Hout. rewrite Hout. reflexivity.
  - destruct (in_columns "annee" df1) eqn:Ha.
    + pose proof (annee_to_numeric_outcome parse_number df1 Ha) as Hout.
      rewrite Hcols, Hcount in Hout. destruct Hout as [df2 [E2 [Hc2 [Hr2 Hw2]]]].
      rewrite E2. cbn [rbind]. apply Hdrop; [congruence | congruence | auto].
    + cbn [rbind]. apply Hdrop; [exact Hcols | rewrite Hrows1; reflexivity | exact Hwf1].
Qed.
